(** * genetic-keyboard: the kinematic and cost core, embedded in Rocq

    The development follows the Python sources file by file:
    - [linalg.py]: [Vec2] and [Transform2dHomogeneous] (module [T2D]);
    - [armature.py]: [Bone] and [Armature];
    - [hand_movement.py]: [HandShape], [HandPosition] and [Hands];
    - [keyboard.py]: [Key], [Keyboard] and [generate_qwerty] (module
      [Qwerty]), without the rendering.

    Number model.  A Python [float] is read as a real number of the
    Standard Library ([R]); rounding, overflow and NaN are not modelled.
    [math.inf], the only non-real float the sources mention, is the
    constructor [math_inf] of the result type of [calculate_cost].
    [math.sin] and [math.cos] are [sin] and [cos] of [Rtrigo], and
    [math.radians] multiplies by [PI / 180].  Where the failures of the
    arithmetic itself are the subject, for [Vec2], the operations are given
    a second time on Python's numbers (modules [PyNum] and [PyVec2]): an
    [int] of any size or a [float] that is a real, an infinity or NaN, with
    the exceptions the operators and the [math] functions raise.

    Exceptions.  A call that can raise returns a [result]: [inl e] for the
    exception [e], [inr v] for the returned value [v].  Mutation of the
    armature's dictionary is state passing: [add_bone] returns the updated
    armature.

    Layout.  The definitions come first, one module per class, then the
    statements of the specification in its own words (module [Spec]), the
    concrete inputs (module [Inputs]) and the vocabulary of the further
    properties; the properties follow. *)

From Stdlib Require Import Reals Lra List.
From stdpp Require Import strings gmap.

(** ** Exceptions and results *)

(** Why the interpreter raises a [TypeError] in these sources. *)
Inductive type_error : Type :=
| unsupported_matmul
| not_callable
| init_takes_no_arguments.

(** [ValueError], [KeyError] and [AssertionError] carry the argument the
    program (or the dictionary lookup) gives them. *)
Inductive exn : Type :=
| TypeError (why : type_error)
| ValueError (msg : string)
| KeyError (arg : string)
| AttributeError (attr : string)
| AssertionError (msg : string)
| ZeroDivisionError
| OverflowError.

Definition result (A : Type) : Type := (exn + A)%type.

Definition ret {A : Type} (a : A) : result A := inr a.

Definition raise {A : Type} (e : exn) : result A := inl e.

Definition bind {A B : Type} (m : result A) (k : A -> result B) : result B :=
  match m with
  | inl e => inl e
  | inr a => k a
  end.

Declare Scope result_scope.
Delimit Scope result_scope with result.
Notation "'let!' x ':=' m 'in' k" := (bind m (fun x => k))
  (at level 10, x name, m at level 100, k at level 200) : result_scope.

Definition raises {A : Type} (m : result A) : Prop :=
  match m with
  | inl _ => True
  | inr _ => False
  end.

Definition returns {A : Type} (m : result A) : Prop :=
  match m with
  | inl _ => False
  | inr _ => True
  end.

(** ** Float primitives *)

Module PyFloat.
Local Open Scope R_scope.

(** [a < b] and [a > b] on floats, as booleans. *)
Definition ltb (a b : R) : bool := if Rlt_dec a b then true else false.
Definition gtb (a b : R) : bool := if Rgt_dec a b then true else false.
Definition leb (a b : R) : bool := if Rle_dec a b then true else false.

(** [a / b]: Python raises [ZeroDivisionError] on a zero divisor. *)
Definition truediv (a b : R) : result R :=
  if Req_dec_T b 0 then raise ZeroDivisionError
  else ret (a / b).
End PyFloat.

Module math.
Local Open Scope R_scope.

(** [math.radians(x)]. *)
Definition radians (x : R) : R := x * (PI / 180).
End math.

(** ** linalg.py *)

Module Vec2.
Local Open Scope R_scope.
Local Open Scope result_scope.

Record t : Type := mk { x : R; y : R }.

Definition __add__ (self other : t) : t :=
  mk (x self + x other) (y self + y other).

Definition __sub__ (self other : t) : t :=
  mk (x self - x other) (y self - y other).

Definition __truediv__ (self : t) (other : R) : result t :=
  let! qx := PyFloat.truediv (x self) other in
  let! qy := PyFloat.truediv (y self) other in
  ret (mk qx qy).

Definition __mul__ (self : t) (other : R) : t :=
  mk (x self * other) (y self * other).

Definition rotate (self : t) (angle : R) : t :=
  mk (x self * cos angle - y self * sin angle)
     (x self * sin angle + y self * cos angle).

Definition dot (self other : t) : R :=
  x self * x other + y self * y other.

Definition unit_vector (angle : R) : t := mk (cos angle) (sin angle).

Definition unit_vector_deg (angle : R) : t :=
  unit_vector (math.radians angle).

(** The [length] property: [math.sqrt(self.x**2 + self.y**2)]. *)
Definition length (self : t) : R := sqrt (x self ^ 2 + y self ^ 2).
End Vec2.

(** ** The same vector operations, on Python's numbers

    Module [Vec2] above gives the values of the methods on real components.
    Here the components and arguments are what Python can pass for a number,
    an [int] of any size or a [float], and every operator and [math] call
    raises what the interpreter raises; [PyVec2] is [Vec2] again, written
    with these operations in the order the expressions evaluate them. *)

Module PyNum.
Local Open Scope R_scope.
Local Open Scope result_scope.

(** A float: a real, or one of the three values that are not reals.
    Rounding, and a result too large becoming [inf], are not modelled. *)
Inductive flt : Type :=
| finite (r : R)
| pos_inf
| neg_inf
| nan.

Inductive t : Type :=
| int (z : Z)
| float (f : flt).

(** The first magnitude an int can no longer be rounded to a float at:
    from 2^1024 - 2^970 on, rounding to 53 bits reaches 2^1024. *)
Definition float_limit : Z := 2 ^ 1024 - 2 ^ 970.

(** The conversion every float operation and [math] function applies to an
    int operand: [OverflowError], "int too large to convert to float". *)
Definition as_float (n : t) : result flt :=
  match n with
  | float f => ret f
  | int z =>
      if (Z.abs z <? float_limit)%Z then ret (finite (IZR z))
      else raise OverflowError
  end.

(** Float arithmetic; none of it raises. *)
Definition fneg (a : flt) : flt :=
  match a with
  | finite x => finite (- x)
  | pos_inf => neg_inf
  | neg_inf => pos_inf
  | nan => nan
  end.

Definition fadd (a b : flt) : flt :=
  match a, b with
  | nan, _ | _, nan => nan
  | finite x, finite y => finite (x + y)
  | pos_inf, neg_inf | neg_inf, pos_inf => nan
  | pos_inf, _ | _, pos_inf => pos_inf
  | neg_inf, _ | _, neg_inf => neg_inf
  end.

Definition fsub (a b : flt) : flt := fadd a (fneg b).

(** An infinity times a real: the sign of the real decides, and 0 gives
    [nan]. *)
Definition scale_inf (positive : bool) (x : R) : flt :=
  if Rlt_dec 0 x then (if positive then pos_inf else neg_inf)
  else if Rlt_dec x 0 then (if positive then neg_inf else pos_inf)
  else nan.

Definition fmul (a b : flt) : flt :=
  match a, b with
  | nan, _ | _, nan => nan
  | finite x, finite y => finite (x * y)
  | finite x, pos_inf | pos_inf, finite x => scale_inf true x
  | finite x, neg_inf | neg_inf, finite x => scale_inf false x
  | pos_inf, pos_inf | neg_inf, neg_inf => pos_inf
  | pos_inf, neg_inf | neg_inf, pos_inf => neg_inf
  end.

(** [a / b] for a divisor that is not zero. *)
Definition fdiv (a b : flt) : flt :=
  match a, b with
  | nan, _ | _, nan => nan
  | finite x, finite y => finite (x / y)
  | finite _, _ => finite 0
  | pos_inf, finite y => scale_inf true y
  | neg_inf, finite y => scale_inf false y
  | _, _ => nan
  end.

Definition is_zero (a : flt) : bool :=
  match a with
  | finite x => if Req_dec_T x 0 then true else false
  | _ => false
  end.

(** [a + b], [a - b], [a * b]: exact on two ints; otherwise the int operand,
    if any, is converted and the floats are combined. *)
Definition add (a b : t) : result t :=
  match a, b with
  | int x, int y => ret (int (x + y))
  | _, _ =>
      let! fa := as_float a in
      let! fb := as_float b in
      ret (float (fadd fa fb))
  end.

Definition sub (a b : t) : result t :=
  match a, b with
  | int x, int y => ret (int (x - y))
  | _, _ =>
      let! fa := as_float a in
      let! fb := as_float b in
      ret (float (fsub fa fb))
  end.

Definition mul (a b : t) : result t :=
  match a, b with
  | int x, int y => ret (int (x * y))
  | _, _ =>
      let! fa := as_float a in
      let! fb := as_float b in
      ret (float (fmul fa fb))
  end.

(** [a / b].  On two ints: [ZeroDivisionError] for the divisor 0, and
    [OverflowError] when the quotient is too large for a float.  Otherwise
    the int operand, if any, is converted first, then a zero divisor is
    [ZeroDivisionError]. *)
Definition truediv (a b : t) : result t :=
  match a, b with
  | int x, int y =>
      if (y =? 0)%Z then raise ZeroDivisionError
      else if Rlt_dec (Rabs (IZR x / IZR y)) (IZR float_limit)
           then ret (float (finite (IZR x / IZR y)))
           else raise OverflowError
  | _, _ =>
      let! fa := as_float a in
      let! fb := as_float b in
      if is_zero fb then raise ZeroDivisionError
      else ret (float (fdiv fa fb))
  end.

(** [math.cos] and [math.sin]: the argument is converted to a float; an
    infinite argument is a [ValueError], "math domain error"; [nan] gives
    [nan]. *)
Definition math_cos (n : t) : result t :=
  let! f := as_float n in
  match f with
  | finite x => ret (float (finite (cos x)))
  | nan => ret (float nan)
  | _ => raise (ValueError "math domain error")
  end.

Definition math_sin (n : t) : result t :=
  let! f := as_float n in
  match f with
  | finite x => ret (float (finite (sin x)))
  | nan => ret (float nan)
  | _ => raise (ValueError "math domain error")
  end.

(** [math.radians]: the converted argument times pi / 180. *)
Definition math_radians (n : t) : result t :=
  let! f := as_float n in
  ret (float (fmul f (finite (PI / 180)))).

(** A real as a float. *)
Definition real (r : R) : t := float (finite r).
End PyNum.

Module PyVec2.
Local Open Scope result_scope.

Record t : Type := mk { x : PyNum.t; y : PyNum.t }.

Definition __add__ (self other : t) : result t :=
  let! nx := PyNum.add (x self) (x other) in
  let! ny := PyNum.add (y self) (y other) in
  ret (mk nx ny).

Definition __sub__ (self other : t) : result t :=
  let! nx := PyNum.sub (x self) (x other) in
  let! ny := PyNum.sub (y self) (y other) in
  ret (mk nx ny).

Definition __truediv__ (self : t) (other : PyNum.t) : result t :=
  let! nx := PyNum.truediv (x self) other in
  let! ny := PyNum.truediv (y self) other in
  ret (mk nx ny).

Definition __mul__ (self : t) (other : PyNum.t) : result t :=
  let! nx := PyNum.mul (x self) other in
  let! ny := PyNum.mul (y self) other in
  ret (mk nx ny).

Definition rotate (self : t) (angle : PyNum.t) : result t :=
  let! c := PyNum.math_cos angle in
  let! xc := PyNum.mul (x self) c in
  let! s := PyNum.math_sin angle in
  let! ys := PyNum.mul (y self) s in
  let! nx := PyNum.sub xc ys in
  let! s' := PyNum.math_sin angle in
  let! xs := PyNum.mul (x self) s' in
  let! c' := PyNum.math_cos angle in
  let! yc := PyNum.mul (y self) c' in
  let! ny := PyNum.add xs yc in
  ret (mk nx ny).

Definition dot (self other : t) : result PyNum.t :=
  let! xx := PyNum.mul (x self) (x other) in
  let! yy := PyNum.mul (y self) (y other) in
  PyNum.add xx yy.

Definition unit_vector (angle : PyNum.t) : result t :=
  let! c := PyNum.math_cos angle in
  let! s := PyNum.math_sin angle in
  ret (mk c s).

Definition unit_vector_deg (angle : PyNum.t) : result t :=
  let! r := PyNum.math_radians angle in
  unit_vector r.

(** A vector of [Vec2], its components as floats. *)
Definition of_reals (v : Vec2.t) : t :=
  mk (PyNum.real (Vec2.x v)) (PyNum.real (Vec2.y v)).
End PyVec2.

(** The words the failure modes of [PyVec2] are stated with. *)
Module Vec2Spec.

(** The number converts to a float: any float, and an int below the limit. *)
Definition fits (n : PyNum.t) : Prop :=
  match n with
  | PyNum.int z => (Z.abs z < PyNum.float_limit)%Z
  | PyNum.float _ => True
  end.

(** The number is one of the two infinite floats. *)
Definition infinite (n : PyNum.t) : Prop :=
  n = PyNum.float PyNum.pos_inf \/ n = PyNum.float PyNum.neg_inf.

(** [a + b], [a - b] or [a * b] pairs a float with an int that does not
    convert. *)
Definition overflows (a b : PyNum.t) : Prop :=
  match a, b with
  | PyNum.int _, PyNum.int _ => False
  | _, _ => ~ fits a \/ ~ fits b
  end.
End Vec2Spec.

Module T2D.
Local Open Scope R_scope.

(** [self.matrix] is a 3x3 numpy array, kept as its list of rows. *)
Record t : Type := mk { matrix : list (list R) }.

(** [np.identity(3)]. *)
Definition identity3 : list (list R) :=
  [[1; 0; 0]; [0; 1; 0]; [0; 0; 1]].

(** [m[i, j] = v]. *)
Definition set_entry (m : list (list R)) (i j : nat) (v : R) : list (list R) :=
  alter (fun row => <[j := v]> row) i m.

Definition __init__ : t := mk identity3.

Definition new_translation_matrix (translation : Vec2.t) : t :=
  let mat := __init__ in
  let mat := mk (set_entry (matrix mat) 0 2 (Vec2.x translation)) in
  let mat := mk (set_entry (matrix mat) 1 2 (Vec2.y translation)) in
  mat.

Definition new_rotation_matrix (rotation_rad : R) : t :=
  let mat := __init__ in
  let mat := mk (set_entry (matrix mat) 0 0 (cos rotation_rad)) in
  let mat := mk (set_entry (matrix mat) 0 1 (- sin rotation_rad)) in
  let mat := mk (set_entry (matrix mat) 1 0 (sin rotation_rad)) in
  let mat := mk (set_entry (matrix mat) 1 1 (cos rotation_rad)) in
  mat.

Definition new_rotation_matrix_deg (rotation_deg : R) : t :=
  new_rotation_matrix (math.radians rotation_deg).

(** [a @ b] for two 3x3 numpy arrays: the matrix product. *)
Definition np_dot (u v : list R) : R := foldr Rplus 0 (zip_with Rmult u v).

Definition np_column (m : list (list R)) (j : nat) : list R :=
  map (fun row => nth j row 0) m.

Definition np_matmul (a b : list (list R)) : list (list R) :=
  map (fun row => map (fun j => np_dot row (np_column b j)) (seq 0 3)) a.

Definition chain_translate (self : t) (translation : Vec2.t) : t :=
  let to_multiply := new_translation_matrix translation in
  let mat := __init__ in
  let mat := mk (np_matmul (matrix self) (matrix to_multiply)) in
  mat.

Definition chain_rotate (self : t) (rotation_rad : R) : t :=
  let to_multiply := new_rotation_matrix rotation_rad in
  let mat := __init__ in
  let mat := mk (np_matmul (matrix self) (matrix to_multiply)) in
  mat.

Definition chain_rotate_deg (self : t) (rotation_deg : R) : t :=
  chain_rotate self (math.radians rotation_deg).

(** [self.matrix[i, j]]. *)
Definition entry (self : t) (i j : nat) : R := nth j (nth i (matrix self) []) 0.

(** The composition the [chain_*] methods compute, as a binary operation on
    transforms.  The class does not offer it as an operator. *)
Definition compose (a b : t) : t := mk (np_matmul (matrix a) (matrix b)).

(** The class body defines [__init__], the three constructors above and
    the three [chain_*] methods.  It defines neither [__matmul__] nor
    [__rmatmul__], so the class has no implementation of [@], and it has
    no attribute [multiply_point]. *)
Definition __matmul__ : option (t -> t -> t) := None.
Definition multiply_point : option (t -> Vec2.t -> Vec2.t) := None.
End T2D.

(** ** armature.py *)

Module Bone.
Local Open Scope R_scope.
Local Open Scope result_scope.

(** The attributes [__init__] sets on a bone.  [parent] is a reference to
    another bone or [None]; chains of parents are finite here. *)
#[warnings="-register-all"]
Inductive t : Type :=
  mk (_name : string) (_pos_offset : Vec2.t) (_length : R)
     (_rotation_rad : R) (parent : option t).

Definition _name (self : t) : string :=
  match self with mk n _ _ _ _ => n end.
Definition _pos_offset (self : t) : Vec2.t :=
  match self with mk _ o _ _ _ => o end.
Definition _length (self : t) : R :=
  match self with mk _ _ l _ _ => l end.
Definition _rotation_rad (self : t) : R :=
  match self with mk _ _ _ r _ => r end.
Definition parent (self : t) : option t :=
  match self with mk _ _ _ _ p => p end.

(** [Bone(name, pos_offset, length, rotation_rad, parent=None)]: the last
    line of the constructor is [self.parent = None], whatever [parent]
    was passed. *)
Definition __init__ (name : string) (pos_offset : Vec2.t) (length : R)
    (rotation_rad : R) (parent : option t) : t :=
  mk name pos_offset length rotation_rad None.

(** The [name] property. *)
Definition name (self : t) : string := _name self.

(** [bone.parent = p], an assignment to the public attribute. *)
Definition set_parent (self : t) (p : option t) : t :=
  mk (_name self) (_pos_offset self) (_length self) (_rotation_rad self) p.

Section TransformClass.
(** What the class of the transforms provides: its implementation of
    [@], if any, and its method [multiply_point], if any. *)
Variable matmul_slot : option (T2D.t -> T2D.t -> T2D.t).
Variable multiply_point_attr : option (T2D.t -> Vec2.t -> Vec2.t).

(** [a @ b] for two transforms: both operands have the same class, so
    only that class's [__matmul__] is tried. *)
Definition matmul (a b : T2D.t) : result T2D.t :=
  match matmul_slot with
  | Some f => ret (f a b)
  | None =>
      raise (TypeError unsupported_matmul)
  end.

(** [transform.multiply_point(p)]. *)
Definition call_multiply_point (transform : T2D.t) (p : Vec2.t) : result Vec2.t :=
  match multiply_point_attr with
  | Some f => ret (f transform p)
  | None =>
      raise (AttributeError "multiply_point")
  end.

Definition get_transform_local_with (self : t) : result T2D.t :=
  matmul (T2D.new_translation_matrix (_pos_offset self))
         (T2D.new_rotation_matrix (_rotation_rad self)).

Fixpoint get_transform_world_with (self : t) : result T2D.t :=
  match self with
  | mk _ _ _ _ None => get_transform_local_with self
  | mk _ _ _ _ (Some p) =>
      let! w := get_transform_world_with p in
      let! l := get_transform_local_with self in
      matmul w l
  end.

Definition get_worldspace_positions_with (self : t) : result (Vec2.t * Vec2.t) :=
  let! transform := get_transform_world_with self in
  let! p0 := call_multiply_point transform (Vec2.mk 0 0) in
  let! p1 := call_multiply_point transform (Vec2.mk (_length self) 0) in
  ret (p0, p1).
End TransformClass.

(** The methods of the source, with the transform class as it is. *)
Definition get_transform_local : t -> result T2D.t :=
  get_transform_local_with T2D.__matmul__.

Definition get_transform_world : t -> result T2D.t :=
  get_transform_world_with T2D.__matmul__.

Definition get_worldspace_positions : t -> result (Vec2.t * Vec2.t) :=
  get_worldspace_positions_with T2D.__matmul__ T2D.multiply_point.
End Bone.

Module Armature.
Local Open Scope result_scope.

(** The only instance attribute is the dictionary [_bones]. *)
Record t : Type := mk { _bones : gmap string Bone.t }.

(** [name in d] for a dictionary [d]. *)
Definition contains (d : gmap string Bone.t) (name : string) : bool :=
  bool_decide (is_Some (d !! name)).

Definition add_bone (self : t) (bone : Bone.t) : result t :=
  if contains (_bones self) (Bone.name bone) then
    raise (ValueError ("Bone with name " +:+ Bone.name bone +:+ " already exists."))
  else
    match Bone.parent bone with
    | Some p =>
        if negb (contains (_bones self) (Bone.name p)) then
          raise (KeyError ("Bone with name " +:+ Bone.name p
                           +:+ " does not exist in the armature."))
        else ret (mk (<[Bone.name bone := bone]> (_bones self)))
    | None => ret (mk (<[Bone.name bone := bone]> (_bones self)))
    end.

(** The dictionary comprehension of [get_worldspace_positions], over the
    items of [_bones]: the first bone whose query raises ends it. *)
Fixpoint worldspace_items (items : list (string * Bone.t))
    : result (gmap string (Vec2.t * Vec2.t)) :=
  match items with
  | [] => ret ∅
  | (name, bone) :: rest =>
      let! v := Bone.get_worldspace_positions bone in
      let! d := worldspace_items rest in
      ret (<[name := v]> d)
  end.

Definition get_worldspace_positions (self : t)
    : result (gmap string (Vec2.t * Vec2.t)) :=
  worldspace_items (map_to_list (_bones self)).

(** What an attribute access on an armature can yield: the dictionary, a
    function defined in the class body bound to the instance, a bone, or one
    of the attributes every instance takes from its class object and from
    [object], whose value is not modelled. *)
Inductive attr : Type :=
| attr_dict (d : gmap string Bone.t)
| attr_method (name : string)
| attr_bone (b : Bone.t)
| attr_inherited (name : string).

(** The functions of the class body. *)
Definition class_functions : list string :=
  ["__init__"; "add_bone"; "get_worldspace_positions"; "__getattribute__"].

(** The attributes an instance takes from its class object and from
    [object], beside the functions above (CPython 3.11). *)
Definition inherited_attributes : list string :=
  ["__class__"; "__delattr__"; "__dict__"; "__dir__"; "__doc__"; "__eq__";
   "__format__"; "__ge__"; "__getstate__"; "__gt__"; "__hash__";
   "__init_subclass__"; "__le__"; "__lt__"; "__module__"; "__ne__"; "__new__";
   "__reduce__"; "__reduce_ex__"; "__repr__"; "__setattr__"; "__sizeof__";
   "__str__"; "__subclasshook__"; "__weakref__"].

(** [super().__getattribute__(name)], the default lookup: the instance
    attribute [_bones], then the functions of the class, then the inherited
    attributes; any other name is an [AttributeError]. *)
Definition object_getattribute (self : t) (name : string) : result attr :=
  if String.eqb name "_bones" then ret (attr_dict (_bones self))
  else if bool_decide (name ∈ class_functions) then ret (attr_method name)
  else if bool_decide (name ∈ inherited_attributes) then ret (attr_inherited name)
  else raise (AttributeError name).

(** [Armature.__getattribute__], which every [armature.name] goes through:
    a name with a leading underscore is looked up as usual, any other name
    is a key of [self._bones] (itself fetched through the first branch). *)
Definition __getattribute__ (self : t) (__name : string) : result attr :=
  if String.prefix "_" __name then object_getattribute self __name
  else
    match _bones self !! __name with
    | Some b => ret (attr_bone b)
    | None => raise (KeyError __name)
    end.

(** [self.add_bone(bone)]: the attribute is fetched from the instance, then
    called; neither a bone nor a dictionary is callable.  The name fetched
    has no leading underscore, so the last case is never met. *)
Definition call_add_bone (self : t) (bone : Bone.t) : result t :=
  let! f := __getattribute__ self "add_bone" in
  match f with
  | attr_method _ => add_bone self bone
  | attr_bone _ => raise (TypeError not_callable)
  | attr_dict _ => raise (TypeError not_callable)
  | attr_inherited _ => raise (TypeError not_callable)
  end.

(** [self.get_worldspace_positions()], fetched from the instance likewise. *)
Definition call_get_worldspace_positions (self : t)
    : result (gmap string (Vec2.t * Vec2.t)) :=
  let! f := __getattribute__ self "get_worldspace_positions" in
  match f with
  | attr_method _ => get_worldspace_positions self
  | attr_bone _ => raise (TypeError not_callable)
  | attr_dict _ => raise (TypeError not_callable)
  | attr_inherited _ => raise (TypeError not_callable)
  end.

(** The loop [for bone in bones: self.add_bone(bone)]. *)
Fixpoint add_all (self : t) (bones : list Bone.t) : result t :=
  match bones with
  | [] => ret self
  | bone :: rest =>
      let! self' := call_add_bone self bone in
      add_all self' rest
  end.

Definition __init__ (bones : option (list Bone.t)) : result t :=
  let self := mk ∅ in
  match bones with
  | Some l => add_all self l
  | None => ret self
  end.
End Armature.

(** ** hand_movement.py *)

Module HandShape.
Local Open Scope R_scope.
Local Open Scope result_scope.

(** The fields of the dataclass, in the order of the class body; angles in
    degrees, positions and lengths in millimetres.  A value of [t] is what
    [calculate_cost] and [get_fingertip_coords] read from their [hand_shape]:
    an object carrying these attributes, however it came to be. *)
Record t : Type := mk {
  wrist_inwards_bound : R;
  wrist_inwards_difficulty : R;
  wrist_outwards_bound : R;
  wrist_outwards_difficulty : R;
  wrist_rest_position : R;
  thumb_root_position : R * R;
  index_root_position : R * R;
  middle_root_position : R * R;
  ring_root_position : R * R;
  pinky_root_position : R * R;
  thumb_length : R;
  index_length : R;
  middle_length : R;
  ring_length : R;
  pinky_length : R;
  index_max_splay : R;
  index_splay_cost : R;
  middle_max_splay : R;
  middle_splay_cost : R;
  ring_max_splay : R;
  ring_splay_cost : R;
  pinky_max_splay : R;
  pinky_splay_cost : R;
  thumb_down_splay_bound : R;
  thumb_up_splay_bound : R;
  thumb_rest_position : R;
  thumb_splay_cost : R;
  index_max_contraction : R;
  index_default_contraction : R;
  index_contraction_cost : R;
  middle_max_contraction : R;
  middle_default_contraction : R;
  middle_contraction_cost : R;
  ring_max_contraction : R;
  ring_default_contraction : R;
  ring_contraction_cost : R;
  pinky_max_contraction : R;
  pinky_default_contraction : R;
  pinky_contraction_cost : R;
  thumb_max_contraction : R;
  thumb_default_contraction : R;
  thumb_contraction_cost : R
}.

(** The default of each field, which stays a class attribute. *)
Definition defaults : t := {|
  wrist_inwards_bound := 15;
  wrist_inwards_difficulty := 1;
  wrist_outwards_bound := 30;
  wrist_outwards_difficulty := 0.5;
  wrist_rest_position := 10;
  thumb_root_position := (40, 20);
  index_root_position := (19, 80);
  middle_root_position := (3, 82);
  ring_root_position := (-16, 80);
  pinky_root_position := (-30, 78);
  thumb_length := 45;
  index_length := 70;
  middle_length := 73;
  ring_length := 71;
  pinky_length := 65;
  index_max_splay := 30;
  index_splay_cost := 0.3;
  middle_max_splay := 20;
  middle_splay_cost := 0.35;
  ring_max_splay := 23;
  ring_splay_cost := 0.4;
  pinky_max_splay := 43;
  pinky_splay_cost := 0.2;
  thumb_down_splay_bound := 90;
  thumb_up_splay_bound := 20;
  thumb_rest_position := 45;
  thumb_splay_cost := 0.25;
  index_max_contraction := 0.5;
  index_default_contraction := 0.8;
  index_contraction_cost := 0.3;
  middle_max_contraction := 0.55;
  middle_default_contraction := 0.8;
  middle_contraction_cost := 0.38;
  ring_max_contraction := 0.6;
  ring_default_contraction := 0.8;
  ring_contraction_cost := 0.43;
  pinky_max_contraction := 0.45;
  pinky_default_contraction := 0.8;
  pinky_contraction_cost := 0.27;
  thumb_max_contraction := 0.5;
  thumb_default_contraction := 0.8;
  thumb_contraction_cost := 0.2
|}.

(** [assert default_contraction <= max_contraction, msg] for each pair of
    the [zip], in order; assertions are executed (no [-O]). *)
Fixpoint assert_pairs (pairs : list (R * R)) : result unit :=
  match pairs with
  | [] => ret tt
  | (default_contraction, max_contraction) :: rest =>
      if PyFloat.leb default_contraction max_contraction then assert_pairs rest
      else raise (AssertionError "default contraction cannot be greater than max contraction")
  end.

Definition _assert_integrity (self : t) : result unit :=
  assert_pairs
    (zip [index_default_contraction self; middle_default_contraction self;
          ring_default_contraction self; pinky_default_contraction self;
          thumb_default_contraction self]
         [index_max_contraction self; middle_max_contraction self;
          ring_max_contraction self; pinky_max_contraction self;
          thumb_max_contraction self]).

(** [object.__init__] with the positional and keyword arguments passed on,
    reached through [super()] from a class that overrides [__init__]: any
    argument is an error. *)
Definition object_init {A : Type} (args : list A) (kwargs : list (string * A))
    : result unit :=
  match args, kwargs with
  | [], [] => ret tt
  | _, _ => raise (TypeError init_takes_no_arguments)
  end.

(** The constructor call of [HandShape], with its positional and keyword
    arguments.  The class body defines [__init__], so
    the dataclass decorator generates none; no statement assigns a field on
    the instance, whose attributes therefore read the class defaults. *)
Definition __init__ {A : Type} (args : list A) (kwargs : list (string * A))
    : result t :=
  let! _ := object_init args kwargs in
  let self := defaults in
  let! _ := _assert_integrity self in
  ret self.
End HandShape.

Module HandPosition.
Local Open Scope R_scope.

(** The fields of the dataclass; the generated constructor stores them. *)
Record t : Type := mk {
  wrist_rotation : R;
  thumb_splay : R;
  thumb_extension : R;
  index_splay : R;
  index_extension : R;
  middle_splay : R;
  middle_extension : R;
  ring_splay : R;
  ring_extension : R;
  pinky_splay : R;
  pinky_extension : R
}.

(** [HandPosition()], every field at its default. *)
Definition defaults : t := mk 0 0 1 0 1 0 1 0 1 0 1.

(** The value [calculate_cost] returns: [math.inf] or a real. *)
Inductive cost : Type :=
| math_inf
| finite (total_cost : R).

(** The condition of the first [if]: 22 comparisons joined by [or]. *)
Definition out_of_bounds (self : t) (hand_shape : HandShape.t) : bool :=
  PyFloat.ltb (wrist_rotation self) (- HandShape.wrist_inwards_bound hand_shape)
  || PyFloat.gtb (wrist_rotation self) (HandShape.wrist_outwards_bound hand_shape)
  || PyFloat.ltb (thumb_splay self) (- HandShape.thumb_down_splay_bound hand_shape)
  || PyFloat.gtb (thumb_splay self) (HandShape.thumb_up_splay_bound hand_shape)
  || PyFloat.ltb (index_splay self) (- HandShape.index_max_splay hand_shape)
  || PyFloat.gtb (index_splay self) 0
  || PyFloat.ltb (middle_splay self) (- HandShape.middle_max_splay hand_shape)
  || PyFloat.gtb (middle_splay self) 0
  || PyFloat.ltb (ring_splay self) (- HandShape.ring_max_splay hand_shape)
  || PyFloat.gtb (ring_splay self) 0
  || PyFloat.ltb (pinky_splay self) (- HandShape.pinky_max_splay hand_shape)
  || PyFloat.gtb (pinky_splay self) 0
  || PyFloat.ltb (thumb_extension self) (HandShape.thumb_max_contraction hand_shape)
  || PyFloat.gtb (thumb_extension self) 1
  || PyFloat.ltb (index_extension self) (HandShape.index_max_contraction hand_shape)
  || PyFloat.gtb (index_extension self) 1
  || PyFloat.ltb (middle_extension self) (HandShape.middle_max_contraction hand_shape)
  || PyFloat.gtb (middle_extension self) 1
  || PyFloat.ltb (ring_extension self) (HandShape.ring_max_contraction hand_shape)
  || PyFloat.gtb (ring_extension self) 1
  || PyFloat.ltb (pinky_extension self) (HandShape.pinky_max_contraction hand_shape)
  || PyFloat.gtb (pinky_extension self) 1.

(** The statements after the first [if]: the running [total_cost]. *)
Definition deviation_cost (self : t) (hand_shape : HandShape.t) : R :=
  let total_cost := 0 in
  let deviation := Rabs (wrist_rotation self - HandShape.wrist_rest_position hand_shape) in
  let total_cost :=
    if PyFloat.ltb (wrist_rotation self) (HandShape.wrist_rest_position hand_shape)
    then total_cost + deviation * HandShape.wrist_inwards_difficulty hand_shape
    else total_cost + deviation * HandShape.wrist_outwards_difficulty hand_shape in
  let deviation := Rabs (thumb_splay self - HandShape.thumb_rest_position hand_shape) in
  let total_cost := total_cost + deviation * HandShape.thumb_splay_cost hand_shape in
  let deviation := Rabs (thumb_extension self - HandShape.thumb_default_contraction hand_shape) in
  let total_cost := total_cost + deviation * HandShape.thumb_contraction_cost hand_shape in
  let deviation := Rabs (index_splay self - HandShape.index_max_splay hand_shape) in
  let total_cost := total_cost + deviation * HandShape.index_splay_cost hand_shape in
  let deviation := Rabs (index_extension self - HandShape.index_default_contraction hand_shape) in
  let total_cost := total_cost + deviation * HandShape.index_contraction_cost hand_shape in
  let deviation := Rabs (middle_splay self - HandShape.middle_max_splay hand_shape) in
  let total_cost := total_cost + deviation * HandShape.middle_splay_cost hand_shape in
  let deviation := Rabs (middle_extension self - HandShape.middle_default_contraction hand_shape) in
  let total_cost := total_cost + deviation * HandShape.middle_contraction_cost hand_shape in
  let deviation := Rabs (ring_splay self - HandShape.ring_max_splay hand_shape) in
  let total_cost := total_cost + deviation * HandShape.ring_splay_cost hand_shape in
  let deviation := Rabs (ring_extension self - HandShape.ring_default_contraction hand_shape) in
  let total_cost := total_cost + deviation * HandShape.ring_contraction_cost hand_shape in
  let deviation := Rabs (pinky_splay self - HandShape.pinky_max_splay hand_shape) in
  let total_cost := total_cost + deviation * HandShape.pinky_splay_cost hand_shape in
  let deviation := Rabs (pinky_extension self - HandShape.pinky_default_contraction hand_shape) in
  let total_cost := total_cost + deviation * HandShape.pinky_contraction_cost hand_shape in
  total_cost.

Definition calculate_cost (self : t) (hand_shape : HandShape.t) : cost :=
  if out_of_bounds self hand_shape then math_inf
  else finite (deviation_cost self hand_shape).
End HandPosition.

Module Hands.
Local Open Scope R_scope.

Record t : Type := mk { left_shape : HandShape.t; right_shape : HandShape.t }.

Definition __init__ (shape : HandShape.t) : t := mk shape shape.

(** The first half of [get_fingertip_coords]: for each digit the root
    position plus the tip offset, in the order of the final loop. *)
Definition tip_positions (hand_shape : HandShape.t) (pose : HandPosition.t)
    : list (R * R) :=
  let thumbpos := HandShape.thumb_root_position hand_shape in
  let thumb_tip_offset_x :=
    sin (math.radians (HandPosition.thumb_splay pose)) * HandShape.thumb_length hand_shape
    * HandPosition.thumb_extension pose in
  let thumb_tip_offset_y :=
    cos (math.radians (HandPosition.thumb_splay pose)) * HandShape.thumb_length hand_shape
    * HandPosition.thumb_extension pose in
  let thumbpos := (fst thumbpos + thumb_tip_offset_x, snd thumbpos + thumb_tip_offset_y) in
  let indexpos := HandShape.index_root_position hand_shape in
  let index_tip_offset_x :=
    sin (math.radians (HandPosition.index_splay pose)) * HandShape.index_length hand_shape
    * HandPosition.index_extension pose in
  let index_tip_offset_y :=
    cos (math.radians (HandPosition.index_splay pose)) * HandShape.index_length hand_shape
    * HandPosition.index_extension pose in
  let indexpos := (fst indexpos + index_tip_offset_x, snd indexpos + index_tip_offset_y) in
  let middlepos := HandShape.middle_root_position hand_shape in
  let middle_tip_offset_x :=
    sin (math.radians (HandPosition.middle_splay pose)) * HandShape.middle_length hand_shape
    * HandPosition.middle_extension pose in
  let middle_tip_offset_y :=
    cos (math.radians (HandPosition.middle_splay pose)) * HandShape.middle_length hand_shape
    * HandPosition.middle_extension pose in
  let middlepos := (fst middlepos + middle_tip_offset_x, snd middlepos + middle_tip_offset_y) in
  let ringpos := HandShape.ring_root_position hand_shape in
  let ring_tip_offset_x :=
    sin (math.radians (HandPosition.ring_splay pose)) * HandShape.ring_length hand_shape
    * HandPosition.ring_extension pose in
  let ring_tip_offset_y :=
    cos (math.radians (HandPosition.ring_splay pose)) * HandShape.ring_length hand_shape
    * HandPosition.ring_extension pose in
  let ringpos := (fst ringpos + ring_tip_offset_x, snd ringpos + ring_tip_offset_y) in
  let pinkypos := HandShape.pinky_root_position hand_shape in
  let pinky_tip_offset_x :=
    sin (math.radians (HandPosition.pinky_splay pose)) * HandShape.pinky_length hand_shape
    * HandPosition.pinky_extension pose in
  let pinky_tip_offset_y :=
    cos (math.radians (HandPosition.pinky_splay pose)) * HandShape.pinky_length hand_shape
    * HandPosition.pinky_extension pose in
  let pinkypos := (fst pinkypos + pinky_tip_offset_x, snd pinkypos + pinky_tip_offset_y) in
  [thumbpos; indexpos; middlepos; ringpos; pinkypos].

(** The body of the loop [for pos in (thumbpos, ..., pinkypos)]: the three
    assignments, the second reading the [x] the first has just set. *)
Definition wrist_step (right_hand : bool) (wrist_rotation_amount : R)
    (pos : R * R) : R * R :=
  let '(x, y) := pos in
  let x := x * cos (math.radians wrist_rotation_amount)
           - y * sin (math.radians wrist_rotation_amount) in
  let y := x * sin (math.radians wrist_rotation_amount)
           + y * cos (math.radians wrist_rotation_amount) in
  let x := if right_hand then x else - x in
  (x, y).

(** The five fingertips in hand space, as the list the loop builds. *)
Definition get_fingertip_coords (self : t) (right_hand : bool)
    (pose : HandPosition.t) : list (R * R) :=
  let hand_shape := if right_hand then right_shape self else left_shape self in
  let wrist_rotation_amount := HandPosition.wrist_rotation pose in
  map (wrist_step right_hand wrist_rotation_amount) (tip_positions hand_shape pose).
End Hands.

(** ** The statements of the specification, in its own words *)

Module Spec.
Local Open Scope R_scope.

(** "outside [lo, hi]" is the negation of this. *)
Definition within (lo hi v : R) : Prop := lo <= v <= hi.

(** The wrist check of the feasibility gate. *)
Definition wrist_check (shape : HandShape.t) (pose : HandPosition.t) : Prop :=
  within (- HandShape.wrist_inwards_bound shape) (HandShape.wrist_outwards_bound shape)
         (HandPosition.wrist_rotation pose).

(** The other ten checks: thumb splay, four finger splays, five extensions. *)
Definition other_checks (shape : HandShape.t) (pose : HandPosition.t) : Prop :=
  within (- HandShape.thumb_down_splay_bound shape) (HandShape.thumb_up_splay_bound shape)
         (HandPosition.thumb_splay pose)
  /\ within (- HandShape.index_max_splay shape) 0 (HandPosition.index_splay pose)
  /\ within (- HandShape.middle_max_splay shape) 0 (HandPosition.middle_splay pose)
  /\ within (- HandShape.ring_max_splay shape) 0 (HandPosition.ring_splay pose)
  /\ within (- HandShape.pinky_max_splay shape) 0 (HandPosition.pinky_splay pose)
  /\ within (HandShape.thumb_max_contraction shape) 1 (HandPosition.thumb_extension pose)
  /\ within (HandShape.index_max_contraction shape) 1 (HandPosition.index_extension pose)
  /\ within (HandShape.middle_max_contraction shape) 1 (HandPosition.middle_extension pose)
  /\ within (HandShape.ring_max_contraction shape) 1 (HandPosition.ring_extension pose)
  /\ within (HandShape.pinky_max_contraction shape) 1 (HandPosition.pinky_extension pose).

(** All 11 scalar checks pass. *)
Definition feasible (shape : HandShape.t) (pose : HandPosition.t) : Prop :=
  wrist_check shape pose /\ other_checks shape pose.

(** The pose in which every field equals the shape's rest or default value:
    wrist at the rest rotation, thumb at its rest splay, the four fingers at
    their maximum splay, every extension at the default contraction. *)
Definition rest_pose (shape : HandShape.t) : HandPosition.t :=
  {| HandPosition.wrist_rotation := HandShape.wrist_rest_position shape;
     HandPosition.thumb_splay := HandShape.thumb_rest_position shape;
     HandPosition.thumb_extension := HandShape.thumb_default_contraction shape;
     HandPosition.index_splay := HandShape.index_max_splay shape;
     HandPosition.index_extension := HandShape.index_default_contraction shape;
     HandPosition.middle_splay := HandShape.middle_max_splay shape;
     HandPosition.middle_extension := HandShape.middle_default_contraction shape;
     HandPosition.ring_splay := HandShape.ring_max_splay shape;
     HandPosition.ring_extension := HandShape.ring_default_contraction shape;
     HandPosition.pinky_splay := HandShape.pinky_max_splay shape;
     HandPosition.pinky_extension := HandShape.pinky_default_contraction shape |}.

(** The twelve weights of the deviation cost are non-negative. *)
Definition nonneg_weights (shape : HandShape.t) : Prop :=
  0 <= HandShape.wrist_inwards_difficulty shape
  /\ 0 <= HandShape.wrist_outwards_difficulty shape
  /\ 0 <= HandShape.thumb_splay_cost shape
  /\ 0 <= HandShape.thumb_contraction_cost shape
  /\ 0 <= HandShape.index_splay_cost shape
  /\ 0 <= HandShape.index_contraction_cost shape
  /\ 0 <= HandShape.middle_splay_cost shape
  /\ 0 <= HandShape.middle_contraction_cost shape
  /\ 0 <= HandShape.ring_splay_cost shape
  /\ 0 <= HandShape.ring_contraction_cost shape
  /\ 0 <= HandShape.pinky_splay_cost shape
  /\ 0 <= HandShape.pinky_contraction_cost shape.

(** "either +oo or a non-negative real". *)
Definition inf_or_nonneg (c : HandPosition.cost) : Prop :=
  match c with
  | HandPosition.math_inf => True
  | HandPosition.finite r => 0 <= r
  end.

(** The rotation of section 4.1 by [theta] degrees about (0,0), both
    components read from the point before the rotation. *)
Definition rotate_deg (theta : R) (pos : R * R) : R * R :=
  (fst pos * cos (math.radians theta) - snd pos * sin (math.radians theta),
   fst pos * sin (math.radians theta) + snd pos * cos (math.radians theta)).

(** The left hand's mirroring: the x-coordinate negated. *)
Definition mirror_x (right_hand : bool) (pos : R * R) : R * R :=
  (if right_hand then fst pos else - fst pos, snd pos).

(** [root_position + (0, length)]. *)
Definition straight_tip (root : R * R) (length : R) : R * R :=
  (fst root + 0, snd root + length).

(** The five straight tips of a shape, in the order thumb to pinky. *)
Definition straight_tips (shape : HandShape.t) : list (R * R) :=
  [straight_tip (HandShape.thumb_root_position shape) (HandShape.thumb_length shape);
   straight_tip (HandShape.index_root_position shape) (HandShape.index_length shape);
   straight_tip (HandShape.middle_root_position shape) (HandShape.middle_length shape);
   straight_tip (HandShape.ring_root_position shape) (HandShape.ring_length shape);
   straight_tip (HandShape.pinky_root_position shape) (HandShape.pinky_length shape)].
End Spec.


(** ** Concrete inputs used below *)

Module Inputs.
Local Open Scope R_scope.

(** [p = Bone("p", Vec2(1, 0), 1, 0)] and
    [c = Bone("c", Vec2(10, 0), 5, 0, parent=p)]. *)
Definition bone_p : Bone.t := Bone.__init__ "p" (Vec2.mk 1 0) 1 0 None.
Definition bone_c : Bone.t := Bone.__init__ "c" (Vec2.mk 10 0) 5 0 (Some bone_p).

(** [c] after the assignment [c.parent = p]. *)
Definition bone_c_linked : Bone.t := Bone.set_parent bone_c (Some bone_p).

(** Two bones named "a". *)
Definition bone_a1 : Bone.t := Bone.__init__ "a" (Vec2.mk 0 0) 1 0 None.
Definition bone_a2 : Bone.t := Bone.__init__ "a" (Vec2.mk 3 4) 2 0 None.

(** [Armature()]. *)
Definition empty_armature : Armature.t := Armature.mk ∅.

(** A hand of the default field values. *)
Definition default_hands : Hands.t := Hands.__init__ HandShape.defaults.

(** The default pose with the wrist turned 30 degrees outwards. *)
Definition pose_wrist_30 : HandPosition.t := HandPosition.mk 30 0 1 0 1 0 1 0 1 0 1.

(** The default field values with [wrist_inwards_bound=15] and
    [wrist_outwards_bound=-20]: no wrist rotation passes both comparisons. *)
Definition shape_empty_wrist_range : HandShape.t :=
  HandShape.mk 15 1 (-20) 0.5 10
    (40, 20) (19, 80) (3, 82) (-16, 80) (-30, 78)
    45 70 73 71 65
    30 0.3 20 0.35 23 0.4 43 0.2
    90 20 45 0.25
    0.5 0.8 0.3 0.55 0.8 0.38 0.6 0.8 0.43 0.45 0.8 0.27 0.5 0.8 0.2.

(** The default pose with the wrist at -15 degrees. *)
Definition pose_wrist_at_inwards_bound : HandPosition.t :=
  HandPosition.mk (-15) 0 1 0 1 0 1 0 1 0 1.

(** The default pose with the wrist at -16 degrees. *)
Definition pose_wrist_below_inwards_bound : HandPosition.t :=
  HandPosition.mk (-16) 0 1 0 1 0 1 0 1 0 1.

(** The default field values with [wrist_inwards_difficulty=-10]. *)
Definition shape_negative_weight : HandShape.t :=
  HandShape.mk 15 (-10) 30 0.5 10
    (40, 20) (19, 80) (3, 82) (-16, 80) (-30, 78)
    45 70 73 71 65
    30 0.3 20 0.35 23 0.4 43 0.2
    90 20 45 0.25
    0.5 0.8 0.3 0.55 0.8 0.38 0.6 0.8 0.43 0.45 0.8 0.27 0.5 0.8 0.2.
End Inputs.

(** ** keyboard.py *)

Module Key.
Local Open Scope R_scope.

(** A key object.  The class defines [__hash__] and no [__eq__], so two keys
    are equal only when they are the same object: [addr] is that identity.
    The other fields are the attributes [__init__] sets. *)
Record t : Type := mk {
  addr : nat;
  letter : string;
  x : R;
  y : R;
  width : R;
  height : R;
  pressed : bool
}.

(** A byte of the form 10xxxxxx continues a character of a UTF-8 text. *)
Definition is_continuation (c : Ascii.ascii) : bool :=
  match c with
  | Ascii.Ascii _ _ _ _ _ _ b6 b7 => b7 && negb b6
  end.

(** [len(letter)]: the number of characters.  A string holds the UTF-8
    bytes of the text, so the characters are the bytes that start one. *)
Fixpoint len (letter : string) : nat :=
  match letter with
  | EmptyString => 0
  | String c rest => if is_continuation c then len rest else S (len rest)
  end.

(** [Key(letter, x, y, width, height)], the new object living at [addr].
    The [assert] has no message. *)
Definition __init__ (addr : nat) (letter : string) (x y width height : R)
    : result t :=
  if Nat.eqb (len letter) 1
  then ret (mk addr letter x y width height false)
  else raise (AssertionError "").

Definition check_position (self : t) (px py : R) : bool :=
  if PyFloat.ltb px (x self)
     || PyFloat.gtb px (x self + width self)
     || PyFloat.ltb py (y self)
     || PyFloat.gtb py (y self + height self)
  then false
  else true.

Definition intersecting (self other : t) : bool :=
  if PyFloat.ltb (x self + width self) (x other)
     || PyFloat.gtb (x self) (x other + width other)
     || PyFloat.ltb (y self + height self) (y other)
     || PyFloat.gtb (y self) (y other + height other)
  then false
  else true.

(** [a is b]. *)
Definition same (a b : t) : bool := Nat.eqb (addr a) (addr b).
End Key.

Module Keyboard.
Local Open Scope result_scope.

(** The three slots [key_map] keeps for a letter. *)
Definition slots : Type := (option Key.t * option Key.t * option Key.t)%type.

Record t : Type := mk {
  keys : list Key.t;
  key_map : gmap string slots
}.

(** [set(keys)]: each object once.  A set yields its elements in an order of
    its own; here they stand in the order of their first occurrence. *)
Fixpoint set_of (keys : list Key.t) : list Key.t :=
  match keys with
  | [] => []
  | key :: rest =>
      key :: filter (fun other => negb (Key.same other key)) (set_of rest)
  end.

(** The loop [while possible_intersections], on the set in the order it
    yields its elements: [pop] takes the first, the [for] scans the others.
    The message of the error names the two keys; it is cut short here. *)
Fixpoint check_intersections (possible_intersections : list Key.t) : result unit :=
  match possible_intersections with
  | [] => ret tt
  | key :: others =>
      if existsb (fun other => Key.intersecting key other) others
      then raise (ValueError "Keys are intersecting")
      else check_intersections others
  end.

(** One turn of the loop that fills [key_map]. *)
Definition add_to_key_map (key_map : gmap string slots) (key : Key.t)
    : result (gmap string slots) :=
  match key_map !! Key.letter key with
  | None => ret (<[Key.letter key := (Some key, None, None)]> key_map)
  | Some (k0, None, _) => ret (<[Key.letter key := (k0, Some key, None)]> key_map)
  | Some (k0, Some k1, None) =>
      ret (<[Key.letter key := (k0, Some k1, Some key)]> key_map)
  | Some (_, Some _, Some _) =>
      raise (ValueError ("More than 3 keys with letter " +:+ Key.letter key))
  end.

Fixpoint build_key_map (keys : list Key.t) (key_map : gmap string slots)
    : result (gmap string slots) :=
  match keys with
  | [] => ret key_map
  | key :: rest =>
      let! key_map' := add_to_key_map key_map key in
      build_key_map rest key_map'
  end.

Definition __init__ (keys : list Key.t) : result t :=
  let! _ := check_intersections (set_of keys) in
  let! key_map := build_key_map keys ∅ in
  ret (mk keys key_map).

Definition key_at (self : t) (x y : R) : option Key.t :=
  find (fun key => Key.check_position key x y) (keys self).

Definition find_letter (self : t) (letter : string) : slots :=
  default (None, None, None) (key_map self !! letter).
End Keyboard.

(** [generate_qwerty()].  Iterating over a row yields its characters, each a
    string of length one; [i] and [j] are the indices [enumerate] supplies.
    Every call of [Key] makes a new object: they are numbered in the order
    of their creation. *)
Module Qwerty.
Local Open Scope R_scope.
Local Open Scope result_scope.

Definition rows : list string :=
  ["1234567890-="; "qwertyuiop[]"; "asdfghjkl;'"; "zxcvbnm,./"].

Definition characters (row : string) : list string :=
  map (fun c => String c EmptyString) (String.list_ascii_of_string row).

(** The inner loop, from column [j] on; [keys] is the list built so far. *)
Fixpoint row_loop (i j : nat) (letters : list string) (keys : list Key.t)
    : result (list Key.t) :=
  match letters with
  | [] => ret keys
  | letter :: rest =>
      let! key := Key.__init__ (length keys) letter
                    (INR i * 9.525 + INR j * 22.225) (INR i * 22.225) 19.05 19.05 in
      row_loop i (S j) rest (keys ++ [key])
  end.

(** The outer loop, from row [i] on. *)
Fixpoint rows_loop (i : nat) (rows : list string) (keys : list Key.t)
    : result (list Key.t) :=
  match rows with
  | [] => ret keys
  | row :: rest =>
      let! keys' := row_loop i 0 (characters row) keys in
      rows_loop (S i) rest keys'
  end.

Definition generate_qwerty : result Keyboard.t :=
  let! keys := rows_loop 0 rows [] in
  let! spacebar := Key.__init__ (length keys) " " (3 * 22.225)
                     (INR (length rows) * 22.225) 114.3 19.05 in
  Keyboard.__init__ (keys ++ [spacebar]).
End Qwerty.

(** ** Vocabulary for the properties of keyboards *)

Module KeyboardSpec.
Local Open Scope R_scope.

(** Entries of the list with the same identity are the same object, hence
    have the same fields. *)
Definition same_object_same_fields (keys : list Key.t) : Prop :=
  forall a b : Key.t, a ∈ keys -> b ∈ keys -> Key.addr a = Key.addr b -> a = b.

(** No two different objects of the list intersect. *)
Definition no_two_intersect (keys : list Key.t) : Prop :=
  forall a b : Key.t,
    a ∈ keys -> b ∈ keys -> Key.addr a <> Key.addr b -> Key.intersecting a b = false.

(** The entries of the list that carry a letter, in list order. *)
Definition with_letter (letter : string) (keys : list Key.t) : list Key.t :=
  filter (fun key => Key.letter key = letter) keys.

(** No letter is carried by more than three entries of the list. *)
Definition at_most_three_per_letter (keys : list Key.t) : Prop :=
  forall letter : string, (length (with_letter letter keys) <= 3)%nat.

(** The first three entries of a list, [None] where it is shorter. *)
Definition first_three (ws : list Key.t) : Keyboard.slots :=
  (ws !! 0%nat, ws !! 1%nat, ws !! 2%nat).

(** What [key_map] holds once the keys of the list have been entered: for
    each letter on a key, the first three keys that carry it. *)
Definition key_map_of (keys : list Key.t) (key_map : gmap string Keyboard.slots) : Prop :=
  forall letter : string,
    key_map !! letter =
    match with_letter letter keys with
    | [] => None
    | ws => Some (first_three ws)
    end.

(** The point lies in the closed rectangle of the key. *)
Definition covers (key : Key.t) (px py : R) : Prop :=
  Key.x key <= px <= Key.x key + Key.width key
  /\ Key.y key <= py <= Key.y key + Key.height key.
End KeyboardSpec.

(** ** Concrete inputs for the further properties *)

Module ExtraInputs.
Local Open Scope R_scope.

(** Two 10 by 10 keys, 10 apart: [Key("a", 0, 0, 10, 10)] and
    [Key("b", 20, 0, 10, 10)]. *)
Definition key_a : Key.t := Key.mk 0 "a" 0 0 10 10 false.
Definition key_b : Key.t := Key.mk 1 "b" 20 0 10 10 false.

(** A key that shares only the edge x = 10 with [key_a]:
    [Key("c", 10, 0, 10, 10)]. *)
Definition key_touching_a : Key.t := Key.mk 2 "c" 10 0 10 10 false.

(** The keyboard [Keyboard([key_a, key_b])] builds. *)
Definition keyboard_ab : Keyboard.t :=
  Keyboard.mk [key_a; key_b]
    (<["b" := (Some key_b, None, None)]> (<["a" := (Some key_a, None, None)]> ∅)).
End ExtraInputs.

(** ** Vocabulary for the properties of transforms *)

Module LinalgSpec.
Local Open Scope R_scope.

(** The matrix is 3 by 3 with last row (0, 0, 1): a linear part [a b; d e]
    and a translation (c, f). *)
Definition affine (t : T2D.t) (a b c d e f : R) : Prop :=
  T2D.matrix t = [[a; b; c]; [d; e; f]; [0; 0; 1]].

Definition is_affine (t : T2D.t) : Prop :=
  exists a b c d e f : R, affine t a b c d e f.

(** The transforms the class can produce: the identity, the two kinds of
    constructor, and what chaining makes of them. *)
Inductive constructible : T2D.t -> Prop :=
| constructible_init : constructible T2D.__init__
| constructible_translation (v : Vec2.t) :
    constructible (T2D.new_translation_matrix v)
| constructible_rotation (angle : R) :
    constructible (T2D.new_rotation_matrix angle)
| constructible_chain_translate (t : T2D.t) (v : Vec2.t) :
    constructible t -> constructible (T2D.chain_translate t v)
| constructible_chain_rotate (t : T2D.t) (angle : R) :
    constructible t -> constructible (T2D.chain_rotate t angle).
End LinalgSpec.

(** ** Vocabulary for the properties of armatures *)

Module ArmatureSpec.
Local Open Scope result_scope.

(** [for bone in bones: Armature.add_bone(arm, bone)]: the function of the
    class applied to each bone in turn, stopping at the first error. *)
Fixpoint add_each (arm : Armature.t) (bones : list Bone.t) : result Armature.t :=
  match bones with
  | [] => ret arm
  | bone :: rest =>
      let! arm' := Armature.add_bone arm bone in
      add_each arm' rest
  end.
End ArmatureSpec.

(** ** Vocabulary for the properties of hands *)

Module HandSpec.
Local Open Scope R_scope.

(** For each digit, thumb to pinky: its root, and its length scaled by the
    pose's extension. *)
Definition roots_and_reaches (shape : HandShape.t) (pose : HandPosition.t)
    : list ((R * R) * R) :=
  [(HandShape.thumb_root_position shape,
    HandShape.thumb_length shape * HandPosition.thumb_extension pose);
   (HandShape.index_root_position shape,
    HandShape.index_length shape * HandPosition.index_extension pose);
   (HandShape.middle_root_position shape,
    HandShape.middle_length shape * HandPosition.middle_extension pose);
   (HandShape.ring_root_position shape,
    HandShape.ring_length shape * HandPosition.ring_extension pose);
   (HandShape.pinky_root_position shape,
    HandShape.pinky_length shape * HandPosition.pinky_extension pose)].

(** The squared distance between two points. *)
Definition dist2 (p q : R * R) : R :=
  (fst p - fst q) * (fst p - fst q) + (snd p - snd q) * (snd p - snd q).

(** The splay cost the four fingers pay at splay 0. *)
Definition finger_splay_floor (shape : HandShape.t) : R :=
  HandShape.index_max_splay shape * HandShape.index_splay_cost shape
  + HandShape.middle_max_splay shape * HandShape.middle_splay_cost shape
  + HandShape.ring_max_splay shape * HandShape.ring_splay_cost shape
  + HandShape.pinky_max_splay shape * HandShape.pinky_splay_cost shape.

(** The default pose with every extension at 0.6, and the default field
    values with every default contraction lowered to the digit's maximum
    contraction, which the integrity check accepts. *)
Definition pose_bent_fingers : HandPosition.t :=
  HandPosition.mk 0 0 0.6 0 0.6 0 0.6 0 0.6 0 0.6.

Definition shape_passing_integrity : HandShape.t :=
  HandShape.mk 15 1 30 0.5 10
    (40, 20) (19, 80) (3, 82) (-16, 80) (-30, 78)
    45 70 73 71 65
    30 0.3 20 0.35 23 0.4 43 0.2
    90 20 45 0.25
    0.5 0.5 0.3 0.55 0.55 0.38 0.6 0.6 0.43 0.45 0.45 0.27 0.5 0.5 0.2.
End HandSpec.

(** * Properties *)

(** ** Float comparisons *)

Section FloatFacts.
Local Open Scope R_scope.

Lemma PyFloat_ltb_true (a b : R) : PyFloat.ltb a b = true <-> a < b.
Proof.
  unfold PyFloat.ltb. destruct (Rlt_dec a b) as [H | H]; split; intros; try easy.
Qed.

Lemma PyFloat_ltb_false (a b : R) : PyFloat.ltb a b = false <-> b <= a.
Proof.
  unfold PyFloat.ltb. destruct (Rlt_dec a b) as [H | H]; split; intros; try easy; lra.
Qed.

Lemma PyFloat_gtb_true (a b : R) : PyFloat.gtb a b = true <-> b < a.
Proof.
  unfold PyFloat.gtb. destruct (Rgt_dec a b) as [H | H]; split; intros; try easy; lra.
Qed.

Lemma PyFloat_gtb_false (a b : R) : PyFloat.gtb a b = false <-> a <= b.
Proof.
  unfold PyFloat.gtb. destruct (Rgt_dec a b) as [H | H]; split; intros; try easy; lra.
Qed.

Lemma PyFloat_leb_true (a b : R) : PyFloat.leb a b = true <-> a <= b.
Proof.
  unfold PyFloat.leb. destruct (Rle_dec a b) as [H | H]; split; intros; try easy.
Qed.

Lemma PyFloat_leb_false (a b : R) : PyFloat.leb a b = false <-> b < a.
Proof.
  unfold PyFloat.leb. destruct (Rle_dec a b) as [H | H]; split; intros; try easy; lra.
Qed.

Lemma PyFloat_truediv_zero (a : R) :
  PyFloat.truediv a 0 = raise ZeroDivisionError.
Proof.
  unfold PyFloat.truediv. destruct (Req_dec_T 0 0) as [_ | H]; [reflexivity | lra].
Qed.

Lemma PyFloat_truediv_nonzero (a b : R) :
  b <> 0 -> PyFloat.truediv a b = ret (a / b).
Proof.
  intros Hb. unfold PyFloat.truediv.
  destruct (Req_dec_T b 0) as [H | _]; [contradiction | reflexivity].
Qed.

Lemma math_radians_0 : math.radians 0 = 0.
Proof. unfold math.radians. lra. Qed.

Lemma math_radians_30 : math.radians 30 = PI / 6.
Proof. unfold math.radians. lra. Qed.

End FloatFacts.

(** ** Vec2 *)

Section Vec2Facts.
Local Open Scope R_scope.

Lemma Vec2_truediv_zero (v : Vec2.t) :
  Vec2.__truediv__ v 0 = raise ZeroDivisionError.
Proof.
  unfold Vec2.__truediv__. rewrite PyFloat_truediv_zero. reflexivity.
Qed.

Lemma Vec2_truediv_nonzero (v : Vec2.t) (k : R) :
  k <> 0 -> Vec2.__truediv__ v k = ret (Vec2.mk (Vec2.x v / k) (Vec2.y v / k)).
Proof.
  intros Hk. unfold Vec2.__truediv__.
  rewrite !PyFloat_truediv_nonzero by assumption. reflexivity.
Qed.

Lemma Vec2_truediv_raises_iff (v : Vec2.t) (k : R) :
  raises (Vec2.__truediv__ v k) <-> k = 0.
Proof.
  split.
  - intros Hr. destruct (Req_dec_T k 0) as [Hk | Hk]; [assumption |].
    rewrite Vec2_truediv_nonzero in Hr by assumption. destruct Hr.
  - intros ->. rewrite Vec2_truediv_zero. exact I.
Qed.

(** *** The operations on Python's numbers *)

Lemma PyNum_as_float_fits (n : PyNum.t) :
  Vec2Spec.fits n -> exists f, PyNum.as_float n = ret f.
Proof.
  destruct n as [z | f]; simpl; intros H.
  - apply Z.ltb_lt in H. rewrite H. eexists. reflexivity.
  - eexists. reflexivity.
Qed.

Lemma PyNum_as_float_overflow (n : PyNum.t) :
  ~ Vec2Spec.fits n -> PyNum.as_float n = raise OverflowError.
Proof.
  destruct n as [z | f]; simpl; intros H.
  - destruct (Z.ltb_spec (Z.abs z) PyNum.float_limit) as [Hlt | _];
      [contradiction | reflexivity].
  - exfalso. apply H. exact I.
Qed.

Lemma PyNum_as_float_int_0 : PyNum.as_float (PyNum.int 0) = ret (PyNum.finite 0).
Proof.
  unfold PyNum.as_float.
  replace (Z.abs 0 <? PyNum.float_limit)%Z with true by (vm_compute; reflexivity).
  reflexivity.
Qed.

Lemma PyNum_is_zero_0 : PyNum.is_zero (PyNum.finite 0) = true.
Proof.
  unfold PyNum.is_zero. destruct (Req_dec_T 0 0) as [_ | H]; [reflexivity | lra].
Qed.

Lemma PyNum_is_zero_nonzero (k : R) : k <> 0 -> PyNum.is_zero (PyNum.finite k) = false.
Proof.
  intros Hk. unfold PyNum.is_zero.
  destruct (Req_dec_T k 0) as [H | _]; [contradiction | reflexivity].
Qed.

Lemma PyNum_truediv_int_0 (a : PyNum.t) :
  PyNum.truediv a (PyNum.int 0) = raise ZeroDivisionError.
Proof.
  destruct a as [z | f].
  - reflexivity.
  - unfold PyNum.truediv. rewrite PyNum_as_float_int_0.
    cbn [PyNum.as_float bind ret]. rewrite PyNum_is_zero_0. reflexivity.
Qed.

Lemma PyNum_truediv_float_0 (a : PyNum.t) :
  Vec2Spec.fits a -> PyNum.truediv a (PyNum.real 0) = raise ZeroDivisionError.
Proof.
  intros Ha. destruct (PyNum_as_float_fits a Ha) as [f Hf].
  unfold PyNum.truediv, PyNum.real. destruct a as [z | g].
  - rewrite Hf. cbn [PyNum.as_float bind ret]. rewrite PyNum_is_zero_0. reflexivity.
  - cbn [PyNum.as_float bind ret]. rewrite PyNum_is_zero_0. reflexivity.
Qed.

Lemma PyNum_truediv_real (a k : R) :
  k <> 0 -> PyNum.truediv (PyNum.real a) (PyNum.real k) = ret (PyNum.real (a / k)).
Proof.
  intros Hk. unfold PyNum.truediv, PyNum.real.
  cbn [PyNum.as_float bind ret]. rewrite PyNum_is_zero_nonzero by assumption.
  reflexivity.
Qed.

(** [+], [-] and [*] raise exactly when they pair a float with an int that
    does not convert, and then it is [OverflowError]. *)
Ltac py_arith op :=
  let Hlt := fresh "Hlt" in
  intros [? | ?] [? | ?]; unfold op, Vec2Spec.overflows, Vec2Spec.fits;
  cbn [PyNum.as_float bind ret raise raises];
  repeat match goal with
  | |- context [(Z.abs ?z <? PyNum.float_limit)%Z] =>
      destruct (Z.ltb_spec (Z.abs z) PyNum.float_limit) as [Hlt | Hlt]
  end;
  cbn [bind ret raise raises]; intuition lia.

Lemma PyNum_add_raises : forall a b : PyNum.t,
  raises (PyNum.add a b) <-> Vec2Spec.overflows a b.
Proof. py_arith PyNum.add. Qed.

Lemma PyNum_sub_raises : forall a b : PyNum.t,
  raises (PyNum.sub a b) <-> Vec2Spec.overflows a b.
Proof. py_arith PyNum.sub. Qed.

Lemma PyNum_mul_raises : forall a b : PyNum.t,
  raises (PyNum.mul a b) <-> Vec2Spec.overflows a b.
Proof. py_arith PyNum.mul. Qed.

Lemma raises_bind {A B : Type} (m : result A) (k : A -> result B) :
  raises (bind m k) <-> raises m \/ exists a, m = ret a /\ raises (k a).
Proof.
  destruct m as [e | a]; cbn [bind raises].
  - split; [intros _; left; exact I | intros _; exact I].
  - split.
    + intros H. right. exists a. split; [reflexivity | exact H].
    + intros [[] | [a' [Ha H]]]. injection Ha as ->. exact H.
Qed.

Lemma raises_bind_ret {A B : Type} (m : result A) (f : A -> B) :
  raises (bind m (fun a => ret (f a))) <-> raises m.
Proof.
  destruct m as [e | a]; cbn [bind raises ret]; reflexivity.
Qed.

(** Two operations in sequence whose results are put in a vector: one of the
    two raises. *)
Lemma PyVec2_pair_raises (m1 m2 : result PyNum.t) :
  raises (bind m1 (fun nx => bind m2 (fun ny => ret (PyVec2.mk nx ny)))) <->
  raises m1 \/ raises m2.
Proof.
  destruct m1 as [e1 | a1], m2 as [e2 | a2]; cbn [bind raises ret]; tauto.
Qed.

Lemma PyNum_math_cos_real (r : R) : PyNum.math_cos (PyNum.real r) = ret (PyNum.real (cos r)).
Proof. reflexivity. Qed.

Lemma PyNum_math_sin_real (r : R) : PyNum.math_sin (PyNum.real r) = ret (PyNum.real (sin r)).
Proof. reflexivity. Qed.

Lemma PyVec2_unit_vector_overflow (angle : PyNum.t) :
  ~ Vec2Spec.fits angle -> PyVec2.unit_vector angle = raise OverflowError.
Proof.
  intros H. unfold PyVec2.unit_vector, PyNum.math_cos.
  rewrite PyNum_as_float_overflow by assumption. reflexivity.
Qed.

Lemma PyVec2_unit_vector_infinite (angle : PyNum.t) :
  Vec2Spec.infinite angle ->
  PyVec2.unit_vector angle = raise (ValueError "math domain error").
Proof.
  intros [-> | ->]; reflexivity.
Qed.

Lemma PyVec2_unit_vector_raises (angle : PyNum.t) :
  raises (PyVec2.unit_vector angle) <->
  ~ Vec2Spec.fits angle \/ Vec2Spec.infinite angle.
Proof.
  split.
  - destruct angle as [z | [r | | |]]; unfold PyVec2.unit_vector, PyNum.math_cos,
      PyNum.math_sin, Vec2Spec.infinite, Vec2Spec.fits; cbn [PyNum.as_float].
    + destruct (Z.ltb_spec (Z.abs z) PyNum.float_limit) as [Hlt | Hge];
        cbn [bind ret raise raises]; [intros [] | intros _; left; lia].
    + cbn [bind ret raise raises]. intros [].
    + intros _. right. left. reflexivity.
    + intros _. right. right. reflexivity.
    + cbn [bind ret raise raises]. intros [].
  - intros [H | H].
    + rewrite PyVec2_unit_vector_overflow by assumption. exact I.
    + rewrite PyVec2_unit_vector_infinite by assumption. exact I.
Qed.

Lemma PyVec2_rotate_overflow (v : PyVec2.t) (angle : PyNum.t) :
  ~ Vec2Spec.fits angle -> PyVec2.rotate v angle = raise OverflowError.
Proof.
  intros H. unfold PyVec2.rotate, PyNum.math_cos.
  rewrite PyNum_as_float_overflow by assumption. reflexivity.
Qed.

Lemma PyVec2_rotate_infinite (v : PyVec2.t) (angle : PyNum.t) :
  Vec2Spec.infinite angle ->
  PyVec2.rotate v angle = raise (ValueError "math domain error").
Proof.
  intros [-> | ->]; reflexivity.
Qed.

Lemma PyVec2_rotate_raises (v : Vec2.t) (angle : PyNum.t) :
  raises (PyVec2.rotate (PyVec2.of_reals v) angle) <->
  ~ Vec2Spec.fits angle \/ Vec2Spec.infinite angle.
Proof.
  split.
  - destruct angle as [z | [r | | |]]; unfold PyVec2.rotate, PyNum.math_cos,
      PyNum.math_sin, Vec2Spec.infinite, Vec2Spec.fits; cbn [PyNum.as_float].
    + destruct (Z.ltb_spec (Z.abs z) PyNum.float_limit) as [Hlt | Hge];
        cbn [bind ret raise raises]; [intros [] | intros _; left; lia].
    + cbn [bind ret raise raises]. intros [].
    + intros _. right. left. reflexivity.
    + intros _. right. right. reflexivity.
    + cbn [bind ret raise raises]. intros [].
  - intros [H | H].
    + rewrite PyVec2_rotate_overflow by assumption. exact I.
    + rewrite PyVec2_rotate_infinite by assumption. exact I.
Qed.

Lemma PyNum_int_too_large : ~ Vec2Spec.fits (PyNum.int (10 ^ 400)).
Proof.
  unfold Vec2Spec.fits. apply Z.le_ngt. vm_compute. discriminate.
Qed.

(** C10, the counterexample.  [Vec2(1.0, 0.0).rotate(10**400)],
    [Vec2.unit_vector(10**400)], [Vec2(1.0, 0.0) * 10**400] and
    [Vec2(10**400, 0) + Vec2(1.0, 0.0)] raise [OverflowError], the int being
    too large to convert to a float, and [Vec2.unit_vector(math.inf)] raises
    [ValueError]: operations other than the division fail, at numbers (all
    but the last) that are real. *)
Lemma C10_rotate_by_large_int_raises :
  PyVec2.rotate (PyVec2.of_reals (Vec2.mk 1 0)) (PyNum.int (10 ^ 400)) =
    raise OverflowError
  /\ PyVec2.unit_vector (PyNum.int (10 ^ 400)) = raise OverflowError
  /\ PyVec2.__mul__ (PyVec2.of_reals (Vec2.mk 1 0)) (PyNum.int (10 ^ 400)) =
       raise OverflowError
  /\ PyVec2.__add__ (PyVec2.mk (PyNum.int (10 ^ 400)) (PyNum.int 0))
                    (PyVec2.of_reals (Vec2.mk 1 0)) = raise OverflowError
  /\ PyVec2.unit_vector (PyNum.float PyNum.pos_inf) =
       raise (ValueError "math domain error")
  /\ ~ (forall (v : PyVec2.t) (angle : PyNum.t), returns (PyVec2.rotate v angle)).
Proof.
  assert (Hrot : PyVec2.rotate (PyVec2.of_reals (Vec2.mk 1 0)) (PyNum.int (10 ^ 400)) =
                 raise OverflowError)
    by (apply PyVec2_rotate_overflow, PyNum_int_too_large).
  split; [exact Hrot |].
  split; [apply PyVec2_unit_vector_overflow, PyNum_int_too_large |].
  split.
  { unfold PyVec2.__mul__, PyVec2.of_reals, PyNum.real, PyNum.mul.
    cbn [PyVec2.x PyVec2.y Vec2.x Vec2.y].
    rewrite (PyNum_as_float_overflow _ PyNum_int_too_large). reflexivity. }
  split.
  { unfold PyVec2.__add__, PyVec2.of_reals, PyNum.real, PyNum.add.
    cbn [PyVec2.x PyVec2.y Vec2.x Vec2.y].
    rewrite (PyNum_as_float_overflow _ PyNum_int_too_large). reflexivity. }
  split; [reflexivity |].
  intros H.
  specialize (H (PyVec2.of_reals (Vec2.mk 1 0)) (PyNum.int (10 ^ 400))).
  rewrite Hrot in H. exact H.
Qed.

(** C10, as amended.  Dividing a [Vec2] by the int 0 raises
    [ZeroDivisionError] whatever the components, and so does dividing by the
    float 0.0 when the x component converts to a float: an exception, not a
    vector of infinities or NaNs.  On finite floats the division by a
    number other than zero returns the componentwise quotient, and addition,
    subtraction, scalar multiplication, rotation, dot product and both
    unit-vector constructors return the value of their formula.  Outside
    the finite floats these operations do fail: addition, subtraction and
    scalar multiplication raise exactly when a component operation pairs a
    float with an int too large to convert; the unit-vector constructor, and
    the rotation of a vector of finite floats, raise exactly when the angle
    is an int too large to convert ([OverflowError]) or an infinite float
    ([ValueError]). *)
Theorem C10_vec2_failure_modes :
  (forall v : PyVec2.t, PyVec2.__truediv__ v (PyNum.int 0) = raise ZeroDivisionError)
  /\ (forall v : PyVec2.t,
      Vec2Spec.fits (PyVec2.x v) ->
      PyVec2.__truediv__ v (PyNum.real 0) = raise ZeroDivisionError)
  /\ (forall (v : Vec2.t) (k : R),
      k <> 0 ->
      PyVec2.__truediv__ (PyVec2.of_reals v) (PyNum.real k) =
      ret (PyVec2.of_reals (Vec2.mk (Vec2.x v / k) (Vec2.y v / k))))
  /\ (forall a b : Vec2.t,
      PyVec2.__add__ (PyVec2.of_reals a) (PyVec2.of_reals b) =
      ret (PyVec2.of_reals (Vec2.__add__ a b)))
  /\ (forall a b : Vec2.t,
      PyVec2.__sub__ (PyVec2.of_reals a) (PyVec2.of_reals b) =
      ret (PyVec2.of_reals (Vec2.__sub__ a b)))
  /\ (forall (a : Vec2.t) (k : R),
      PyVec2.__mul__ (PyVec2.of_reals a) (PyNum.real k) =
      ret (PyVec2.of_reals (Vec2.__mul__ a k)))
  /\ (forall (a : Vec2.t) (angle : R),
      PyVec2.rotate (PyVec2.of_reals a) (PyNum.real angle) =
      ret (PyVec2.of_reals (Vec2.rotate a angle)))
  /\ (forall a b : Vec2.t,
      PyVec2.dot (PyVec2.of_reals a) (PyVec2.of_reals b) =
      ret (PyNum.real (Vec2.dot a b)))
  /\ (forall angle : R,
      PyVec2.unit_vector (PyNum.real angle) =
      ret (PyVec2.of_reals (Vec2.unit_vector angle)))
  /\ (forall angle : R,
      PyVec2.unit_vector_deg (PyNum.real angle) =
      ret (PyVec2.of_reals (Vec2.unit_vector_deg angle)))
  /\ (forall a b : PyVec2.t,
      raises (PyVec2.__add__ a b) <->
      Vec2Spec.overflows (PyVec2.x a) (PyVec2.x b)
      \/ Vec2Spec.overflows (PyVec2.y a) (PyVec2.y b))
  /\ (forall a b : PyVec2.t,
      raises (PyVec2.__sub__ a b) <->
      Vec2Spec.overflows (PyVec2.x a) (PyVec2.x b)
      \/ Vec2Spec.overflows (PyVec2.y a) (PyVec2.y b))
  /\ (forall (a : PyVec2.t) (k : PyNum.t),
      raises (PyVec2.__mul__ a k) <->
      Vec2Spec.overflows (PyVec2.x a) k \/ Vec2Spec.overflows (PyVec2.y a) k)
  /\ (forall angle : PyNum.t,
      (raises (PyVec2.unit_vector angle) <->
       ~ Vec2Spec.fits angle \/ Vec2Spec.infinite angle)
      /\ (~ Vec2Spec.fits angle -> PyVec2.unit_vector angle = raise OverflowError)
      /\ (Vec2Spec.infinite angle ->
          PyVec2.unit_vector angle = raise (ValueError "math domain error")))
  /\ (forall (v : Vec2.t) (angle : PyNum.t),
      (raises (PyVec2.rotate (PyVec2.of_reals v) angle) <->
       ~ Vec2Spec.fits angle \/ Vec2Spec.infinite angle)
      /\ (~ Vec2Spec.fits angle ->
          PyVec2.rotate (PyVec2.of_reals v) angle = raise OverflowError)
      /\ (Vec2Spec.infinite angle ->
          PyVec2.rotate (PyVec2.of_reals v) angle =
          raise (ValueError "math domain error"))).
Proof.
  split.
  { intros v. unfold PyVec2.__truediv__. rewrite PyNum_truediv_int_0. reflexivity. }
  split.
  { intros v Hv. unfold PyVec2.__truediv__.
    rewrite PyNum_truediv_float_0 by assumption. reflexivity. }
  split.
  { intros v k Hk. unfold PyVec2.__truediv__, PyVec2.of_reals.
    cbn [PyVec2.x PyVec2.y]. rewrite !PyNum_truediv_real by assumption.
    reflexivity. }
  split; [reflexivity |].
  split; [reflexivity |].
  split; [reflexivity |].
  split; [reflexivity |].
  split; [reflexivity |].
  split; [reflexivity |].
  split; [reflexivity |].
  split.
  { intros a b. unfold PyVec2.__add__.
    rewrite PyVec2_pair_raises, !PyNum_add_raises. reflexivity. }
  split.
  { intros a b. unfold PyVec2.__sub__.
    rewrite PyVec2_pair_raises, !PyNum_sub_raises. reflexivity. }
  split.
  { intros a k. unfold PyVec2.__mul__.
    rewrite PyVec2_pair_raises, !PyNum_mul_raises. reflexivity. }
  split.
  { intros angle. split; [apply PyVec2_unit_vector_raises |].
    split; [apply PyVec2_unit_vector_overflow | apply PyVec2_unit_vector_infinite]. }
  intros v angle. split; [apply PyVec2_rotate_raises |].
  split; [apply PyVec2_rotate_overflow | apply PyVec2_rotate_infinite].
Qed.

(** [Vec2(6.0, 8.0) / 0.0] raises [ZeroDivisionError], and
    [Vec2(6.0, 8.0) / 2.0] returns [Vec2(6.0 / 2.0, 8.0 / 2.0)]. *)
Lemma C10_vec2_failure_modes_witness :
  Vec2Spec.fits (PyVec2.x (PyVec2.of_reals (Vec2.mk 6 8)))
  /\ PyVec2.__truediv__ (PyVec2.of_reals (Vec2.mk 6 8)) (PyNum.real 0) =
       raise ZeroDivisionError
  /\ 2 <> 0
  /\ PyVec2.__truediv__ (PyVec2.of_reals (Vec2.mk 6 8)) (PyNum.real 2) =
       ret (PyVec2.of_reals (Vec2.mk (6 / 2) (8 / 2))).
Proof.
  assert (H : 2 <> 0) by lra.
  split; [exact I |].
  split; [apply (proj1 (proj2 C10_vec2_failure_modes)); exact I |].
  split; [exact H |].
  apply (proj1 (proj2 (proj2 C10_vec2_failure_modes)) (Vec2.mk 6 8) 2 H).
Defined.

End Vec2Facts.

(** ** HandShape *)

Section HandShapeFacts.
Local Open Scope R_scope.

(** The first pair the integrity loop meets already fails on the class
    defaults: 0.8 <= 0.5 is false. *)
Lemma HandShape_defaults_fail_integrity :
  HandShape._assert_integrity HandShape.defaults =
  raise (AssertionError "default contraction cannot be greater than max contraction").
Proof.
  unfold HandShape._assert_integrity. simpl.
  replace (PyFloat.leb 0.8 0.5) with false; [reflexivity |].
  symmetry. apply PyFloat_leb_false. lra.
Qed.

(** Every digit's default contraction exceeds its maximum contraction in the
    class defaults. *)
Lemma HandShape_defaults_contractions :
  Forall (fun p : R * R => fst p = 0.8 /\ snd p < fst p /\ snd p <= 0.6)
    [(HandShape.index_default_contraction HandShape.defaults,
      HandShape.index_max_contraction HandShape.defaults);
     (HandShape.middle_default_contraction HandShape.defaults,
      HandShape.middle_max_contraction HandShape.defaults);
     (HandShape.ring_default_contraction HandShape.defaults,
      HandShape.ring_max_contraction HandShape.defaults);
     (HandShape.pinky_default_contraction HandShape.defaults,
      HandShape.pinky_max_contraction HandShape.defaults);
     (HandShape.thumb_default_contraction HandShape.defaults,
      HandShape.thumb_max_contraction HandShape.defaults)].
Proof.
  repeat constructor; simpl; lra.
Qed.

(** The integrity check passes exactly when each of the five defaults is at
    most the corresponding maximum. *)
Lemma HandShape_assert_integrity_ok (s : HandShape.t) :
  HandShape._assert_integrity s = ret tt <->
  HandShape.index_default_contraction s <= HandShape.index_max_contraction s
  /\ HandShape.middle_default_contraction s <= HandShape.middle_max_contraction s
  /\ HandShape.ring_default_contraction s <= HandShape.ring_max_contraction s
  /\ HandShape.pinky_default_contraction s <= HandShape.pinky_max_contraction s
  /\ HandShape.thumb_default_contraction s <= HandShape.thumb_max_contraction s.
Proof.
  unfold HandShape._assert_integrity. simpl.
  repeat match goal with
  | |- context [PyFloat.leb ?a ?b] =>
      let H := fresh "H" in
      destruct (PyFloat.leb a b) eqn:H;
      [apply PyFloat_leb_true in H | apply PyFloat_leb_false in H]
  end;
  split; intros Hx; try discriminate; try reflexivity;
  repeat split; try assumption; lra.
Qed.

(** C2.  Constructing a [HandShape] raises for every argument list: without
    arguments the integrity assertion fails on the class defaults
    ([AssertionError]), with any positional or keyword argument the call to
    [object.__init__] fails ([TypeError]); each digit's default contraction
    in the defaults is 0.8, above its maximum contraction, which is at most
    0.6.  No call returns a [HandShape]. *)
Theorem C2_HandShape_construction_always_raises
    (A : Type) (args : list A) (kwargs : list (string * A)) :
  HandShape.__init__ args kwargs =
    raise (match args, kwargs with
           | [], [] =>
               AssertionError "default contraction cannot be greater than max contraction"
           | _, _ =>
               TypeError init_takes_no_arguments
           end)
  /\ raises (HandShape.__init__ args kwargs)
  /\ Forall (fun p : R * R => fst p = 0.8 /\ snd p < fst p /\ snd p <= 0.6)
       (zip [HandShape.index_default_contraction HandShape.defaults;
             HandShape.middle_default_contraction HandShape.defaults;
             HandShape.ring_default_contraction HandShape.defaults;
             HandShape.pinky_default_contraction HandShape.defaults;
             HandShape.thumb_default_contraction HandShape.defaults]
            [HandShape.index_max_contraction HandShape.defaults;
             HandShape.middle_max_contraction HandShape.defaults;
             HandShape.ring_max_contraction HandShape.defaults;
             HandShape.pinky_max_contraction HandShape.defaults;
             HandShape.thumb_max_contraction HandShape.defaults]).
Proof.
  assert (Heq : HandShape.__init__ args kwargs =
    raise (match args, kwargs with
           | [], [] =>
               AssertionError "default contraction cannot be greater than max contraction"
           | _, _ =>
               TypeError init_takes_no_arguments
           end)).
  { unfold HandShape.__init__, HandShape.object_init.
    destruct args as [| a args]; destruct kwargs as [| k kwargs]; simpl; try reflexivity.
    rewrite HandShape_defaults_fail_integrity. reflexivity. }
  split; [exact Heq |]. split.
  - rewrite Heq. exact I.
  - exact HandShape_defaults_contractions.
Qed.

End HandShapeFacts.

(** ** Bone *)

Section BoneFacts.
Local Open Scope R_scope.

(** Induction along the chain of parents. *)
Lemma Bone_parent_chain_ind (P : Bone.t -> Prop) :
  (forall n o l r, P (Bone.mk n o l r None)) ->
  (forall n o l r p, P p -> P (Bone.mk n o l r (Some p))) ->
  forall b, P b.
Proof.
  intros Hroot Hchild. fix IH 1. intros [n o l r [p |]].
  - apply Hchild. apply IH.
  - apply Hroot.
Qed.

(** The constructor never attaches the parent it is given. *)
Lemma Bone_init_drops_parent n o l r (p : option Bone.t) :
  Bone.parent (Bone.__init__ n o l r p) = None.
Proof. reflexivity. Qed.

Lemma Bone_init_ignores_parent n o l r (p q : option Bone.t) :
  Bone.__init__ n o l r p = Bone.__init__ n o l r q.
Proof. reflexivity. Qed.

(** Without an implementation of [@], [get_transform_local] raises. *)
Lemma Bone_get_transform_local_raises (b : Bone.t) :
  Bone.get_transform_local b = raise (TypeError unsupported_matmul).
Proof. reflexivity. Qed.

Lemma Bone_get_transform_world_raises (b : Bone.t) :
  Bone.get_transform_world b = raise (TypeError unsupported_matmul).
Proof.
  induction b as [n o l r | n o l r p IH] using Bone_parent_chain_ind.
  - reflexivity.
  - unfold Bone.get_transform_world in *. simpl. rewrite IH. reflexivity.
Qed.

Lemma Bone_get_worldspace_positions_raises (b : Bone.t) :
  Bone.get_worldspace_positions b = raise (TypeError unsupported_matmul).
Proof.
  unfold Bone.get_worldspace_positions, Bone.get_worldspace_positions_with.
  fold Bone.get_transform_world. rewrite Bone_get_transform_world_raises. reflexivity.
Qed.

(** Were [@] implemented by [f], a root bone's world transform would be its
    local transform, and a linked bone's the composition with its parent's. *)
Lemma Bone_world_with_root (f : T2D.t -> T2D.t -> T2D.t) (b : Bone.t) :
  Bone.parent b = None ->
  Bone.get_transform_world_with (Some f) b = Bone.get_transform_local_with (Some f) b.
Proof.
  destruct b as [n o l r [p |]]; simpl; [discriminate | reflexivity].
Qed.

Lemma Bone_world_with_eval (f : T2D.t -> T2D.t -> T2D.t) (b : Bone.t) :
  exists m, Bone.get_transform_world_with (Some f) b = ret m.
Proof.
  induction b as [n o l r | n o l r p [m Hm]] using Bone_parent_chain_ind.
  - eexists. reflexivity.
  - simpl. rewrite Hm. eexists. reflexivity.
Qed.

Lemma Bone_world_with_linked (f : T2D.t -> T2D.t -> T2D.t) (b p : Bone.t) (w l : T2D.t) :
  Bone.parent b = Some p ->
  Bone.get_transform_world_with (Some f) p = ret w ->
  Bone.get_transform_local_with (Some f) b = ret l ->
  Bone.get_transform_world_with (Some f) b = ret (f w l).
Proof.
  destruct b as [n o l0 r [q |]]; simpl; [| discriminate].
  intros [= ->] Hw Hl. rewrite Hw. simpl.
  unfold Bone.get_transform_local_with in Hl. simpl in Hl.
  unfold Bone.get_transform_local_with. simpl. 
  injection Hl as <-. reflexivity.
Qed.

End BoneFacts.

(** ** Armature *)

Section ArmatureFacts.
Local Open Scope R_scope.

Lemma Armature_contains_true (d : gmap string Bone.t) (name : string) :
  Armature.contains d name = true <-> is_Some (d !! name).
Proof. unfold Armature.contains. apply bool_decide_eq_true. Qed.

Lemma Armature_contains_false (d : gmap string Bone.t) (name : string) :
  Armature.contains d name = false <-> d !! name = None.
Proof.
  unfold Armature.contains. rewrite bool_decide_eq_false.
  rewrite <- eq_None_not_Some. reflexivity.
Qed.

(** The function [add_bone] itself, given the armature and a bone with its
    attributes: a present name is a [ValueError]. *)
Lemma Armature_add_bone_duplicate (self : Armature.t) (bone : Bone.t) :
  is_Some (Armature._bones self !! Bone.name bone) ->
  Armature.add_bone self bone =
  raise (ValueError ("Bone with name " +:+ Bone.name bone +:+ " already exists.")).
Proof.
  intros H. unfold Armature.add_bone.
  apply Armature_contains_true in H. rewrite H. reflexivity.
Qed.

(** A fresh name whose [parent] attribute holds a bone that is not a member
    is a [KeyError]. *)
Lemma Armature_add_bone_missing_parent (self : Armature.t) (bone p : Bone.t) :
  Armature._bones self !! Bone.name bone = None ->
  Bone.parent bone = Some p ->
  Armature._bones self !! Bone.name p = None ->
  Armature.add_bone self bone =
  raise (KeyError ("Bone with name " +:+ Bone.name p +:+ " does not exist in the armature.")).
Proof.
  intros Hn Hp Hm. unfold Armature.add_bone.
  apply Armature_contains_false in Hn, Hm. rewrite Hn, Hp, Hm. reflexivity.
Qed.

(** Otherwise the bone is stored under its name. *)
Lemma Armature_add_bone_inserts (self : Armature.t) (bone : Bone.t) :
  Armature._bones self !! Bone.name bone = None ->
  (forall p, Bone.parent bone = Some p -> is_Some (Armature._bones self !! Bone.name p)) ->
  Armature.add_bone self bone =
  ret (Armature.mk (<[Bone.name bone := bone]> (Armature._bones self))).
Proof.
  intros Hn Hp. unfold Armature.add_bone.
  apply Armature_contains_false in Hn. rewrite Hn.
  destruct (Bone.parent bone) as [p |]; [| reflexivity].
  specialize (Hp p eq_refl). apply Armature_contains_true in Hp. rewrite Hp. reflexivity.
Qed.

(** A bone that comes out of the constructor has no parent attached, so the
    missing-parent branch is never taken for it. *)
Lemma Armature_add_bone_constructed (self : Armature.t) n o l r (p : option Bone.t) :
  Armature._bones self !! n = None ->
  Armature.add_bone self (Bone.__init__ n o l r p) =
  ret (Armature.mk (<[n := Bone.__init__ n o l r p]> (Armature._bones self))).
Proof.
  intros Hn. rewrite Armature_add_bone_inserts; [reflexivity | exact Hn |].
  intros q Hq. discriminate Hq.
Qed.

(** The function applied twice to bones named "a": the second is refused. *)
Lemma Armature_add_bone_twice_a :
  exists arm,
    Armature.add_bone Inputs.empty_armature Inputs.bone_a1 = ret arm
    /\ Armature.add_bone arm Inputs.bone_a2 =
       raise (ValueError "Bone with name a already exists.").
Proof.
  eexists. split.
  - apply Armature_add_bone_constructed. reflexivity.
  - rewrite Armature_add_bone_duplicate; [reflexivity |].
    simpl. rewrite lookup_insert_eq. eexists. reflexivity.
Qed.

(** With the parent attached by assignment, the function refuses the child
    of a parent that is not a member. *)
Lemma Armature_add_bone_linked_child :
  Armature.add_bone Inputs.empty_armature Inputs.bone_c_linked =
  raise (KeyError "Bone with name p does not exist in the armature.").
Proof.
  rewrite (Armature_add_bone_missing_parent _ _ Inputs.bone_p); reflexivity.
Qed.

(** [armature.add_bone] never reaches the function: the name has no leading
    underscore, so it is looked up among the bones. *)
Lemma Armature_getattribute_public (self : Armature.t) (name : string) :
  String.prefix "_" name = false ->
  Armature.__getattribute__ self name =
  match Armature._bones self !! name with
  | Some b => ret (Armature.attr_bone b)
  | None => raise (KeyError name)
  end.
Proof.
  intros H. unfold Armature.__getattribute__. rewrite H. reflexivity.
Qed.

Lemma Armature_call_add_bone_result (self : Armature.t) (bone : Bone.t) :
  Armature.call_add_bone self bone =
  raise (match Armature._bones self !! "add_bone" with
         | Some _ => TypeError not_callable
         | None => KeyError "add_bone"
         end).
Proof.
  unfold Armature.call_add_bone.
  rewrite Armature_getattribute_public by reflexivity.
  destruct (Armature._bones self !! "add_bone"); reflexivity.
Qed.

Lemma Armature_call_add_bone_raises (self : Armature.t) (bone : Bone.t) :
  raises (Armature.call_add_bone self bone).
Proof. rewrite Armature_call_add_bone_result. exact I. Qed.

Lemma Armature_init_None : Armature.__init__ None = ret Inputs.empty_armature.
Proof. reflexivity. Qed.

Lemma Armature_init_nonempty (bone : Bone.t) (rest : list Bone.t) :
  Armature.__init__ (Some (bone :: rest)) = raise (KeyError "add_bone").
Proof.
  unfold Armature.__init__. simpl. rewrite Armature_call_add_bone_result. reflexivity.
Qed.

Lemma Armature_call_get_worldspace_positions_result (self : Armature.t) :
  Armature.call_get_worldspace_positions self =
  raise (match Armature._bones self !! "get_worldspace_positions" with
         | Some _ => TypeError not_callable
         | None => KeyError "get_worldspace_positions"
         end).
Proof.
  unfold Armature.call_get_worldspace_positions.
  rewrite Armature_getattribute_public by reflexivity.
  destruct (Armature._bones self !! "get_worldspace_positions"); reflexivity.
Qed.

Lemma Armature_worldspace_items_cons name bone rest :
  Armature.worldspace_items ((name, bone) :: rest) = raise (TypeError unsupported_matmul).
Proof.
  simpl. rewrite Bone_get_worldspace_positions_raises. reflexivity.
Qed.

Lemma Armature_get_worldspace_positions_member (self : Armature.t) name (b : Bone.t) :
  Armature._bones self !! name = Some b ->
  Armature.get_worldspace_positions self = raise (TypeError unsupported_matmul).
Proof.
  intros H. unfold Armature.get_worldspace_positions.
  apply elem_of_map_to_list in H.
  destruct (map_to_list (Armature._bones self)) as [| [n' b'] rest].
  - inversion H.
  - apply Armature_worldspace_items_cons.
Qed.

Lemma Armature_get_worldspace_positions_empty :
  Armature.get_worldspace_positions Inputs.empty_armature = ret ∅.
Proof.
  unfold Armature.get_worldspace_positions, Inputs.empty_armature. simpl.
  rewrite map_to_list_empty. reflexivity.
Qed.

End ArmatureFacts.

(** ** Claims on bones and armatures *)

Section ArmatureClaims.
Local Open Scope R_scope.

(** C3, at the inputs where the code departs from it.  Through the instance,
    [armature.add_bone(a)] raises [KeyError] for the key ["add_bone"] before
    the function runs, for the first bone named "a" already, and so does the
    constructor call of an armature with the two bones named "a", where a
    duplicate-name error was due; no call through the instance returns.
    Applied as a function of the class, [add_bone] stores the child [c]
    built by [Bone("c", ..., parent=p)] in the empty armature without a
    missing-parent error, because the constructor left its parent unset;
    the same child with the parent assigned afterwards is refused. *)
Theorem C3_add_bone_at_failing_inputs :
  Armature.call_add_bone Inputs.empty_armature Inputs.bone_a1 =
    raise (KeyError "add_bone")
  /\ Armature.__init__ (Some [Inputs.bone_a1; Inputs.bone_a2]) =
    raise (KeyError "add_bone")
  /\ (forall (arm : Armature.t) (bone : Bone.t), raises (Armature.call_add_bone arm bone))
  /\ Armature.add_bone Inputs.empty_armature Inputs.bone_c =
    ret (Armature.mk {[ "c" := Inputs.bone_c ]})
  /\ Armature.add_bone Inputs.empty_armature Inputs.bone_c_linked =
    raise (KeyError "Bone with name p does not exist in the armature.").
Proof.
  split; [| split; [| split; [| split]]].
  - rewrite Armature_call_add_bone_result. reflexivity.
  - apply Armature_init_nonempty.
  - exact Armature_call_add_bone_raises.
  - unfold Inputs.bone_c. rewrite Armature_add_bone_constructed by reflexivity.
    reflexivity.
  - exact Armature_add_bone_linked_child.
Qed.

(** C4, at the input where the code departs from it.  For the child [c]
    built with [parent=p], [get_transform_world] raises [TypeError]; the
    constructor left [c.parent] unset, so even with the composition of the
    [chain_*] methods standing in for [@] the world transform of [c] is its
    local transform (translation entry 10), not the parent's world
    transform composed with it (translation entry 11). *)
Theorem C4_constructed_child_world_transform :
  Bone.get_transform_world Inputs.bone_c = raise (TypeError unsupported_matmul)
  /\ Bone.parent Inputs.bone_c = None
  /\ exists w l,
       Bone.get_transform_world_with (Some T2D.compose) Inputs.bone_p = ret w
       /\ Bone.get_transform_local_with (Some T2D.compose) Inputs.bone_c = ret l
       /\ Bone.get_transform_world_with (Some T2D.compose) Inputs.bone_c = ret l
       /\ T2D.entry l 0 2 = 10
       /\ T2D.entry (T2D.compose w l) 0 2 = 11.
Proof.
  split; [apply Bone_get_transform_world_raises |].
  split; [reflexivity |].
  eexists. eexists.
  split; [reflexivity |]. split; [reflexivity |]. split; [reflexivity |].
  cbv [T2D.entry T2D.compose T2D.matrix T2D.np_matmul T2D.np_dot T2D.np_column
       T2D.new_translation_matrix T2D.new_rotation_matrix T2D.__init__
       T2D.identity3 T2D.set_entry Vec2.x Vec2.y].
  simpl. rewrite cos_0, sin_0. split; lra.
Qed.

(** C9, the counterexample.  [Armature()] returns an armature without bones,
    and the function [get_worldspace_positions] applied to it returns the
    empty dictionary: the comprehension has nothing to evaluate. *)
Lemma C9_empty_armature_query_returns :
  Armature.__init__ None = ret Inputs.empty_armature
  /\ Armature.get_worldspace_positions Inputs.empty_armature = ret ∅
  /\ returns (Armature.get_worldspace_positions Inputs.empty_armature).
Proof.
  split; [reflexivity |].
  rewrite Armature_get_worldspace_positions_empty. split; [reflexivity | exact I].
Qed.

(** C9, as amended.  The transform class has no [@] and no
    [multiply_point].  For every bone, [get_transform_local],
    [get_transform_world] and [get_worldspace_positions] raise [TypeError];
    were [@] implemented, [get_worldspace_positions] would still raise, an
    [AttributeError] for [multiply_point].  The armature's function
    [get_worldspace_positions] raises [TypeError] for every armature that
    holds at least one bone, and the call through the instance,
    [armature.get_worldspace_positions()], raises for every armature. *)
Theorem C9_transform_queries_raise :
  T2D.__matmul__ = None
  /\ T2D.multiply_point = None
  /\ (forall b : Bone.t,
        Bone.get_transform_local b = raise (TypeError unsupported_matmul)
        /\ Bone.get_transform_world b = raise (TypeError unsupported_matmul)
        /\ Bone.get_worldspace_positions b = raise (TypeError unsupported_matmul))
  /\ (forall (f : T2D.t -> T2D.t -> T2D.t) (b : Bone.t),
        Bone.get_worldspace_positions_with (Some f) T2D.multiply_point b =
          raise (AttributeError "multiply_point"))
  /\ (forall (arm : Armature.t) (name : string) (b : Bone.t),
        Armature._bones arm !! name = Some b ->
        Armature.get_worldspace_positions arm = raise (TypeError unsupported_matmul))
  /\ (forall arm : Armature.t, raises (Armature.call_get_worldspace_positions arm)).
Proof.
  split; [reflexivity |]. split; [reflexivity |].
  split.
  { intros b. split; [apply Bone_get_transform_local_raises |].
    split; [apply Bone_get_transform_world_raises |].
    apply Bone_get_worldspace_positions_raises. }
  split.
  { intros f b. unfold Bone.get_worldspace_positions_with.
    destruct (Bone_world_with_eval f b) as [m Hm]. rewrite Hm. reflexivity. }
  split.
  { exact Armature_get_worldspace_positions_member. }
  intros arm. rewrite Armature_call_get_worldspace_positions_result. exact I.
Qed.

(** The armature holding the single bone "a" has a member, and its query
    raises. *)
Lemma C9_transform_queries_raise_witness :
  Armature._bones (Armature.mk {[ "a" := Inputs.bone_a1 ]}) !! "a" = Some Inputs.bone_a1
  /\ Armature.get_worldspace_positions (Armature.mk {[ "a" := Inputs.bone_a1 ]}) = raise (TypeError unsupported_matmul).
Proof.
  split; [reflexivity |].
  apply (proj1 (proj2 (proj2 (proj2 (proj2 C9_transform_queries_raise))))
           (Armature.mk {[ "a" := Inputs.bone_a1 ]}) "a" Inputs.bone_a1).
  reflexivity.
Defined.

End ArmatureClaims.

(** ** HandPosition *)

Section HandPositionFacts.
Local Open Scope R_scope.

(** The gate's condition is false exactly when all 11 checks pass. *)
Lemma HandPosition_out_of_bounds_false (pose : HandPosition.t) (shape : HandShape.t) :
  HandPosition.out_of_bounds pose shape = false <-> Spec.feasible shape pose.
Proof.
  unfold HandPosition.out_of_bounds, Spec.feasible, Spec.wrist_check,
    Spec.other_checks, Spec.within.
  rewrite !orb_false_iff, !PyFloat_ltb_false, !PyFloat_gtb_false.
  tauto.
Qed.

Lemma HandPosition_out_of_bounds_true (pose : HandPosition.t) (shape : HandShape.t) :
  HandPosition.out_of_bounds pose shape = true <-> ~ Spec.feasible shape pose.
Proof.
  rewrite <- HandPosition_out_of_bounds_false.
  destruct (HandPosition.out_of_bounds pose shape); split; intros; easy.
Qed.

Lemma HandPosition_cost_feasible (pose : HandPosition.t) (shape : HandShape.t) :
  Spec.feasible shape pose ->
  HandPosition.calculate_cost pose shape =
  HandPosition.finite (HandPosition.deviation_cost pose shape).
Proof.
  intros H. apply HandPosition_out_of_bounds_false in H.
  unfold HandPosition.calculate_cost. rewrite H. reflexivity.
Qed.

Lemma HandPosition_cost_infeasible (pose : HandPosition.t) (shape : HandShape.t) :
  ~ Spec.feasible shape pose ->
  HandPosition.calculate_cost pose shape = HandPosition.math_inf.
Proof.
  intros H. apply HandPosition_out_of_bounds_true in H.
  unfold HandPosition.calculate_cost. rewrite H. reflexivity.
Qed.

Lemma HandPosition_cost_inf_iff (pose : HandPosition.t) (shape : HandShape.t) :
  HandPosition.calculate_cost pose shape = HandPosition.math_inf <->
  ~ Spec.feasible shape pose.
Proof.
  split.
  - intros H Hf. rewrite HandPosition_cost_feasible in H by assumption. discriminate.
  - apply HandPosition_cost_infeasible.
Qed.

(** One weighted deviation is non-negative when its weight is. *)
Lemma weighted_deviation_nonneg (d w : R) : 0 <= w -> 0 <= Rabs d * w.
Proof. intros Hw. apply Rmult_le_pos; [apply Rabs_pos | exact Hw]. Qed.

Lemma HandPosition_deviation_cost_nonneg (pose : HandPosition.t) (shape : HandShape.t) :
  Spec.nonneg_weights shape -> 0 <= HandPosition.deviation_cost pose shape.
Proof.
  intros (Hwi & Hwo & Hts & Htc & His & Hic & Hms & Hmc & Hrs & Hrc & Hps & Hpc).
  unfold HandPosition.deviation_cost. cbv zeta.
  pose proof (weighted_deviation_nonneg
    (HandPosition.wrist_rotation pose - HandShape.wrist_rest_position shape) _ Hwi) as W1.
  pose proof (weighted_deviation_nonneg
    (HandPosition.wrist_rotation pose - HandShape.wrist_rest_position shape) _ Hwo) as W2.
  pose proof (weighted_deviation_nonneg
    (HandPosition.thumb_splay pose - HandShape.thumb_rest_position shape) _ Hts) as T1.
  pose proof (weighted_deviation_nonneg
    (HandPosition.thumb_extension pose - HandShape.thumb_default_contraction shape) _ Htc) as T2.
  pose proof (weighted_deviation_nonneg
    (HandPosition.index_splay pose - HandShape.index_max_splay shape) _ His) as I1.
  pose proof (weighted_deviation_nonneg
    (HandPosition.index_extension pose - HandShape.index_default_contraction shape) _ Hic) as I2.
  pose proof (weighted_deviation_nonneg
    (HandPosition.middle_splay pose - HandShape.middle_max_splay shape) _ Hms) as M1.
  pose proof (weighted_deviation_nonneg
    (HandPosition.middle_extension pose - HandShape.middle_default_contraction shape) _ Hmc) as M2.
  pose proof (weighted_deviation_nonneg
    (HandPosition.ring_splay pose - HandShape.ring_max_splay shape) _ Hrs) as R1.
  pose proof (weighted_deviation_nonneg
    (HandPosition.ring_extension pose - HandShape.ring_default_contraction shape) _ Hrc) as R2.
  pose proof (weighted_deviation_nonneg
    (HandPosition.pinky_splay pose - HandShape.pinky_max_splay shape) _ Hps) as P1.
  pose proof (weighted_deviation_nonneg
    (HandPosition.pinky_extension pose - HandShape.pinky_default_contraction shape) _ Hpc) as P2.
  destruct (PyFloat.ltb _ _); lra.
Qed.

(** At the rest pose every deviation is zero, so the weighted sum is 0. *)
Lemma HandPosition_deviation_cost_rest (shape : HandShape.t) :
  HandPosition.deviation_cost (Spec.rest_pose shape) shape = 0.
Proof.
  unfold HandPosition.deviation_cost, Spec.rest_pose. cbv zeta. simpl.
  rewrite !Rminus_diag, Rabs_R0.
  destruct (PyFloat.ltb _ _); lra.
Qed.

(** The gate rejects the rest pose as soon as one finger has a positive
    maximum splay: the pose puts that finger at a positive splay, the gate
    admits none above 0. *)
Lemma HandPosition_rest_pose_rejected (shape : HandShape.t) :
  0 < HandShape.index_max_splay shape
  \/ 0 < HandShape.middle_max_splay shape
  \/ 0 < HandShape.ring_max_splay shape
  \/ 0 < HandShape.pinky_max_splay shape
  \/ HandShape.thumb_up_splay_bound shape < HandShape.thumb_rest_position shape ->
  HandPosition.calculate_cost (Spec.rest_pose shape) shape = HandPosition.math_inf.
Proof.
  intros H. apply HandPosition_cost_infeasible.
  unfold Spec.feasible, Spec.wrist_check, Spec.other_checks, Spec.within, Spec.rest_pose.
  simpl. intros Hf. lra.
Qed.

(** Where the gate lets the rest pose through, its cost is 0. *)
Lemma HandPosition_rest_pose_feasible_cost (shape : HandShape.t) :
  Spec.feasible shape (Spec.rest_pose shape) ->
  HandPosition.calculate_cost (Spec.rest_pose shape) shape = HandPosition.finite 0.
Proof.
  intros H. rewrite HandPosition_cost_feasible by assumption.
  rewrite HandPosition_deviation_cost_rest. reflexivity.
Qed.

End HandPositionFacts.

(** ** Claims on the cost of a pose *)

Section CostClaims.
Local Open Scope R_scope.

(** Rewrites [Rabs e] for a closed [e] whose sign [lra] can tell. *)
Ltac eval_Rabs :=
  repeat match goal with
  | |- context [Rabs ?e] =>
      first [ rewrite (Rabs_pos_eq e) by lra | rewrite (Rabs_left1 e) by lra ]
  end.

(** C5, at the input where the code departs from it.  For the default field
    values the rest pose (wrist 10, thumb 45 and 0.8, index 30, middle 20,
    ring 23, pinky 43, every extension 0.8) has all its deviations zero, so
    the weighted sum is 0; but [calculate_cost] returns [math.inf] for it,
    because the gate rejects the thumb splay 45 (above the bound 20) and the
    positive finger splays. *)
Theorem C5_rest_pose_of_defaults_costs_inf :
  Spec.rest_pose HandShape.defaults = HandPosition.mk 10 45 0.8 30 0.8 20 0.8 23 0.8 43 0.8
  /\ HandPosition.deviation_cost (Spec.rest_pose HandShape.defaults) HandShape.defaults = 0
  /\ HandPosition.out_of_bounds (Spec.rest_pose HandShape.defaults) HandShape.defaults = true
  /\ HandPosition.calculate_cost (Spec.rest_pose HandShape.defaults) HandShape.defaults =
     HandPosition.math_inf
  /\ HandPosition.calculate_cost (Spec.rest_pose HandShape.defaults) HandShape.defaults <>
     HandPosition.finite 0.
Proof.
  assert (Hinf : HandPosition.calculate_cost (Spec.rest_pose HandShape.defaults)
                   HandShape.defaults = HandPosition.math_inf).
  { apply HandPosition_rest_pose_rejected. left. simpl. lra. }
  split; [reflexivity |].
  split; [apply HandPosition_deviation_cost_rest |].
  split.
  { apply HandPosition_out_of_bounds_true. apply HandPosition_cost_inf_iff. exact Hinf. }
  split; [exact Hinf |].
  rewrite Hinf. discriminate.
Qed.

(** C6, the counterexample.  With [wrist_inwards_bound = 15] and
    [wrist_outwards_bound = -20] the pose with the wrist at exactly -15 and
    every other field within its bounds costs [math.inf]: the comparison
    with the outwards bound fails. *)
Lemma C6_wrist_at_bound_with_empty_range :
  Spec.other_checks Inputs.shape_empty_wrist_range Inputs.pose_wrist_at_inwards_bound
  /\ HandPosition.wrist_rotation Inputs.pose_wrist_at_inwards_bound =
     - HandShape.wrist_inwards_bound Inputs.shape_empty_wrist_range
  /\ HandPosition.calculate_cost Inputs.pose_wrist_at_inwards_bound
       Inputs.shape_empty_wrist_range = HandPosition.math_inf.
Proof.
  split.
  { unfold Spec.other_checks, Spec.within. simpl. lra. }
  split; [reflexivity |].
  apply HandPosition_cost_infeasible.
  unfold Spec.feasible, Spec.wrist_check, Spec.within. simpl. lra.
Qed.

(** C6, as amended.  A wrist rotation 1 degree below [-wrist_inwards_bound]
    costs [math.inf]; with the other ten checks passing, a wrist rotation of
    exactly [-wrist_inwards_bound] costs a finite value provided
    [-wrist_inwards_bound <= wrist_outwards_bound]; and the cost is
    [math.inf] if and only if at least one of the 11 checks fails. *)
Theorem C6_feasibility_gate :
  (forall (pose : HandPosition.t) (shape : HandShape.t),
      HandPosition.wrist_rotation pose = - HandShape.wrist_inwards_bound shape - 1 ->
      HandPosition.calculate_cost pose shape = HandPosition.math_inf)
  /\ (forall (pose : HandPosition.t) (shape : HandShape.t),
      Spec.other_checks shape pose ->
      HandPosition.wrist_rotation pose = - HandShape.wrist_inwards_bound shape ->
      - HandShape.wrist_inwards_bound shape <= HandShape.wrist_outwards_bound shape ->
      exists r : R, HandPosition.calculate_cost pose shape = HandPosition.finite r)
  /\ (forall (pose : HandPosition.t) (shape : HandShape.t),
      HandPosition.calculate_cost pose shape = HandPosition.math_inf <->
      ~ Spec.feasible shape pose).
Proof.
  split; [| split].
  - intros pose shape Hw. apply HandPosition_cost_infeasible.
    unfold Spec.feasible, Spec.wrist_check, Spec.within. rewrite Hw. lra.
  - intros pose shape Ho Hw Hr. eexists. apply HandPosition_cost_feasible.
    split; [| exact Ho].
    unfold Spec.wrist_check, Spec.within. rewrite Hw. lra.
  - exact HandPosition_cost_inf_iff.
Qed.

(** With the default field values: the wrist at -16 costs [math.inf], the
    wrist at -15 a finite value. *)
Lemma C6_feasibility_gate_witness :
  HandPosition.calculate_cost Inputs.pose_wrist_below_inwards_bound HandShape.defaults =
    HandPosition.math_inf
  /\ exists r : R,
       HandPosition.calculate_cost Inputs.pose_wrist_at_inwards_bound HandShape.defaults =
       HandPosition.finite r.
Proof.
  split.
  - apply (proj1 C6_feasibility_gate). simpl. lra.
  - apply (proj1 (proj2 C6_feasibility_gate)).
    + unfold Spec.other_checks, Spec.within. simpl. lra.
    + simpl. lra.
    + simpl. lra.
Defined.

(** C7, the counterexample.  With [wrist_inwards_difficulty = -10] the
    default pose passes the gate and costs -54.634. *)
Lemma C7_negative_weight_negative_cost :
  HandPosition.calculate_cost HandPosition.defaults Inputs.shape_negative_weight =
    HandPosition.finite (-54.634)
  /\ ~ Spec.inf_or_nonneg
       (HandPosition.calculate_cost HandPosition.defaults Inputs.shape_negative_weight).
Proof.
  assert (H : HandPosition.calculate_cost HandPosition.defaults Inputs.shape_negative_weight =
              HandPosition.finite (-54.634)).
  { rewrite HandPosition_cost_feasible.
    - f_equal. unfold HandPosition.deviation_cost. cbv zeta. simpl.
      replace (PyFloat.ltb 0 10) with true by (symmetry; apply PyFloat_ltb_true; lra).
      eval_Rabs. lra.
    - unfold Spec.feasible, Spec.wrist_check, Spec.other_checks, Spec.within. simpl. lra. }
  split; [exact H |].
  rewrite H. simpl. lra.
Qed.

(** C7, as amended.  When the twelve weights of the shape are non-negative,
    [calculate_cost] returns [math.inf] or a non-negative real. *)
Theorem C7_cost_inf_or_nonneg (pose : HandPosition.t) (shape : HandShape.t) :
  Spec.nonneg_weights shape ->
  Spec.inf_or_nonneg (HandPosition.calculate_cost pose shape).
Proof.
  intros Hw. unfold HandPosition.calculate_cost.
  destruct (HandPosition.out_of_bounds pose shape); simpl; [exact I |].
  apply HandPosition_deviation_cost_nonneg. exact Hw.
Qed.

(** The default field values have non-negative weights. *)
Lemma C7_cost_inf_or_nonneg_witness :
  Spec.nonneg_weights HandShape.defaults
  /\ Spec.inf_or_nonneg (HandPosition.calculate_cost HandPosition.defaults HandShape.defaults).
Proof.
  assert (Hw : Spec.nonneg_weights HandShape.defaults).
  { unfold Spec.nonneg_weights. simpl. lra. }
  split; [exact Hw |].
  apply (C7_cost_inf_or_nonneg HandPosition.defaults HandShape.defaults Hw).
Defined.

End CostClaims.

(** ** Hands *)

Section HandsFacts.
Local Open Scope R_scope.

Lemma pair_eq (a b c d : R) : a = c -> b = d -> (a, b) = (c, d).
Proof. intros -> ->. reflexivity. Qed.

(** The loop always yields five tips. *)
Lemma Hands_get_fingertip_coords_length (hands : Hands.t) (right_hand : bool)
    (pose : HandPosition.t) :
  length (Hands.get_fingertip_coords hands right_hand pose) = 5%nat.
Proof. reflexivity. Qed.

(** What one turn of the loop computes: the x-coordinate is the rotated x,
    mirrored for the left hand; the y-coordinate is built from the rotated x
    in place of the original one. *)
Lemma Hands_wrist_step_eq (right_hand : bool) (theta x y : R) :
  Hands.wrist_step right_hand theta (x, y) =
  (fst (Spec.mirror_x right_hand (Spec.rotate_deg theta (x, y))),
   fst (Spec.rotate_deg theta (x, y)) * sin (math.radians theta)
   + y * cos (math.radians theta)).
Proof. destruct right_hand; reflexivity. Qed.

(** The x-coordinate agrees with the rotation formula. *)
Lemma Hands_wrist_step_fst (right_hand : bool) (theta : R) (pos : R * R) :
  fst (Hands.wrist_step right_hand theta pos) =
  fst (Spec.mirror_x right_hand (Spec.rotate_deg theta pos)).
Proof. destruct pos as [x y]. rewrite Hands_wrist_step_eq. reflexivity. Qed.

(** The y-coordinate is off by [sin theta * (x' - x)], [x'] the rotated x. *)
Lemma Hands_wrist_step_snd (right_hand : bool) (theta : R) (pos : R * R) :
  snd (Hands.wrist_step right_hand theta pos) =
  snd (Spec.mirror_x right_hand (Spec.rotate_deg theta pos))
  + sin (math.radians theta) * (fst (Spec.rotate_deg theta pos) - fst pos).
Proof.
  destruct pos as [x y]. rewrite Hands_wrist_step_eq.
  unfold Spec.mirror_x, Spec.rotate_deg. simpl. ring.
Qed.

(** The whole function, for every hand, side and pose: each tip before the
    rotation is sent to the rotated and mirrored x and to the y built from
    the rotated x. *)
Lemma Hands_get_fingertip_coords_eq (hands : Hands.t) (right_hand : bool)
    (pose : HandPosition.t) :
  Hands.get_fingertip_coords hands right_hand pose =
  map (fun pos : R * R =>
         (fst (Spec.mirror_x right_hand
                 (Spec.rotate_deg (HandPosition.wrist_rotation pose) pos)),
          fst (Spec.rotate_deg (HandPosition.wrist_rotation pose) pos)
            * sin (math.radians (HandPosition.wrist_rotation pose))
          + snd pos * cos (math.radians (HandPosition.wrist_rotation pose))))
      (Hands.tip_positions
         (if right_hand then Hands.right_shape hands else Hands.left_shape hands) pose).
Proof.
  unfold Hands.get_fingertip_coords. cbv zeta.
  apply map_ext. intros [x y]. apply Hands_wrist_step_eq.
Qed.

(** At wrist rotation 0 the loop leaves a tip where it is, up to mirroring. *)
Lemma Hands_wrist_step_0 (right_hand : bool) (pos : R * R) :
  Hands.wrist_step right_hand 0 pos = Spec.mirror_x right_hand pos.
Proof.
  destruct pos as [x y]. unfold Hands.wrist_step, Spec.mirror_x.
  rewrite math_radians_0, cos_0, sin_0. simpl.
  destruct right_hand; apply pair_eq; ring.
Qed.

(** The tips before the wrist rotation, for all splays 0 and extensions 1. *)
Lemma Hands_tip_positions_defaults (shape : HandShape.t) :
  Hands.tip_positions shape HandPosition.defaults = Spec.straight_tips shape.
Proof.
  unfold Hands.tip_positions, Spec.straight_tips, Spec.straight_tip. cbv zeta. simpl.
  rewrite math_radians_0, cos_0, sin_0.
  repeat (f_equal; try (apply pair_eq; ring)).
Qed.

(** C8.  For every pair of shapes and the pose with all splays 0, all
    extensions 1 and wrist rotation 0, the right hand's fingertips are, in
    the order thumb, index, middle, ring, pinky, exactly
    [root_position + (0, length)] of the right shape, and the left hand's
    are those of the left shape with the x-coordinate negated. *)
Theorem C8_fingertips_of_straight_pose (hands : Hands.t) :
  Hands.get_fingertip_coords hands true HandPosition.defaults =
    Spec.straight_tips (Hands.right_shape hands)
  /\ Hands.get_fingertip_coords hands false HandPosition.defaults =
    map (fun tip : R * R => (- fst tip, snd tip)) (Spec.straight_tips (Hands.left_shape hands))
  /\ HandPosition.defaults =
    {| HandPosition.wrist_rotation := 0;
       HandPosition.thumb_splay := 0; HandPosition.thumb_extension := 1;
       HandPosition.index_splay := 0; HandPosition.index_extension := 1;
       HandPosition.middle_splay := 0; HandPosition.middle_extension := 1;
       HandPosition.ring_splay := 0; HandPosition.ring_extension := 1;
       HandPosition.pinky_splay := 0; HandPosition.pinky_extension := 1 |}.
Proof.
  split; [| split; [| reflexivity]].
  - unfold Hands.get_fingertip_coords. cbv zeta.
    rewrite Hands_tip_positions_defaults.
    change (HandPosition.wrist_rotation HandPosition.defaults) with 0.
    rewrite (map_ext _ (Spec.mirror_x true) (Hands_wrist_step_0 true)).
    unfold Spec.straight_tips, Spec.mirror_x. reflexivity.
  - unfold Hands.get_fingertip_coords. cbv zeta.
    rewrite Hands_tip_positions_defaults.
    change (HandPosition.wrist_rotation HandPosition.defaults) with 0.
    rewrite (map_ext _ (Spec.mirror_x false) (Hands_wrist_step_0 false)).
    reflexivity.
Qed.

End HandsFacts.

(** ** The wrist rotation of the fingertips *)

Section WristRotationClaim.
Local Open Scope R_scope.

Lemma sqrt3_sq : sqrt 3 * sqrt 3 = 3.
Proof. apply sqrt_sqrt. lra. Qed.

(** The thumb tip of the default shape before the wrist rotation, all
    splays 0 and extensions 1. *)
Lemma Hands_thumb_tip_defaults_wrist_30 :
  Hands.tip_positions HandShape.defaults Inputs.pose_wrist_30 !! 0%nat = Some (40, 65).
Proof.
  unfold Hands.tip_positions. cbv zeta. simpl.
  rewrite math_radians_0, cos_0, sin_0.
  f_equal. apply pair_eq; lra.
Qed.

(** C1, at the input where the code departs from it.  Default shape, right
    hand, wrist rotation 30 degrees, all splays 0 and extensions 1: the
    thumb tip before the rotation is (40, 65); the rotation formula gives
    (20*sqrt 3 - 65/2, 20 + 65/2*sqrt 3), about (2.14, 76.29); the code
    returns the same x but y = 85/2*sqrt 3 - 65/4, about 57.36, because its
    y is computed from the x it has just overwritten. *)
Theorem C1_wrist_rotation_reuses_rotated_x :
  Hands.tip_positions HandShape.defaults Inputs.pose_wrist_30 !! 0%nat = Some (40, 65)
  /\ Spec.mirror_x true (Spec.rotate_deg 30 (40, 65)) =
     (20 * sqrt 3 - 65 / 2, 20 + 65 / 2 * sqrt 3)
  /\ Hands.get_fingertip_coords Inputs.default_hands true Inputs.pose_wrist_30 !! 0%nat =
     Some (20 * sqrt 3 - 65 / 2, 85 / 2 * sqrt 3 - 65 / 4)
  /\ Hands.get_fingertip_coords Inputs.default_hands true Inputs.pose_wrist_30 !! 0%nat <>
     Some (Spec.mirror_x true (Spec.rotate_deg 30 (40, 65))).
Proof.
  assert (Hspec : Spec.mirror_x true (Spec.rotate_deg 30 (40, 65)) =
                  (20 * sqrt 3 - 65 / 2, 20 + 65 / 2 * sqrt 3)).
  { unfold Spec.mirror_x, Spec.rotate_deg. simpl.
    rewrite math_radians_30, cos_PI6, sin_PI6. apply pair_eq; lra. }
  assert (Hcode : Hands.get_fingertip_coords Inputs.default_hands true Inputs.pose_wrist_30
                    !! 0%nat = Some (20 * sqrt 3 - 65 / 2, 85 / 2 * sqrt 3 - 65 / 4)).
  { unfold Hands.get_fingertip_coords. cbv zeta.
    rewrite list_lookup_fmap.
    change (Hands.right_shape Inputs.default_hands) with HandShape.defaults.
    rewrite Hands_thumb_tip_defaults_wrist_30.
    change (HandPosition.wrist_rotation Inputs.pose_wrist_30) with 30.
    cbn [fmap option_fmap option_map].
    rewrite Hands_wrist_step_eq. unfold Spec.mirror_x, Spec.rotate_deg. simpl.
    rewrite math_radians_30, cos_PI6, sin_PI6.
    f_equal. apply pair_eq; lra. }
  split; [exact Hands_thumb_tip_defaults_wrist_30 |].
  split; [exact Hspec |].
  split; [exact Hcode |].
  rewrite Hcode, Hspec. intros Heq.
  injection Heq as Hy. pose proof sqrt3_sq as Hs. nra.
Qed.

End WristRotationClaim.
(** * Further properties *)

(** ** Keys *)

Section KeyFacts.
Local Open Scope R_scope.

Lemma Key_check_position_true (k : Key.t) (px py : R) :
  Key.check_position k px py = true <-> KeyboardSpec.covers k px py.
Proof.
  unfold Key.check_position, KeyboardSpec.covers.
  destruct (_ || _ || _ || _) eqn:E.
  - split; [discriminate |]. intros H.
    rewrite !orb_true_iff, !PyFloat_ltb_true, !PyFloat_gtb_true in E. lra.
  - split; [intros _ | reflexivity].
    rewrite !orb_false_iff, !PyFloat_ltb_false, !PyFloat_gtb_false in E. lra.
Qed.

Lemma Key_intersecting_true (a b : Key.t) :
  Key.intersecting a b = true <->
  Key.x b <= Key.x a + Key.width a /\ Key.x a <= Key.x b + Key.width b
  /\ Key.y b <= Key.y a + Key.height a /\ Key.y a <= Key.y b + Key.height b.
Proof.
  unfold Key.intersecting.
  destruct (_ || _ || _ || _) eqn:E.
  - split; [discriminate |]. intros H.
    rewrite !orb_true_iff, !PyFloat_ltb_true, !PyFloat_gtb_true in E. lra.
  - split; [intros _ | reflexivity].
    rewrite !orb_false_iff, !PyFloat_ltb_false, !PyFloat_gtb_false in E. lra.
Qed.

Lemma Key_intersecting_sym (a b : Key.t) :
  Key.intersecting a b = Key.intersecting b a.
Proof.
  apply eq_true_iff_eq. rewrite !Key_intersecting_true. tauto.
Qed.


Lemma Key_common_point_intersecting (a b : Key.t) (px py : R) :
  Key.check_position a px py = true ->
  Key.check_position b px py = true ->
  Key.intersecting a b = true.
Proof.
  rewrite !Key_check_position_true, Key_intersecting_true.
  unfold KeyboardSpec.covers. lra.
Qed.

(** X1.  Two keys of non-negative width and height intersect
    exactly when some point lies on both of them; a key's rectangle includes
    its border, so keys that share only an edge or a corner intersect. *)
Theorem Key_intersecting_iff_common_point (a b : Key.t) :
  0 <= Key.width a -> 0 <= Key.height a ->
  0 <= Key.width b -> 0 <= Key.height b ->
  (Key.intersecting a b = true <->
   exists px py : R,
     Key.check_position a px py = true /\ Key.check_position b px py = true).
Proof.
  intros Hwa Hha Hwb Hhb. split.
  - rewrite Key_intersecting_true. intros (H1 & H2 & H3 & H4).
    exists (Rmax (Key.x a) (Key.x b)), (Rmax (Key.y a) (Key.y b)).
    rewrite !Key_check_position_true. unfold KeyboardSpec.covers.
    pose proof (Rmax_l (Key.x a) (Key.x b)). pose proof (Rmax_r (Key.x a) (Key.x b)).
    pose proof (Rmax_l (Key.y a) (Key.y b)). pose proof (Rmax_r (Key.y a) (Key.y b)).
    assert (Rmax (Key.x a) (Key.x b) <= Key.x a + Key.width a) by (apply Rmax_lub; lra).
    assert (Rmax (Key.x a) (Key.x b) <= Key.x b + Key.width b) by (apply Rmax_lub; lra).
    assert (Rmax (Key.y a) (Key.y b) <= Key.y a + Key.height a) by (apply Rmax_lub; lra).
    assert (Rmax (Key.y a) (Key.y b) <= Key.y b + Key.height b) by (apply Rmax_lub; lra).
    lra.
  - intros (px & py & Ha & Hb). exact (Key_common_point_intersecting a b px py Ha Hb).
Qed.

(** [key_a] and the key that starts where it ends, at x = 10. *)
Lemma Key_intersecting_iff_common_point_witness :
  (0 <= Key.width ExtraInputs.key_a /\ 0 <= Key.height ExtraInputs.key_a
   /\ 0 <= Key.width ExtraInputs.key_touching_a
   /\ 0 <= Key.height ExtraInputs.key_touching_a)
  /\ (Key.intersecting ExtraInputs.key_a ExtraInputs.key_touching_a = true <->
      exists px py : R,
        Key.check_position ExtraInputs.key_a px py = true
        /\ Key.check_position ExtraInputs.key_touching_a px py = true).
Proof.
  assert (H1 : 0 <= Key.width ExtraInputs.key_a) by (simpl; lra).
  assert (H2 : 0 <= Key.height ExtraInputs.key_a) by (simpl; lra).
  assert (H3 : 0 <= Key.width ExtraInputs.key_touching_a) by (simpl; lra).
  assert (H4 : 0 <= Key.height ExtraInputs.key_touching_a) by (simpl; lra).
  split; [tauto |].
  apply (Key_intersecting_iff_common_point ExtraInputs.key_a ExtraInputs.key_touching_a
           H1 H2 H3 H4).
Defined.

End KeyFacts.

Section KeyboardFacts.
Local Open Scope R_scope.

Lemma Keyboard_check_intersections_ok (l : list Key.t) :
  Keyboard.check_intersections l = ret tt <->
  ForallOrdPairs (fun a b => Key.intersecting a b = false) l.
Proof.
  induction l as [| k l IH]; simpl.
  - split; [intros _; constructor | reflexivity].
  - destruct (existsb _ l) eqn:E.
    + split; [discriminate |]. intros H. inversion H as [| ? ? Hk Hl]; subst.
      apply existsb_exists in E as (o & Ho & Hi).
      rewrite Forall_forall in Hk. rewrite (Hk o) in Hi; [discriminate |].
      apply list_elem_of_In. exact Ho.
    + rewrite IH. split.
      * intros H. constructor; [| exact H].
        apply Forall_forall. intros o Ho.
        destruct (Key.intersecting k o) eqn:Hi; [| reflexivity].
        assert (existsb (fun other => Key.intersecting k other) l = true) as E'.
        { apply existsb_exists. exists o. split; [apply list_elem_of_In; exact Ho | exact Hi]. }
        congruence.
      * intros H. inversion H; assumption.
Qed.

Lemma Keyboard_check_intersections_result (l : list Key.t) :
  Keyboard.check_intersections l = ret tt
  \/ Keyboard.check_intersections l = raise (ValueError "Keys are intersecting").
Proof.
  induction l as [| k l IH]; simpl; [left; reflexivity |].
  destruct (existsb _ l); [right; reflexivity | exact IH].
Qed.


Lemma ForallOrdPairs_perm {A : Type} (P : A -> A -> Prop) (l l' : list A) :
  (forall a b, P a b -> P b a) ->
  l ≡ₚ l' -> ForallOrdPairs P l -> ForallOrdPairs P l'.
Proof.
  intros Hsym Hp. induction Hp as [| x l l' Hp IH | x y l | l l' l'' _ IH1 _ IH2].
  - trivial.
  - intros H. inversion H as [| ? ? Hx Hl]; subst. constructor.
    + eapply Permutation_Forall; eassumption.
    + apply IH. exact Hl.
  - intros H. inversion H as [| ? ? Hy Hxl]; subst.
    inversion Hy as [| ? ? Hyx Hyl]; subst.
    inversion Hxl as [| ? ? Hx Hl]; subst.
    constructor; [constructor; [apply Hsym; exact Hyx | exact Hx] |].
    constructor; assumption.
  - intros H. apply IH2, IH1, H.
Qed.

Lemma ForallOrdPairs_filter {A : Type} (P : A -> A -> Prop) (Q : A -> Prop)
    `{forall a, Decision (Q a)} (l : list A) :
  ForallOrdPairs P l -> ForallOrdPairs P (filter Q l).
Proof.
  induction 1 as [| a l Ha Hl IH]; [constructor |].
  rewrite filter_cons. destruct (decide (Q a)); [| exact IH].
  constructor; [| exact IH].
  apply Forall_forall. intros b Hb. rewrite Forall_forall in Ha. apply Ha.
  apply list_elem_of_filter in Hb. tauto.
Qed.

Lemma ForallOrdPairs_impl_elem {A : Type} (P Q : A -> A -> Prop) (l : list A) :
  (forall a b, a ∈ l -> b ∈ l -> Q a b -> P a b) ->
  ForallOrdPairs Q l -> ForallOrdPairs P l.
Proof.
  intros Himp H. induction H as [| a l Ha Hl IH]; [constructor |].
  constructor.
  - apply Forall_forall. intros b Hb. rewrite Forall_forall in Ha.
    apply Himp; [left | right; exact Hb | apply Ha; exact Hb].
  - apply IH. intros x y Hx Hy. apply Himp; right; assumption.
Qed.

Lemma Key_same_false (a b : Key.t) : Key.same a b = false <-> Key.addr a <> Key.addr b.
Proof. unfold Key.same. apply Nat.eqb_neq. Qed.

Lemma Keyboard_set_of_subset (keys : list Key.t) (k : Key.t) :
  k ∈ Keyboard.set_of keys -> k ∈ keys.
Proof.
  induction keys as [| k0 rest IH]; simpl; [trivial |].
  rewrite !elem_of_cons, list_elem_of_filter. intros [-> | [_ H]]; [left; reflexivity |].
  right. apply IH, H.
Qed.

Lemma Keyboard_set_of_covers (keys : list Key.t) (k : Key.t) :
  k ∈ keys -> exists k', k' ∈ Keyboard.set_of keys /\ Key.addr k' = Key.addr k.
Proof.
  induction keys as [| k0 rest IH]; [intros H; inversion H |].
  rewrite elem_of_cons. intros [-> | H].
  - exists k0. split; [simpl; left | reflexivity].
  - destruct (IH H) as (k' & Hk' & Ha).
    destruct (Nat.eq_dec (Key.addr k') (Key.addr k0)) as [E | E].
    + exists k0. split; [simpl; left | congruence].
    + exists k'. split; [| exact Ha].
      simpl. right. apply list_elem_of_filter. split; [| exact Hk'].
      apply Is_true_true. apply negb_true_iff. apply Key_same_false. exact E.
Qed.

Lemma Keyboard_set_of_distinct (keys : list Key.t) :
  ForallOrdPairs (fun a b => Key.addr a <> Key.addr b) (Keyboard.set_of keys).
Proof.
  induction keys as [| k0 rest IH]; simpl; [constructor |].
  constructor.
  - apply Forall_forall. intros b Hb. apply list_elem_of_filter in Hb.
    destruct Hb as [Hb _]. apply Is_true_true, negb_true_iff, Key_same_false in Hb.
    congruence.
  - apply ForallOrdPairs_filter. exact IH.
Qed.

Lemma Keyboard_check_set_of (keys : list Key.t) :
  KeyboardSpec.same_object_same_fields keys ->
  (Keyboard.check_intersections (Keyboard.set_of keys) = ret tt <->
   KeyboardSpec.no_two_intersect keys).
Proof.
  intros Hc. rewrite Keyboard_check_intersections_ok. split.
  - intros H a b Ha Hb Hab.
    destruct (Keyboard_set_of_covers keys a Ha) as (a' & Ha' & Ea).
    destruct (Keyboard_set_of_covers keys b Hb) as (b' & Hb' & Eb).
    assert (a' = a) as -> by (apply Hc; [apply Keyboard_set_of_subset | |]; assumption).
    assert (b' = b) as -> by (apply Hc; [apply Keyboard_set_of_subset | |]; assumption).
    destruct (ForallOrdPairs_In H a b) as [E | [E | E]];
      try (apply list_elem_of_In; assumption).
    + congruence.
    + exact E.
    + rewrite Key_intersecting_sym. exact E.
  - intros H. eapply ForallOrdPairs_impl_elem; [| apply Keyboard_set_of_distinct].
    intros a b Ha Hb Hab. apply H; [apply Keyboard_set_of_subset .. |]; assumption.
Qed.

End KeyboardFacts.

(** ** The key map *)

Section KeyMapFacts.

Lemma with_letter_snoc (l : string) (done : list Key.t) (k : Key.t) :
  KeyboardSpec.with_letter l (done ++ [k]) =
  KeyboardSpec.with_letter l done ++ (if decide (Key.letter k = l) then [k] else []).
Proof.
  unfold KeyboardSpec.with_letter. rewrite filter_app.
  reflexivity.
Qed.

Lemma Keyboard_add_to_key_map_spec (done : list Key.t) (m : gmap string Keyboard.slots)
    (k : Key.t) :
  KeyboardSpec.key_map_of done m ->
  KeyboardSpec.at_most_three_per_letter done ->
  match Keyboard.add_to_key_map m k with
  | inr m' =>
      KeyboardSpec.key_map_of (done ++ [k]) m'
      /\ KeyboardSpec.at_most_three_per_letter (done ++ [k])
  | inl e =>
      e = ValueError ("More than 3 keys with letter " +:+ Key.letter k)
      /\ length (KeyboardSpec.with_letter (Key.letter k) done) = 3%nat
  end.
Proof.
  intros Hm H3. unfold Keyboard.add_to_key_map.
  pose proof (Hm (Key.letter k)) as Hk. unfold Keyboard.slots in *. pose proof (H3 (Key.letter k)) as Hlen.
  assert (Hother : forall m' v, m' = <[Key.letter k := v]> m ->
            v = KeyboardSpec.first_three
                  (KeyboardSpec.with_letter (Key.letter k) done ++ [k]) ->
            (length (KeyboardSpec.with_letter (Key.letter k) done) < 3)%nat ->
            KeyboardSpec.key_map_of (done ++ [k]) m'
            /\ KeyboardSpec.at_most_three_per_letter (done ++ [k])).
  { intros m' v -> -> Hlt. split.
    - intros l. rewrite with_letter_snoc.
      destruct (decide (Key.letter k = l)) as [<- | Hne].
      + rewrite lookup_insert_eq.
        destruct (KeyboardSpec.with_letter (Key.letter k) done); reflexivity.
      + rewrite lookup_insert_ne by exact Hne. rewrite app_nil_r. apply Hm.
    - intros l. rewrite with_letter_snoc.
      destruct (decide (Key.letter k = l)) as [<- | Hne].
      + rewrite length_app. simpl. lia.
      + rewrite app_nil_r. apply H3. }
  destruct (KeyboardSpec.with_letter (Key.letter k) done) as [| a [| b [| c [| d ws]]]];
    rewrite Hk; simpl in *.
  - eapply Hother; [reflexivity | reflexivity | lia].
  - eapply Hother; [reflexivity | reflexivity | lia].
  - eapply Hother; [reflexivity | reflexivity | lia].
  - split; reflexivity.
  - lia.
Qed.

Lemma Keyboard_build_key_map_spec (rest done : list Key.t) (m : gmap string Keyboard.slots) :
  KeyboardSpec.key_map_of done m ->
  KeyboardSpec.at_most_three_per_letter done ->
  match Keyboard.build_key_map rest m with
  | inr m' =>
      KeyboardSpec.key_map_of (done ++ rest) m'
      /\ KeyboardSpec.at_most_three_per_letter (done ++ rest)
  | inl e =>
      exists letter : string,
        e = ValueError ("More than 3 keys with letter " +:+ letter)
        /\ (3 < length (KeyboardSpec.with_letter letter (done ++ rest)))%nat
  end.
Proof.
  revert done m. induction rest as [| k rest IH]; intros done m Hm H3; simpl.
  - rewrite app_nil_r. split; assumption.
  - pose proof (Keyboard_add_to_key_map_spec done m k Hm H3) as Hstep.
    destruct (Keyboard.add_to_key_map m k) as [e | m']; simpl.
    + destruct Hstep as [-> Hlen]. exists (Key.letter k). split; [reflexivity |].
      unfold KeyboardSpec.with_letter in *. rewrite filter_app, filter_cons.
      rewrite decide_True by reflexivity. rewrite length_app. simpl. lia.
    + destruct Hstep as [Hm' H3'].
      specialize (IH (done ++ [k]) m' Hm' H3').
      rewrite <- app_assoc in IH. exact IH.
Qed.

Lemma Keyboard_key_map_of_empty : KeyboardSpec.key_map_of [] ∅.
Proof. intros l. reflexivity. Qed.

Lemma Keyboard_at_most_three_nil : KeyboardSpec.at_most_three_per_letter [].
Proof. intros l. simpl. lia. Qed.

End KeyMapFacts.

(** ** Keyboard *)

Section KeyboardTheorems.
Local Open Scope R_scope.

(** What the constructor does, case by case: it returns a keyboard holding
    the list and the key map of its letters, or raises the intersection
    error when the scan of the set finds a pair, or else raises the letter
    error for a letter carried by more than three keys. *)
Lemma Keyboard_init_outcome (keys : list Key.t) :
  match Keyboard.__init__ keys with
  | inr kb =>
      Keyboard.keys kb = keys
      /\ KeyboardSpec.key_map_of keys (Keyboard.key_map kb)
      /\ KeyboardSpec.at_most_three_per_letter keys
      /\ Keyboard.check_intersections (Keyboard.set_of keys) = ret tt
  | inl e =>
      (e = ValueError "Keys are intersecting"
       /\ Keyboard.check_intersections (Keyboard.set_of keys) <> ret tt)
      \/ (exists letter : string,
            e = ValueError ("More than 3 keys with letter " +:+ letter)
            /\ (3 < length (KeyboardSpec.with_letter letter keys))%nat
            /\ Keyboard.check_intersections (Keyboard.set_of keys) = ret tt)
  end.
Proof.
  unfold Keyboard.__init__.
  destruct (Keyboard_check_intersections_result (Keyboard.set_of keys)) as [E | E];
    rewrite E; simpl.
  - pose proof (Keyboard_build_key_map_spec keys [] ∅ Keyboard_key_map_of_empty
                  Keyboard_at_most_three_nil) as H.
    simpl in H. destruct (Keyboard.build_key_map keys ∅) as [e | m]; simpl.
    + right. destruct H as (l & -> & Hl). exists l. auto.
    + destruct H as [Hm H3]. auto.
  - left. split; [reflexivity | discriminate].
Qed.

Lemma Keyboard_two_keys_consistent :
  KeyboardSpec.same_object_same_fields [ExtraInputs.key_a; ExtraInputs.key_b].
Proof.
  intros a b Ha Hb E.
  apply elem_of_cons in Ha as [Ha | Ha]; [| apply list_elem_of_singleton in Ha];
  apply elem_of_cons in Hb as [Hb | Hb]; [| apply list_elem_of_singleton in Hb | |
    apply list_elem_of_singleton in Hb];
  subst; try reflexivity; simpl in E; discriminate.
Qed.

Lemma Keyboard_init_ab :
  Keyboard.__init__ [ExtraInputs.key_a; ExtraInputs.key_b] = ret ExtraInputs.keyboard_ab.
Proof.
  unfold Keyboard.__init__. simpl.
  replace (Key.intersecting ExtraInputs.key_a ExtraInputs.key_b) with false.
  - reflexivity.
  - symmetry. apply not_true_is_false. rewrite Key_intersecting_true. simpl. lra.
Qed.


(** X2.  For a list of keys (entries with the same identity being the
    same object), [Keyboard(keys)] returns exactly when no two different
    keys of the list intersect and no letter is carried by more than three
    entries of the list; otherwise it raises [ValueError]. *)
Theorem Keyboard_init_returns_iff (keys : list Key.t) :
  KeyboardSpec.same_object_same_fields keys ->
  (returns (Keyboard.__init__ keys) <->
   KeyboardSpec.no_two_intersect keys /\ KeyboardSpec.at_most_three_per_letter keys).
Proof.
  intros Hc. pose proof (Keyboard_init_outcome keys) as H.
  pose proof (Keyboard_check_set_of keys Hc) as Hchk.
  destruct (Keyboard.__init__ keys) as [e | kb]; simpl.
  - split; [intros [] |]. intros [Hn H3].
    destruct H as [[_ Hbad] | (l & _ & Hl & _)].
    + apply Hbad, Hchk, Hn.
    + specialize (H3 l). lia.
  - split; [intros _ | intros _; exact I].
    destruct H as (_ & _ & H3 & Hok). split; [apply Hchk, Hok | exact H3].
Qed.

(** The list of [key_a] and [key_b] has consistent identities, and the
    constructor returns for it. *)
Lemma Keyboard_init_returns_iff_witness :
  KeyboardSpec.same_object_same_fields [ExtraInputs.key_a; ExtraInputs.key_b]
  /\ (returns (Keyboard.__init__ [ExtraInputs.key_a; ExtraInputs.key_b]) <->
      KeyboardSpec.no_two_intersect [ExtraInputs.key_a; ExtraInputs.key_b]
      /\ KeyboardSpec.at_most_three_per_letter [ExtraInputs.key_a; ExtraInputs.key_b]).
Proof.
  split; [exact Keyboard_two_keys_consistent |].
  apply (Keyboard_init_returns_iff [ExtraInputs.key_a; ExtraInputs.key_b]
           Keyboard_two_keys_consistent).
Defined.

(** X3.  The scan for intersecting keys has the same outcome
    whatever the order in which the set yields its keys: for two orders of
    the same keys the loop returns in both or raises the intersection error
    in both (which pair the message names is not modelled). *)
Theorem Keyboard_check_intersections_order (l l' : list Key.t) :
  l ≡ₚ l' -> Keyboard.check_intersections l = Keyboard.check_intersections l'.
Proof.
  intros Hp.
  assert (Hiff : Keyboard.check_intersections l = ret tt <->
                 Keyboard.check_intersections l' = ret tt).
  { rewrite !Keyboard_check_intersections_ok. split; apply ForallOrdPairs_perm;
      try (intros a b Hab; rewrite Key_intersecting_sym; exact Hab);
      [exact Hp | symmetry; exact Hp]. }
  destruct (Keyboard_check_intersections_result l) as [E | E];
    destruct (Keyboard_check_intersections_result l') as [E' | E'];
    rewrite E, E'; try reflexivity.
  - apply Hiff in E. congruence.
  - apply Hiff in E'. congruence.
Qed.

(** The two orders of [key_a] and [key_b]. *)
Lemma Keyboard_check_intersections_order_witness :
  [ExtraInputs.key_a; ExtraInputs.key_b] ≡ₚ [ExtraInputs.key_b; ExtraInputs.key_a]
  /\ Keyboard.check_intersections [ExtraInputs.key_a; ExtraInputs.key_b] =
     Keyboard.check_intersections [ExtraInputs.key_b; ExtraInputs.key_a].
Proof.
  assert (Hp : [ExtraInputs.key_a; ExtraInputs.key_b]
               ≡ₚ [ExtraInputs.key_b; ExtraInputs.key_a]) by apply perm_swap.
  split; [exact Hp |].
  apply (Keyboard_check_intersections_order _ _ Hp).
Defined.

Lemma Keyboard_find_letter_key_map (keys : list Key.t) (kb : Keyboard.t)
    (letter : string) :
  KeyboardSpec.key_map_of keys (Keyboard.key_map kb) ->
  Keyboard.find_letter kb letter =
  KeyboardSpec.first_three (KeyboardSpec.with_letter letter keys).
Proof.
  intros Hm. unfold Keyboard.find_letter. pose proof (Hm letter) as Hl.
  unfold Keyboard.slots in *. rewrite Hl.
  destruct (KeyboardSpec.with_letter letter keys); reflexivity.
Qed.

(** X4.  On a keyboard the constructor returned, [find_letter] gives
    the first, second and third key of the list that carry the letter, in
    list order, with [None] in the slots beyond the last one (all three
    [None] for a letter on no key); and no key carrying the letter is left
    out, since there are at most three. *)
Theorem Keyboard_find_letter_first_three (keys : list Key.t) (kb : Keyboard.t)
    (letter : string) :
  Keyboard.__init__ keys = ret kb ->
  Keyboard.find_letter kb letter =
    KeyboardSpec.first_three (KeyboardSpec.with_letter letter keys)
  /\ (length (KeyboardSpec.with_letter letter keys) <= 3)%nat.
Proof.
  intros Hinit. pose proof (Keyboard_init_outcome keys) as H. rewrite Hinit in H.
  destruct H as (_ & Hm & H3 & _). split; [| apply H3].
  apply Keyboard_find_letter_key_map, Hm.
Qed.

(** On the keyboard of [key_a] and [key_b], the letter "b". *)
Lemma Keyboard_find_letter_first_three_witness :
  Keyboard.__init__ [ExtraInputs.key_a; ExtraInputs.key_b] = ret ExtraInputs.keyboard_ab
  /\ Keyboard.find_letter ExtraInputs.keyboard_ab "b" =
     (Some ExtraInputs.key_b, None, None).
Proof.
  split; [exact Keyboard_init_ab |].
  apply (Keyboard_find_letter_first_three _ _ "b" Keyboard_init_ab).
Defined.

(** X5.  On a keyboard the constructor returned, [key_at] finds a
    key exactly when that key is on the keyboard and the point lies on it:
    no point lies on two keys, so the first match is the only one; and
    [key_at] is [None] exactly when the point lies on no key. *)
Theorem Keyboard_key_at_unique (keys : list Key.t) (kb : Keyboard.t) (px py : R)
    (k : Key.t) :
  KeyboardSpec.same_object_same_fields keys ->
  Keyboard.__init__ keys = ret kb ->
  (Keyboard.key_at kb px py = Some k <->
   k ∈ keys /\ Key.check_position k px py = true)
  /\ (Keyboard.key_at kb px py = None <->
      forall k' : Key.t, k' ∈ keys -> Key.check_position k' px py = false).
Proof.
  intros Hc Hinit. pose proof (Keyboard_init_outcome keys) as H. rewrite Hinit in H.
  destruct H as (Hkeys & _ & _ & Hok).
  apply (Keyboard_check_set_of keys Hc) in Hok.
  unfold Keyboard.key_at. rewrite Hkeys. split; [split |].
  - intros Hf. apply find_some in Hf as [Hin Hpos].
    split; [apply list_elem_of_In; exact Hin | exact Hpos].
  - intros [Hin Hpos].
    destruct (find (fun key => Key.check_position key px py) keys) as [k' |] eqn:Hf.
    + apply find_some in Hf as [Hin' Hpos']. apply list_elem_of_In in Hin'.
      f_equal. apply Hc; [assumption .. |].
      destruct (Nat.eq_dec (Key.addr k') (Key.addr k)) as [E | E]; [exact E |].
      pose proof (Key_common_point_intersecting k' k px py Hpos' Hpos) as Hi.
      rewrite (Hok k' k Hin' Hin E) in Hi. discriminate.
    + apply list_elem_of_In in Hin.
      pose proof (find_none _ _ Hf k Hin) as Hn. simpl in Hn. congruence.
  - split.
    + intros Hf k' Hin. apply list_elem_of_In in Hin. exact (find_none _ _ Hf k' Hin).
    + intros Hall.
      destruct (find (fun key => Key.check_position key px py) keys) as [k' |] eqn:Hf;
        [| reflexivity].
      apply find_some in Hf as [Hin' Hpos']. apply list_elem_of_In in Hin'.
      rewrite (Hall k' Hin') in Hpos'. discriminate.
Qed.

(** On the keyboard of [key_a] and [key_b], the point (25, 5) lies on
    [key_b] only. *)
Lemma Keyboard_key_at_unique_witness :
  KeyboardSpec.same_object_same_fields [ExtraInputs.key_a; ExtraInputs.key_b]
  /\ Keyboard.__init__ [ExtraInputs.key_a; ExtraInputs.key_b] = ret ExtraInputs.keyboard_ab
  /\ (Keyboard.key_at ExtraInputs.keyboard_ab 25 5 = Some ExtraInputs.key_b <->
      ExtraInputs.key_b ∈ [ExtraInputs.key_a; ExtraInputs.key_b]
      /\ Key.check_position ExtraInputs.key_b 25 5 = true).
Proof.
  split; [exact Keyboard_two_keys_consistent |].
  split; [exact Keyboard_init_ab |].
  apply (Keyboard_key_at_unique _ _ 25 5 ExtraInputs.key_b
           Keyboard_two_keys_consistent Keyboard_init_ab).
Defined.

End KeyboardTheorems.

(** ** Layouts *)

Section LayoutFacts.
Local Open Scope R_scope.

Lemma Key_intersecting_false_intro (a b : Key.t) :
  Key.x a + Key.width a < Key.x b \/ Key.x b + Key.width b < Key.x a
  \/ Key.y a + Key.height a < Key.y b \/ Key.y b + Key.height b < Key.y a ->
  Key.intersecting a b = false.
Proof.
  intros H. apply not_true_is_false. rewrite Key_intersecting_true. lra.
Qed.

(** Keys with pairwise different identities are consistent. *)
Lemma Keyboard_consistent_of_NoDup (keys : list Key.t) :
  NoDup (map Key.addr keys) -> KeyboardSpec.same_object_same_fields keys.
Proof.
  induction keys as [| k rest IH]; intros Hnd a b Ha Hb E.
  - inversion Ha.
  - simpl in Hnd. apply NoDup_cons in Hnd as [Hk Hrest].
    assert (Hnot : forall c, c ∈ rest -> Key.addr c <> Key.addr k).
    { intros c Hc Ec. apply Hk. rewrite <- Ec. apply list_elem_of_fmap.
      exists c. split; [reflexivity | exact Hc]. }
    apply elem_of_cons in Ha as [-> | Ha]; apply elem_of_cons in Hb as [-> | Hb].
    + reflexivity.
    + exfalso. apply (Hnot b Hb). congruence.
    + exfalso. apply (Hnot a Ha). congruence.
    + apply IH; assumption.
Qed.

Lemma Keyboard_no_two_intersect_of_pairs (keys : list Key.t) :
  ForallOrdPairs (fun a b => Key.intersecting a b = false) keys ->
  KeyboardSpec.no_two_intersect keys.
Proof.
  intros H a b Ha Hb Hab.
  destruct (ForallOrdPairs_In H a b) as [E | [E | E]];
    try (apply list_elem_of_In; assumption).
  - congruence.
  - exact E.
  - rewrite Key_intersecting_sym. exact E.
Qed.

Lemma Keyboard_with_letter_absent (letter : string) (keys : list Key.t) :
  letter ∉ map Key.letter keys -> KeyboardSpec.with_letter letter keys = [].
Proof.
  unfold KeyboardSpec.with_letter. induction keys as [| k rest IH]; [reflexivity |].
  simpl. rewrite not_elem_of_cons. intros [Hk Hrest].
  rewrite filter_cons. rewrite decide_False by congruence. apply IH, Hrest.
Qed.

Lemma Keyboard_with_letter_NoDup (letter : string) (keys : list Key.t) :
  NoDup (map Key.letter keys) ->
  (length (KeyboardSpec.with_letter letter keys) <= 1)%nat.
Proof.
  unfold KeyboardSpec.with_letter. induction keys as [| k rest IH]; simpl; [lia |].
  rewrite NoDup_cons. intros [Hk Hrest]. rewrite filter_cons.
  destruct (decide (Key.letter k = letter)) as [<- | Hne]; [| apply IH, Hrest].
  pose proof (Keyboard_with_letter_absent (Key.letter k) rest Hk) as E.
  unfold KeyboardSpec.with_letter in E. rewrite E. simpl. lia.
Qed.

(** The list [generate_qwerty] hands to the constructor: 46 keys, created
    one after the other, one per character, no two of them intersecting. *)
Lemma Qwerty_keys_facts :
  exists keys : list Key.t,
    Qwerty.generate_qwerty = Keyboard.__init__ keys
    /\ map Key.addr keys = seq 0 46
    /\ map Key.letter keys =
       concat (map Qwerty.characters Qwerty.rows) ++ [" "]
    /\ ForallOrdPairs (fun a b => Key.intersecting a b = false) keys.
Proof.
  eexists. split; [| split; [| split]].
  - unfold Qwerty.generate_qwerty.
    cbn [Qwerty.rows_loop Qwerty.row_loop Qwerty.rows Qwerty.characters
         String.list_ascii_of_string map Key.__init__ Key.len Key.is_continuation
         andb negb Nat.eqb bind ret app length].
    reflexivity.
  - reflexivity.
  - reflexivity.
  - repeat (constructor;
      [repeat (constructor; [apply Key_intersecting_false_intro; simpl; lra |]);
       constructor |]).
    constructor.
Qed.

End LayoutFacts.

Section LayoutTheorems.
Local Open Scope R_scope.

(** X6.  Two different keys laid side by side without a gap, the
    second starting at the x where the first ends and at the same y, are
    rejected: [Keyboard([a, b])] raises the intersection error. *)
Theorem Keyboard_rejects_touching_keys (a b : Key.t) :
  Key.addr a <> Key.addr b ->
  0 <= Key.width a -> 0 <= Key.width b ->
  0 <= Key.height a -> 0 <= Key.height b ->
  Key.x b = Key.x a + Key.width a ->
  Key.y b = Key.y a ->
  Keyboard.__init__ [a; b] = raise (ValueError "Keys are intersecting").
Proof.
  intros Hab Hwa Hwb Hha Hhb Hx Hy.
  assert (Hi : Key.intersecting a b = true).
  { apply Key_intersecting_true. lra. }
  assert (Hc : KeyboardSpec.same_object_same_fields [a; b]).
  { apply Keyboard_consistent_of_NoDup. simpl.
    apply NoDup_cons. split; [| apply NoDup_singleton].
    rewrite list_elem_of_singleton. exact Hab. }
  assert (Hbad : Keyboard.check_intersections (Keyboard.set_of [a; b]) <> ret tt).
  { intros Hok. apply (Keyboard_check_set_of _ Hc) in Hok.
    rewrite (Hok a b) in Hi; [discriminate | | | exact Hab].
    - apply elem_of_cons. left. reflexivity.
    - apply elem_of_cons. right. apply list_elem_of_singleton. reflexivity. }
  pose proof (Keyboard_init_outcome [a; b]) as H.
  destruct (Keyboard.__init__ [a; b]) as [e | kb].
  - destruct H as [[-> _] | (l & _ & _ & Hok)]; [reflexivity | contradiction].
  - destruct H as (_ & _ & _ & Hok). contradiction.
Qed.

(** [key_a] and the key that starts where it ends. *)
Lemma Keyboard_rejects_touching_keys_witness :
  Keyboard.__init__ [ExtraInputs.key_a; ExtraInputs.key_touching_a] =
  raise (ValueError "Keys are intersecting").
Proof.
  apply (Keyboard_rejects_touching_keys ExtraInputs.key_a ExtraInputs.key_touching_a);
    simpl; try lra; lia.
Defined.

(** X7.  [generate_qwerty()] returns a keyboard: its 46 keys, one for
    each character of the four rows and one for the space, pass the
    constructor's checks, and [find_letter] finds each of these characters
    on exactly one key. *)
Theorem Qwerty_generate_qwerty_builds :
  exists kb : Keyboard.t,
    Qwerty.generate_qwerty = ret kb
    /\ length (Keyboard.keys kb) = 46%nat
    /\ map Key.letter (Keyboard.keys kb) =
       concat (map Qwerty.characters Qwerty.rows) ++ [" "]
    /\ Forall (fun letter : string =>
                 exists key : Key.t,
                   Keyboard.find_letter kb letter = (Some key, None, None)
                   /\ Key.letter key = letter
                   /\ key ∈ Keyboard.keys kb)
         (map Key.letter (Keyboard.keys kb)).
Proof.
  destruct Qwerty_keys_facts as (keys & Hgen & Haddr & Hletters & Hpairs).
  assert (Hnd_letters : NoDup (map Key.letter keys)).
  { rewrite Hletters.
    apply (bool_decide_unpack (NoDup (concat (map Qwerty.characters Qwerty.rows) ++ [" "]))).
    vm_compute. exact I. }
  assert (Hc : KeyboardSpec.same_object_same_fields keys).
  { apply Keyboard_consistent_of_NoDup. rewrite Haddr. apply NoDup_seq. }
  assert (Hok : Keyboard.check_intersections (Keyboard.set_of keys) = ret tt).
  { apply (Keyboard_check_set_of _ Hc). apply Keyboard_no_two_intersect_of_pairs, Hpairs. }
  pose proof (Keyboard_init_outcome keys) as H. rewrite <- Hgen in H.
  destruct Qwerty.generate_qwerty as [e | kb].
  - exfalso. destruct H as [[_ Hbad] | (l & _ & Hl & _)]; [contradiction |].
    pose proof (Keyboard_with_letter_NoDup l keys Hnd_letters). lia.
  - destruct H as (Hkeys & Hm & _ & _). exists kb. rewrite Hkeys.
    split; [reflexivity |].
    split; [rewrite <- (length_map Key.letter), Hletters; reflexivity |].
    split; [exact Hletters |].
    apply Forall_forall. intros letter Hin.
    rewrite (Keyboard_find_letter_key_map keys kb letter Hm).
    apply list_elem_of_fmap in Hin as (k & -> & Hk).
    pose proof (Keyboard_with_letter_NoDup (Key.letter k) keys Hnd_letters) as Hlen.
    assert (Hkin : k ∈ KeyboardSpec.with_letter (Key.letter k) keys).
    { apply list_elem_of_filter. split; [reflexivity | exact Hk]. }
    destruct (KeyboardSpec.with_letter (Key.letter k) keys) as [| k' [| k'' ws]] eqn:E.
    + inversion Hkin.
    + apply list_elem_of_singleton in Hkin as <-.
      exists k. split; [reflexivity | split; [reflexivity | exact Hk]].
    + simpl in Hlen. lia.
Qed.

End LayoutTheorems.

(** ** Vectors *)

Section Vec2Theorems.
Local Open Scope R_scope.

Lemma Vec2_eq (a b : Vec2.t) :
  Vec2.x a = Vec2.x b -> Vec2.y a = Vec2.y b -> a = b.
Proof. destruct a, b. simpl. intros -> ->. reflexivity. Qed.

(** X8.  Over the reals, rotating a vector by [a] and then by
    [b] is rotating it by [a + b]; rotating by 0 changes nothing. *)
Theorem Vec2_rotate_rotate (v : Vec2.t) (a b : R) :
  Vec2.rotate (Vec2.rotate v a) b = Vec2.rotate v (a + b)
  /\ Vec2.rotate v 0 = v.
Proof.
  split.
  - unfold Vec2.rotate. simpl. rewrite cos_plus, sin_plus. apply Vec2_eq; simpl; ring.
  - unfold Vec2.rotate. rewrite cos_0, sin_0. apply Vec2_eq; simpl; ring.
Qed.

(** X9.  Over the reals, a rotation keeps the dot product of two
    vectors and the length of a vector. *)
Theorem Vec2_rotate_isometry (u v : Vec2.t) (angle : R) :
  Vec2.dot (Vec2.rotate u angle) (Vec2.rotate v angle) = Vec2.dot u v
  /\ Vec2.length (Vec2.rotate v angle) = Vec2.length v.
Proof.
  pose proof (sin2_cos2 angle) as H. unfold Rsqr in H.
  split.
  - unfold Vec2.dot, Vec2.rotate. simpl.
    replace (Vec2.x u * Vec2.x v + Vec2.y u * Vec2.y v)
      with ((Vec2.x u * Vec2.x v + Vec2.y u * Vec2.y v)
            * (sin angle * sin angle + cos angle * cos angle))
      by (rewrite H; ring).
    ring.
  - unfold Vec2.length, Vec2.rotate. cbn [Vec2.x Vec2.y]. f_equal.
    replace (Vec2.x v ^ 2 + Vec2.y v ^ 2)
      with ((Vec2.x v ^ 2 + Vec2.y v ^ 2)
            * (sin angle * sin angle + cos angle * cos angle))
      by (rewrite H; ring).
    ring.
Qed.

(** X10.  Over the reals, the unit vector of an angle has length 1
    and is the vector (1, 0) rotated by that angle. *)
Theorem Vec2_unit_vector_length (angle : R) :
  Vec2.length (Vec2.unit_vector angle) = 1
  /\ Vec2.unit_vector angle = Vec2.rotate (Vec2.mk 1 0) angle
  /\ Vec2.length (Vec2.unit_vector_deg angle) = 1.
Proof.
  assert (H : forall a, Vec2.length (Vec2.unit_vector a) = 1).
  { intros a. unfold Vec2.length, Vec2.unit_vector. cbn [Vec2.x Vec2.y].
    pose proof (sin2_cos2 a) as H. unfold Rsqr in H.
    replace (cos a ^ 2 + sin a ^ 2) with 1 by (rewrite <- H; ring).
    apply sqrt_1. }
  split; [apply H |]. split; [| apply H].
  unfold Vec2.unit_vector, Vec2.rotate. apply Vec2_eq; simpl; ring.
Qed.

(** X11.  Over the reals, scaling a vector by a non-zero factor and
    dividing by the same factor returns the vector, and so does dividing
    first and scaling after. *)
Theorem Vec2_mul_truediv (v : Vec2.t) (k : R) :
  k <> 0 ->
  Vec2.__truediv__ (Vec2.__mul__ v k) k = ret v
  /\ (exists q : Vec2.t, Vec2.__truediv__ v k = ret q /\ Vec2.__mul__ q k = v).
Proof.
  intros Hk. split.
  - rewrite Vec2_truediv_nonzero by exact Hk. f_equal.
    apply Vec2_eq; simpl; field; exact Hk.
  - eexists. split; [apply Vec2_truediv_nonzero; exact Hk |].
    apply Vec2_eq; simpl; field; exact Hk.
Qed.

(** [Vec2(3, 4)] scaled and divided by 2. *)
Lemma Vec2_mul_truediv_witness :
  2 <> 0 /\ Vec2.__truediv__ (Vec2.__mul__ (Vec2.mk 3 4) 2) 2 = ret (Vec2.mk 3 4).
Proof.
  assert (H : 2 <> 0) by lra.
  split; [exact H |].
  apply (proj1 (Vec2_mul_truediv (Vec2.mk 3 4) 2 H)).
Defined.

End Vec2Theorems.

(** ** Transforms *)

Section T2DTheorems.
Local Open Scope R_scope.

Lemma mat3_eq (a b c d e f g h i a' b' c' d' e' f' g' h' i' : R) :
  a = a' -> b = b' -> c = c' -> d = d' -> e = e' -> f = f' ->
  g = g' -> h = h' -> i = i' ->
  [[a; b; c]; [d; e; f]; [g; h; i]] = [[a'; b'; c']; [d'; e'; f']; [g'; h'; i']].
Proof. intros; subst; reflexivity. Qed.

Ltac matmul_eval :=
  cbv [T2D.chain_translate T2D.chain_rotate T2D.compose T2D.matrix T2D.np_matmul
       T2D.np_dot T2D.np_column T2D.new_translation_matrix T2D.new_rotation_matrix
       T2D.__init__ T2D.identity3 T2D.set_entry Vec2.x Vec2.y Vec2.__add__];
  simpl.

Lemma T2D_init_affine : LinalgSpec.affine T2D.__init__ 1 0 0 0 1 0.
Proof. reflexivity. Qed.

Lemma T2D_translation_affine (v : Vec2.t) :
  LinalgSpec.affine (T2D.new_translation_matrix v) 1 0 (Vec2.x v) 0 1 (Vec2.y v).
Proof. reflexivity. Qed.

Lemma T2D_rotation_affine (angle : R) :
  LinalgSpec.affine (T2D.new_rotation_matrix angle)
    (cos angle) (- sin angle) 0 (sin angle) (cos angle) 0.
Proof. reflexivity. Qed.

Lemma T2D_chain_translate_affine (t : T2D.t) (v : Vec2.t) (a b c d e f : R) :
  LinalgSpec.affine t a b c d e f ->
  LinalgSpec.affine (T2D.chain_translate t v)
    a b (a * Vec2.x v + b * Vec2.y v + c)
    d e (d * Vec2.x v + e * Vec2.y v + f).
Proof.
  unfold LinalgSpec.affine. destruct t as [m]. simpl. intros ->.
  matmul_eval. apply mat3_eq; ring.
Qed.

Lemma T2D_chain_rotate_affine (t : T2D.t) (angle : R) (a b c d e f : R) :
  LinalgSpec.affine t a b c d e f ->
  LinalgSpec.affine (T2D.chain_rotate t angle)
    (a * cos angle + b * sin angle) (b * cos angle - a * sin angle) c
    (d * cos angle + e * sin angle) (e * cos angle - d * sin angle) f.
Proof.
  unfold LinalgSpec.affine. destruct t as [m]. simpl. intros ->.
  matmul_eval. apply mat3_eq; ring.
Qed.

Lemma T2D_constructible_is_affine (t : T2D.t) :
  LinalgSpec.constructible t -> LinalgSpec.is_affine t.
Proof.
  induction 1 as [| v | angle | t v _ (a & b & c & d & e & f & IH)
                  | t angle _ (a & b & c & d & e & f & IH)].
  - do 6 eexists. apply T2D_init_affine.
  - do 6 eexists. apply T2D_translation_affine.
  - do 6 eexists. apply T2D_rotation_affine.
  - do 6 eexists. apply T2D_chain_translate_affine, IH.
  - do 6 eexists. apply T2D_chain_rotate_affine, IH.
Qed.

Lemma T2D_eq (t t' : T2D.t) : T2D.matrix t = T2D.matrix t' -> t = t'.
Proof. destruct t, t'. simpl. intros ->. reflexivity. Qed.

(** X12.  Every transform the class can produce, from its
    constructors and by chaining, holds a 3 by 3 matrix whose last row is
    (0, 0, 1); chaining a translation or a rotation keeps that shape. *)
Theorem T2D_constructible_affine (t : T2D.t) :
  LinalgSpec.constructible t ->
  exists a b c d e f : R, T2D.matrix t = [[a; b; c]; [d; e; f]; [0; 0; 1]].
Proof.
  induction 1 as [| v | angle | t v _ (a & b & c & d & e & f & IH)
                  | t angle _ (a & b & c & d & e & f & IH)].
  - do 6 eexists. reflexivity.
  - do 6 eexists. reflexivity.
  - do 6 eexists. reflexivity.
  - do 6 eexists. apply (T2D_chain_translate_affine t v a b c d e f). exact IH.
  - do 6 eexists. apply (T2D_chain_rotate_affine t angle a b c d e f). exact IH.
Qed.

(** A rotation chained onto a translation is constructible. *)
Lemma T2D_constructible_affine_witness :
  exists a b c d e f : R,
    T2D.matrix (T2D.chain_rotate (T2D.new_translation_matrix (Vec2.mk 1 2)) PI) =
    [[a; b; c]; [d; e; f]; [0; 0; 1]].
Proof.
  apply (T2D_constructible_affine
           (T2D.chain_rotate (T2D.new_translation_matrix (Vec2.mk 1 2)) PI)).
  apply LinalgSpec.constructible_chain_rotate, LinalgSpec.constructible_translation.
Defined.

(** X13.  Chaining acts in the transform's own frame.  For a
    transform with linear part [a b; d e] and translation (c, f),
    [chain_translate] by [v] keeps the linear part and moves the translation
    to (a*v.x + b*v.y + c, d*v.x + e*v.y + f), and [chain_rotate] keeps the
    translation and multiplies the linear part by the rotation; so a
    translation chained onto a rotation by [angle] ends at [v.rotate(angle)]. *)
Theorem T2D_chain_local_frame (t : T2D.t) (v : Vec2.t) (angle a b c d e f : R) :
  T2D.matrix t = [[a; b; c]; [d; e; f]; [0; 0; 1]] ->
  T2D.matrix (T2D.chain_translate t v) =
    [[a; b; a * Vec2.x v + b * Vec2.y v + c];
     [d; e; d * Vec2.x v + e * Vec2.y v + f];
     [0; 0; 1]]
  /\ T2D.matrix (T2D.chain_rotate t angle) =
    [[a * cos angle + b * sin angle; b * cos angle - a * sin angle; c];
     [d * cos angle + e * sin angle; e * cos angle - d * sin angle; f];
     [0; 0; 1]]
  /\ T2D.entry (T2D.chain_translate (T2D.new_rotation_matrix angle) v) 0 2 =
     Vec2.x (Vec2.rotate v angle)
  /\ T2D.entry (T2D.chain_translate (T2D.new_rotation_matrix angle) v) 1 2 =
     Vec2.y (Vec2.rotate v angle).
Proof.
  intros Ht.
  split; [exact (T2D_chain_translate_affine t v a b c d e f Ht) |].
  split; [exact (T2D_chain_rotate_affine t angle a b c d e f Ht) |].
  pose proof (T2D_chain_translate_affine _ v _ _ _ _ _ _ (T2D_rotation_affine angle)) as H.
  unfold LinalgSpec.affine in H. unfold T2D.entry. rewrite H. simpl.
  unfold Vec2.rotate. simpl. split; ring.
Qed.

(** The identity transform, translated by (3, 4) or rotated by [PI]. *)
Lemma T2D_chain_local_frame_witness :
  T2D.matrix T2D.__init__ = [[1; 0; 0]; [0; 1; 0]; [0; 0; 1]]
  /\ T2D.matrix (T2D.chain_translate T2D.__init__ (Vec2.mk 3 4)) =
     [[1; 0; 1 * 3 + 0 * 4 + 0]; [0; 1; 0 * 3 + 1 * 4 + 0]; [0; 0; 1]].
Proof.
  assert (H : T2D.matrix T2D.__init__ = [[1; 0; 0]; [0; 1; 0]; [0; 0; 1]])
    by reflexivity.
  split; [exact H |].
  apply (proj1 (T2D_chain_local_frame T2D.__init__ (Vec2.mk 3 4) PI 1 0 0 0 1 0 H)).
Defined.

(** X14.  Over the reals and for every transform the class can
    produce: two chained rotations are one rotation by the sum of the
    angles, two chained translations are one translation by the sum of the
    vectors, and chaining onto a fresh transform gives the plain rotation or
    translation matrix. *)
Theorem T2D_chain_additive (t : T2D.t) (u v : Vec2.t) (a b : R) :
  LinalgSpec.constructible t ->
  T2D.chain_rotate (T2D.chain_rotate t a) b = T2D.chain_rotate t (a + b)
  /\ T2D.chain_translate (T2D.chain_translate t u) v =
     T2D.chain_translate t (Vec2.__add__ u v)
  /\ T2D.chain_rotate T2D.__init__ a = T2D.new_rotation_matrix a
  /\ T2D.chain_translate T2D.__init__ u = T2D.new_translation_matrix u.
Proof.
  intros Hc. destruct (T2D_constructible_is_affine t Hc) as (p & q & r & s & w & z & Ht).
  split; [| split; [| split]]; apply T2D_eq.
  - rewrite (T2D_chain_rotate_affine _ b _ _ _ _ _ _
               (T2D_chain_rotate_affine t a _ _ _ _ _ _ Ht)).
    rewrite (T2D_chain_rotate_affine t (a + b) _ _ _ _ _ _ Ht).
    rewrite cos_plus, sin_plus. apply mat3_eq; ring.
  - rewrite (T2D_chain_translate_affine _ v _ _ _ _ _ _
               (T2D_chain_translate_affine t u _ _ _ _ _ _ Ht)).
    rewrite (T2D_chain_translate_affine t (Vec2.__add__ u v) _ _ _ _ _ _ Ht).
    apply mat3_eq; simpl; ring.
  - rewrite (T2D_chain_rotate_affine _ a _ _ _ _ _ _ T2D_init_affine).
    rewrite (T2D_rotation_affine a). apply mat3_eq; ring.
  - rewrite (T2D_chain_translate_affine _ u _ _ _ _ _ _ T2D_init_affine).
    rewrite (T2D_translation_affine u). apply mat3_eq; ring.
Qed.

(** Two quarter turns chained onto a translation. *)
Lemma T2D_chain_additive_witness :
  LinalgSpec.constructible (T2D.new_translation_matrix (Vec2.mk 1 2))
  /\ T2D.chain_rotate (T2D.chain_rotate (T2D.new_translation_matrix (Vec2.mk 1 2))
                         (PI / 2)) (PI / 2) =
     T2D.chain_rotate (T2D.new_translation_matrix (Vec2.mk 1 2)) (PI / 2 + PI / 2).
Proof.
  assert (H : LinalgSpec.constructible (T2D.new_translation_matrix (Vec2.mk 1 2)))
    by apply LinalgSpec.constructible_translation.
  split; [exact H |].
  apply (proj1 (T2D_chain_additive _ (Vec2.mk 0 0) (Vec2.mk 0 0) (PI / 2) (PI / 2) H)).
Defined.

End T2DTheorems.

(** ** Armatures built bone by bone *)

Section ArmatureTheorems.

Lemma Armature_add_bone_ret (self self' : Armature.t) (bone : Bone.t) :
  Armature.add_bone self bone = ret self' ->
  Armature._bones self !! Bone.name bone = None
  /\ (forall p, Bone.parent bone = Some p ->
                is_Some (Armature._bones self !! Bone.name p))
  /\ self' = Armature.mk (<[Bone.name bone := bone]> (Armature._bones self)).
Proof.
  unfold Armature.add_bone.
  destruct (Armature.contains (Armature._bones self) (Bone.name bone)) eqn:Hn;
    [discriminate |].
  apply Armature_contains_false in Hn.
  destruct (Bone.parent bone) as [p |] eqn:Hp.
  - destruct (Armature.contains (Armature._bones self) (Bone.name p)) eqn:Hc; simpl;
      [| discriminate].
    intros [= <-]. apply Armature_contains_true in Hc.
    split; [exact Hn |]. split; [| reflexivity]. intros q [= <-]. exact Hc.
  - intros [= <-]. split; [exact Hn |]. split; [| reflexivity]. intros q Hq. discriminate.
Qed.

Lemma ArmatureSpec_add_each_lookup (bones : list Bone.t) :
  forall arm arm' : Armature.t,
    ArmatureSpec.add_each arm bones = ret arm' ->
    (forall n b, Armature._bones arm' !! n = Some b <->
                 Armature._bones arm !! n = Some b \/ (b ∈ bones /\ Bone.name b = n))
    /\ NoDup (map Bone.name bones)
    /\ (forall b, b ∈ bones -> Armature._bones arm !! Bone.name b = None)
    /\ size (Armature._bones arm') = (size (Armature._bones arm) + length bones)%nat.
Proof.
  induction bones as [| b0 rest IH]; intros arm arm' H; simpl in H.
  - injection H as <-. split; [| split; [| split]].
    + intros n b. split; [auto |]. intros [H | [H _]]; [exact H | inversion H].
    + constructor.
    + intros b Hb. inversion Hb.
    + simpl. lia.
  - destruct (Armature.add_bone arm b0) as [e | arm1] eqn:Hadd; [discriminate |].
    simpl in H. apply Armature_add_bone_ret in Hadd as (Hfresh & _ & ->).
    destruct (IH _ _ H) as (Hlook & Hnd & Hnone & Hsize). simpl in *.
    split; [| split; [| split]].
    + intros n b. rewrite Hlook. rewrite elem_of_cons.
      destruct (decide (Bone.name b0 = n)) as [<- | Hne].
      * rewrite lookup_insert_eq. rewrite Hfresh. split.
        -- intros [[= <-] | [Hb Hn]]; [right; auto | right; auto].
        -- intros [Hb | [[-> | Hb] Hn]]; [discriminate | left; reflexivity | right; auto].
      * rewrite lookup_insert_ne by exact Hne. split.
        -- intros [Hb | [Hb Hn]]; [left; exact Hb | right; auto].
        -- intros [Hb | [[-> | Hb] Hn]]; [left; exact Hb | contradiction | right; auto].
    + apply NoDup_cons. split; [| exact Hnd].
      intros Hin. apply list_elem_of_fmap in Hin as (b & Hb & Hbin).
      specialize (Hnone b Hbin). rewrite <- Hb, lookup_insert_eq in Hnone. discriminate.
    + intros b. rewrite elem_of_cons. intros [-> | Hb]; [exact Hfresh |].
      specialize (Hnone b Hb).
      destruct (decide (Bone.name b0 = Bone.name b)) as [E | Hne].
      * rewrite E, lookup_insert_eq in Hnone. discriminate.
      * rewrite lookup_insert_ne in Hnone by exact Hne. exact Hnone.
    + rewrite Hsize. rewrite map_size_insert_None by exact Hfresh. lia.
Qed.

Lemma ArmatureSpec_add_each_parents (bones : list Bone.t) :
  forall arm arm' : Armature.t,
    ArmatureSpec.add_each arm bones = ret arm' ->
    forall (i : nat) (b p : Bone.t),
      bones !! i = Some b -> Bone.parent b = Some p ->
      is_Some (Armature._bones arm !! Bone.name p)
      \/ exists (j : nat) (q : Bone.t),
           (j < i)%nat /\ bones !! j = Some q /\ Bone.name q = Bone.name p.
Proof.
  induction bones as [| b0 rest IH]; intros arm arm' H i b p Hi Hp; simpl in H.
  - inversion Hi.
  - destruct (Armature.add_bone arm b0) as [e | arm1] eqn:Hadd; [discriminate |].
    simpl in H. apply Armature_add_bone_ret in Hadd as (Hfresh & Hpar & ->).
    destruct i as [| i]; simpl in Hi.
    + injection Hi as <-. left. apply Hpar, Hp.
    + destruct (IH _ _ H i b p Hi Hp) as [Hs | (j & q & Hj & Hq & Hn)].
      * simpl in Hs. destruct (decide (Bone.name b0 = Bone.name p)) as [E | Hne].
        -- right. exists 0%nat, b0. split; [lia |]. split; [reflexivity | exact E].
        -- rewrite lookup_insert_ne in Hs by exact Hne. left. exact Hs.
      * right. exists (S j), q. split; [lia |]. split; [exact Hq | exact Hn].
Qed.

Lemma ArmatureSpec_add_each_p_c :
  ArmatureSpec.add_each Inputs.empty_armature [Inputs.bone_p; Inputs.bone_c_linked] =
  ret (Armature.mk (<["c" := Inputs.bone_c_linked]> (<["p" := Inputs.bone_p]> ∅))).
Proof.
  simpl. rewrite (Armature_add_bone_inserts Inputs.empty_armature Inputs.bone_p).
  - simpl. rewrite Armature_add_bone_inserts.
    + reflexivity.
    + reflexivity.
    + intros q [= <-]. simpl. rewrite lookup_insert_eq. eexists. reflexivity.
  - reflexivity.
  - intros q Hq. discriminate.
Qed.

(** X15.  An armature built from the empty one by adding bones
    one after the other with the function [add_bone] holds exactly those
    bones, each under its own name: the names in the list are pairwise
    different, the number of entries is the number of bones, and looking a
    name up gives the bone of the list that bears it. *)
Theorem Armature_add_each_content (bones : list Bone.t) (arm : Armature.t) :
  ArmatureSpec.add_each Inputs.empty_armature bones = ret arm ->
  (forall (n : string) (b : Bone.t),
      Armature._bones arm !! n = Some b <-> b ∈ bones /\ Bone.name b = n)
  /\ NoDup (map Bone.name bones)
  /\ size (Armature._bones arm) = length bones.
Proof.
  intros H. destruct (ArmatureSpec_add_each_lookup bones _ _ H) as (Hl & Hnd & _ & Hs).
  split; [| split; [exact Hnd |]].
  - intros n b. rewrite Hl. simpl. rewrite lookup_empty. split.
    + intros [Hb | Hb]; [discriminate | exact Hb].
    + intros Hb. right. exact Hb.
  - rewrite Hs. simpl. rewrite map_size_empty. reflexivity.
Qed.

(** The parent "p" added first, then its child "c". *)
Lemma Armature_add_each_content_witness :
  ArmatureSpec.add_each Inputs.empty_armature [Inputs.bone_p; Inputs.bone_c_linked] =
    ret (Armature.mk (<["c" := Inputs.bone_c_linked]> (<["p" := Inputs.bone_p]> ∅)))
  /\ size (<["c" := Inputs.bone_c_linked]> (<["p" := Inputs.bone_p]> (∅ : gmap string Bone.t)))
     = 2%nat.
Proof.
  split; [exact ArmatureSpec_add_each_p_c |].
  apply (proj2 (proj2 (Armature_add_each_content _ _ ArmatureSpec_add_each_p_c))).
Defined.

(** X16.  In a list of bones that [add_bone] accepted one after
    the other, starting from the empty armature, every bone with a parent
    attached comes after a bone that bears the parent's name: nothing refers
    forward, and every parent name is a key of the armature. *)
Theorem Armature_add_each_parents_first (bones : list Bone.t) (arm : Armature.t)
    (i : nat) (b p : Bone.t) :
  ArmatureSpec.add_each Inputs.empty_armature bones = ret arm ->
  bones !! i = Some b ->
  Bone.parent b = Some p ->
  (exists (j : nat) (q : Bone.t),
      (j < i)%nat /\ bones !! j = Some q /\ Bone.name q = Bone.name p)
  /\ is_Some (Armature._bones arm !! Bone.name p).
Proof.
  intros H Hi Hp.
  destruct (ArmatureSpec_add_each_parents bones _ _ H i b p Hi Hp)
    as [Hs | (j & q & Hj & Hq & Hn)].
  - simpl in Hs. rewrite lookup_empty in Hs. destruct Hs as [x Hx]. discriminate.
  - split; [exists j, q; auto |].
    destruct (ArmatureSpec_add_each_lookup bones _ _ H) as (Hl & _).
    exists q. apply Hl. right. split; [| exact Hn].
    apply list_elem_of_lookup. exists j. exact Hq.
Qed.

(** The child "c", second in the list, and its parent "p", first. *)
Lemma Armature_add_each_parents_first_witness :
  exists (j : nat) (q : Bone.t),
    (j < 1)%nat
    /\ [Inputs.bone_p; Inputs.bone_c_linked] !! j = Some q
    /\ Bone.name q = Bone.name Inputs.bone_p.
Proof.
  apply (proj1 (Armature_add_each_parents_first
                  [Inputs.bone_p; Inputs.bone_c_linked] _ 1 Inputs.bone_c_linked
                  Inputs.bone_p ArmatureSpec_add_each_p_c eq_refl eq_refl)).
Defined.

(** X17.  After [add_bone] has stored a bone whose name has no
    leading underscore, reading the attribute of that name on the armature
    gives back that bone; reading a name without leading underscore that no
    bone bears raises [KeyError] with that name. *)
Theorem Armature_add_bone_then_getattribute (self self' : Armature.t) (bone : Bone.t) :
  Armature.add_bone self bone = ret self' ->
  String.prefix "_" (Bone.name bone) = false ->
  Armature.__getattribute__ self' (Bone.name bone) = ret (Armature.attr_bone bone)
  /\ (forall name : string,
        String.prefix "_" name = false ->
        Armature._bones self' !! name = None ->
        Armature.__getattribute__ self' name = raise (KeyError name)).
Proof.
  intros Hadd Hpub. apply Armature_add_bone_ret in Hadd as (_ & _ & ->). split.
  - rewrite Armature_getattribute_public by exact Hpub. simpl.
    rewrite lookup_insert_eq. reflexivity.
  - intros name Hname Hnone. rewrite Armature_getattribute_public by exact Hname.
    rewrite Hnone. reflexivity.
Qed.

(** The bone "a" added to the empty armature and read back. *)
Lemma Armature_add_bone_then_getattribute_witness :
  Armature.add_bone Inputs.empty_armature Inputs.bone_a1 =
    ret (Armature.mk (<["a" := Inputs.bone_a1]> ∅))
  /\ Armature.__getattribute__ (Armature.mk (<["a" := Inputs.bone_a1]> ∅)) "a" =
     ret (Armature.attr_bone Inputs.bone_a1).
Proof.
  assert (H : Armature.add_bone Inputs.empty_armature Inputs.bone_a1 =
              ret (Armature.mk (<["a" := Inputs.bone_a1]> ∅))).
  { apply Armature_add_bone_constructed. reflexivity. }
  split; [exact H |].
  apply (proj1 (Armature_add_bone_then_getattribute _ _ Inputs.bone_a1 H eq_refl)).
Defined.

(** X19.  [Armature(bones)] returns only when no bone is passed:
    for [None] and for the empty list it returns the empty armature, and
    for every list with a first bone it raises, since its loop calls
    [self.add_bone]. *)
Theorem Armature_init_returns_iff (bones : option (list Bone.t)) :
  (returns (Armature.__init__ bones) <-> bones = None \/ bones = Some [])
  /\ (returns (Armature.__init__ bones) ->
      Armature.__init__ bones = ret (Armature.mk ∅)).
Proof.
  destruct bones as [[| b rest] |].
  - split; [split; [intros _; right; reflexivity | intros _; exact I] |].
    intros _. reflexivity.
  - rewrite Armature_init_nonempty. simpl.
    split; [split; [intros [] | intros [H | H]; discriminate] | intros []].
  - split; [split; [intros _; left; reflexivity | intros _; exact I] |].
    intros _. reflexivity.
Qed.

(** [Armature([])]. *)
Lemma Armature_init_returns_iff_witness :
  returns (Armature.__init__ (Some []))
  /\ Armature.__init__ (Some []) = ret (Armature.mk ∅).
Proof.
  assert (H : returns (Armature.__init__ (Some []))) by exact I.
  split; [exact H |].
  apply (proj2 (Armature_init_returns_iff (Some [])) H).
Defined.

End ArmatureTheorems.

(** ** Hand shapes and the cost of a pose *)

Section HandTheorems.
Local Open Scope R_scope.

Lemma HandShape_assert_pairs_result (pairs : list (R * R)) :
  HandShape.assert_pairs pairs = ret tt
  \/ HandShape.assert_pairs pairs =
     raise (AssertionError "default contraction cannot be greater than max contraction").
Proof.
  induction pairs as [| [d m] rest IH]; simpl; [left; reflexivity |].
  destruct (PyFloat.leb d m); [exact IH | right; reflexivity].
Qed.

(** X20.  [_assert_integrity] returns exactly when, for each
    of the five digits, the default contraction is at most the maximum
    contraction; otherwise it raises [AssertionError] with the message of
    the [assert]. *)
Theorem HandShape_assert_integrity_outcome (s : HandShape.t) :
  (HandShape._assert_integrity s = ret tt <->
   HandShape.index_default_contraction s <= HandShape.index_max_contraction s
   /\ HandShape.middle_default_contraction s <= HandShape.middle_max_contraction s
   /\ HandShape.ring_default_contraction s <= HandShape.ring_max_contraction s
   /\ HandShape.pinky_default_contraction s <= HandShape.pinky_max_contraction s
   /\ HandShape.thumb_default_contraction s <= HandShape.thumb_max_contraction s)
  /\ (HandShape._assert_integrity s = ret tt
      \/ HandShape._assert_integrity s =
         raise (AssertionError "default contraction cannot be greater than max contraction")).
Proof.
  split; [apply HandShape_assert_integrity_ok |].
  unfold HandShape._assert_integrity. apply HandShape_assert_pairs_result.
Qed.

(** X21.  For a shape the integrity check accepts, every pose
    that passes the feasibility gate holds each digit at or above its
    default contraction: default <= maximum contraction <= extension <= 1.
    The default contraction itself is feasible only where it equals the
    maximum contraction. *)
Theorem HandShape_integrity_and_gate (s : HandShape.t) (pose : HandPosition.t) :
  HandShape._assert_integrity s = ret tt ->
  Spec.feasible s pose ->
  (HandShape.thumb_default_contraction s <= HandShape.thumb_max_contraction s
     <= HandPosition.thumb_extension pose)
  /\ (HandShape.index_default_contraction s <= HandShape.index_max_contraction s
     <= HandPosition.index_extension pose)
  /\ (HandShape.middle_default_contraction s <= HandShape.middle_max_contraction s
     <= HandPosition.middle_extension pose)
  /\ (HandShape.ring_default_contraction s <= HandShape.ring_max_contraction s
     <= HandPosition.ring_extension pose)
  /\ (HandShape.pinky_default_contraction s <= HandShape.pinky_max_contraction s
     <= HandPosition.pinky_extension pose).
Proof.
  intros Hi Hf. apply HandShape_assert_integrity_ok in Hi.
  unfold Spec.feasible, Spec.other_checks, Spec.within in Hf. lra.
Qed.

Lemma HandSpec_shape_passing_integrity :
  HandShape._assert_integrity HandSpec.shape_passing_integrity = ret tt.
Proof. apply HandShape_assert_integrity_ok. simpl. lra. Qed.

Lemma HandSpec_pose_bent_fingers_feasible :
  Spec.feasible HandSpec.shape_passing_integrity HandSpec.pose_bent_fingers.
Proof.
  unfold Spec.feasible, Spec.wrist_check, Spec.other_checks, Spec.within. simpl. lra.
Qed.

(** A shape whose defaults equal the maxima, and a pose with every
    extension at 0.6. *)
Lemma HandShape_integrity_and_gate_witness :
  HandShape.thumb_default_contraction HandSpec.shape_passing_integrity
    <= HandShape.thumb_max_contraction HandSpec.shape_passing_integrity
    <= HandPosition.thumb_extension HandSpec.pose_bent_fingers.
Proof.
  apply (proj1 (HandShape_integrity_and_gate _ _ HandSpec_shape_passing_integrity
                  HandSpec_pose_bent_fingers_feasible)).
Defined.

Lemma finger_splay_term_floor (splay max w : R) :
  - max <= splay <= 0 -> 0 <= w -> max * w <= Rabs (splay - max) * w.
Proof.
  intros [H1 H2] Hw. rewrite Rabs_left1 by lra.
  apply Rmult_le_compat_r; [exact Hw | lra].
Qed.

(** X22.  With non-negative weights, a pose that passes the gate
    costs at least the sum over the four fingers of maximum splay times
    splay cost: the gate keeps each finger's splay at or below 0 while the
    cost measures its distance from the maximum splay. *)
Theorem HandPosition_cost_floor (pose : HandPosition.t) (shape : HandShape.t) :
  Spec.nonneg_weights shape ->
  Spec.feasible shape pose ->
  exists r : R,
    HandPosition.calculate_cost pose shape = HandPosition.finite r
    /\ HandSpec.finger_splay_floor shape <= r
    /\ 0 <= HandSpec.finger_splay_floor shape.
Proof.
  intros Hw Hf. exists (HandPosition.deviation_cost pose shape).
  split; [apply HandPosition_cost_feasible, Hf |].
  destruct Hw as (Hwi & Hwo & Hts & Htc & His & Hic & Hms & Hmc & Hrs & Hrc & Hps & Hpc).
  destruct Hf as [_ (_ & Hi & Hm & Hr & Hp & _)]. unfold Spec.within in *.
  pose proof (finger_splay_term_floor _ _ _ Hi His) as Fi.
  pose proof (finger_splay_term_floor _ _ _ Hm Hms) as Fm.
  pose proof (finger_splay_term_floor _ _ _ Hr Hrs) as Fr.
  pose proof (finger_splay_term_floor _ _ _ Hp Hps) as Fp.
  assert (0 <= HandShape.index_max_splay shape * HandShape.index_splay_cost shape)
    by (apply Rmult_le_pos; lra).
  assert (0 <= HandShape.middle_max_splay shape * HandShape.middle_splay_cost shape)
    by (apply Rmult_le_pos; lra).
  assert (0 <= HandShape.ring_max_splay shape * HandShape.ring_splay_cost shape)
    by (apply Rmult_le_pos; lra).
  assert (0 <= HandShape.pinky_max_splay shape * HandShape.pinky_splay_cost shape)
    by (apply Rmult_le_pos; lra).
  unfold HandSpec.finger_splay_floor. split; [| lra].
  unfold HandPosition.deviation_cost. cbv zeta.
  pose proof (weighted_deviation_nonneg
    (HandPosition.wrist_rotation pose - HandShape.wrist_rest_position shape) _ Hwi) as W1.
  pose proof (weighted_deviation_nonneg
    (HandPosition.wrist_rotation pose - HandShape.wrist_rest_position shape) _ Hwo) as W2.
  pose proof (weighted_deviation_nonneg
    (HandPosition.thumb_splay pose - HandShape.thumb_rest_position shape) _ Hts) as T1.
  pose proof (weighted_deviation_nonneg
    (HandPosition.thumb_extension pose - HandShape.thumb_default_contraction shape) _ Htc) as T2.
  pose proof (weighted_deviation_nonneg
    (HandPosition.index_extension pose - HandShape.index_default_contraction shape) _ Hic) as I2.
  pose proof (weighted_deviation_nonneg
    (HandPosition.middle_extension pose - HandShape.middle_default_contraction shape) _ Hmc) as M2.
  pose proof (weighted_deviation_nonneg
    (HandPosition.ring_extension pose - HandShape.ring_default_contraction shape) _ Hrc) as R2.
  pose proof (weighted_deviation_nonneg
    (HandPosition.pinky_extension pose - HandShape.pinky_default_contraction shape) _ Hpc) as P2.
  destruct (PyFloat.ltb _ _); lra.
Qed.

(** The default field values and the default pose: the floor is 33.8. *)
Lemma HandPosition_cost_floor_witness :
  Spec.nonneg_weights HandShape.defaults
  /\ Spec.feasible HandShape.defaults HandPosition.defaults
  /\ exists r : R,
       HandPosition.calculate_cost HandPosition.defaults HandShape.defaults =
         HandPosition.finite r
       /\ HandSpec.finger_splay_floor HandShape.defaults <= r
       /\ 0 <= HandSpec.finger_splay_floor HandShape.defaults.
Proof.
  assert (Hw : Spec.nonneg_weights HandShape.defaults).
  { unfold Spec.nonneg_weights. simpl. lra. }
  assert (Hf : Spec.feasible HandShape.defaults HandPosition.defaults).
  { unfold Spec.feasible, Spec.wrist_check, Spec.other_checks, Spec.within. simpl. lra. }
  split; [exact Hw |]. split; [exact Hf |].
  apply (HandPosition_cost_floor HandPosition.defaults HandShape.defaults Hw Hf).
Defined.

End HandTheorems.

(** ** Fingertips *)

Section FingertipTheorems.
Local Open Scope R_scope.

Lemma Hands_wrist_step_left_right (theta : R) (pos : R * R) :
  Hands.wrist_step false theta pos =
  (- fst (Hands.wrist_step true theta pos), snd (Hands.wrist_step true theta pos)).
Proof. destruct pos as [x y]. reflexivity. Qed.

(** X23.  For hands built from one shape, the left hand's
    fingertips are the right hand's with the x-coordinate negated, for every
    pose; the y-coordinates are the same. *)
Theorem Hands_left_mirrors_right (shape : HandShape.t) (pose : HandPosition.t) :
  Hands.get_fingertip_coords (Hands.__init__ shape) false pose =
  map (fun tip : R * R => (- fst tip, snd tip))
      (Hands.get_fingertip_coords (Hands.__init__ shape) true pose).
Proof.
  unfold Hands.get_fingertip_coords. cbv zeta.
  cbn [Hands.left_shape Hands.right_shape Hands.__init__].
  rewrite map_map. apply map_ext. intros pos. apply Hands_wrist_step_left_right.
Qed.

(** X24.  With the wrist rotation at 0, whatever the splays and
    extensions, the returned fingertips are the tips computed from root,
    splay and extension, unchanged for the right hand and with x negated
    for the left hand. *)
Theorem Hands_fingertips_wrist_zero (hands : Hands.t) (right_hand : bool)
    (pose : HandPosition.t) :
  HandPosition.wrist_rotation pose = 0 ->
  Hands.get_fingertip_coords hands right_hand pose =
  map (fun tip : R * R => (if right_hand then fst tip else - fst tip, snd tip))
      (Hands.tip_positions
         (if right_hand then Hands.right_shape hands else Hands.left_shape hands) pose).
Proof.
  intros Hw. unfold Hands.get_fingertip_coords. cbv zeta. rewrite Hw.
  apply map_ext. intros pos. rewrite Hands_wrist_step_0. reflexivity.
Qed.

(** The default pose has wrist rotation 0. *)
Lemma Hands_fingertips_wrist_zero_witness :
  HandPosition.wrist_rotation HandPosition.defaults = 0
  /\ Hands.get_fingertip_coords Inputs.default_hands false HandPosition.defaults =
     map (fun tip : R * R => (- fst tip, snd tip))
         (Hands.tip_positions HandShape.defaults HandPosition.defaults).
Proof.
  split; [reflexivity |].
  apply (Hands_fingertips_wrist_zero Inputs.default_hands false HandPosition.defaults
           eq_refl).
Defined.

Lemma tip_offset_dist2 (root : R * R) (splay reach : R) :
  HandSpec.dist2 (fst root + sin splay * reach, snd root + cos splay * reach) root =
  reach * reach.
Proof.
  unfold HandSpec.dist2. simpl.
  pose proof (sin2_cos2 splay) as H. unfold Rsqr in H.
  replace (reach * reach)
    with (reach * reach * (sin splay * sin splay + cos splay * cos splay))
    by (rewrite H; ring).
  ring.
Qed.

(** X25.  Over the reals, before the wrist rotation each tip lies
    at distance length times extension from its digit's root, whatever the
    splay: the squared distance is the square of that reach. *)
Theorem Hands_tip_positions_reach (shape : HandShape.t) (pose : HandPosition.t) :
  Forall2 (fun (tip : R * R) (digit : (R * R) * R) =>
             HandSpec.dist2 tip (fst digit) = snd digit * snd digit)
    (Hands.tip_positions shape pose) (HandSpec.roots_and_reaches shape pose).
Proof.
  unfold Hands.tip_positions, HandSpec.roots_and_reaches. cbv zeta.
  repeat constructor; cbn [fst snd];
    match goal with
    | |- HandSpec.dist2 (fst ?r + sin ?s * ?l * ?e, snd ?r + cos ?s * ?l * ?e) ?r = _ =>
        rewrite <- (tip_offset_dist2 r s (l * e)); f_equal; apply pair_eq; ring
    end.
Qed.

(** X26.  For every hand, side and pose, each returned tip has
    the x-coordinate of the rotation formula applied to the tip before the
    rotation (negated for the left hand), and a y-coordinate that exceeds
    the formula's by sin(theta) * (x' - x), where x is the x before the
    rotation and x' the rotated one: the two agree exactly when that product
    is 0. *)
Theorem Hands_fingertips_against_formula (hands : Hands.t) (right_hand : bool)
    (pose : HandPosition.t) :
  Forall2 (fun out tip : R * R =>
             let formula := Spec.rotate_deg (HandPosition.wrist_rotation pose) tip in
             fst out = (if right_hand then fst formula else - fst formula)
             /\ snd out =
                snd formula
                + sin (math.radians (HandPosition.wrist_rotation pose))
                  * (fst formula - fst tip)
             /\ (snd out = snd formula <->
                 sin (math.radians (HandPosition.wrist_rotation pose))
                 * (fst formula - fst tip) = 0))
    (Hands.get_fingertip_coords hands right_hand pose)
    (Hands.tip_positions
       (if right_hand then Hands.right_shape hands else Hands.left_shape hands) pose).
Proof.
  unfold Hands.get_fingertip_coords. cbv zeta.
  apply Forall2_fmap_l. apply Forall_Forall2_diag. apply Forall_forall.
  intros tip _. cbv zeta.
  pose proof (Hands_wrist_step_fst right_hand (HandPosition.wrist_rotation pose) tip) as Hx.
  pose proof (Hands_wrist_step_snd right_hand (HandPosition.wrist_rotation pose) tip) as Hy.
  unfold Spec.mirror_x in Hx, Hy. cbn [fst snd] in Hx, Hy.
  split; [exact Hx |]. split; [exact Hy |].
  rewrite Hy. split; intros H; lra.
Qed.

End FingertipTheorems.
